(** * guard_worker: the alert pipeline of the Security Guard Worker

    A shallow embedding of [src/email.ts] and [src/index.ts]: the HTML
    escaper, the alert-email renderer, the app-registry resolver, the CSP
    app-name inference, payload validation, the two request handlers, the
    email transport and the worker's [fetch] entry point.

    [src/email.ts] and the [src/index.ts] that imports it are the current
    revision of the worker; an earlier [src/index.ts] holds the escaper and
    the renderer inline, checks only that [appName] is truthy and has no
    size check; its resolver, inference and transport are those of the
    current one.

    A string is the sequence of its code units, one [ascii] each: the
    model covers text whose code units are below 256. Every character
    test of the worker is on an ASCII character; the case mapping
    [toUpperCase] is the runtime's, of which the development only uses
    what it does on ASCII text. *)

From Stdlib Require Import Ascii ZArith Lia Bool.
From stdpp Require Import base strings gmap.

Local Open Scope Z_scope.

(** ** Strings *)

(** The double-quote character. *)
Definition dquote : ascii := "034"%char.

(** [str.replace(/c/g, r)]: every occurrence of the single character [c]
    is replaced by [r], scanning left to right. *)
Fixpoint replace_all (c : ascii) (r : string) (s : string) : string :=
  match s with
  | EmptyString => EmptyString
  | String a s' =>
      if Ascii.eqb a c then r +:+ replace_all c r s'
      else String a (replace_all c r s')
  end.

(** ** [src/email.ts]: escapeHtml *)

Definition escapeHtml (str : string) : string :=
  replace_all "'" "&#039;"
    (replace_all dquote "&quot;"
       (replace_all ">" "&gt;"
          (replace_all "<" "&lt;"
             (replace_all "&" "&amp;" str)))).

(** The contract of the escaper, character by character: the entity of a
    metacharacter, the character itself otherwise. *)
Definition html_entity (c : ascii) : string :=
  if Ascii.eqb c "&" then "&amp;"
  else if Ascii.eqb c "<" then "&lt;"
  else if Ascii.eqb c ">" then "&gt;"
  else if Ascii.eqb c dquote then "&quot;"
  else if Ascii.eqb c "'" then "&#039;"
  else String c EmptyString.

Fixpoint escape_each (s : string) : string :=
  match s with
  | EmptyString => EmptyString
  | String c s' => html_entity c +:+ escape_each s'
  end.

Definition is_html_meta (c : ascii) : bool :=
  Ascii.eqb c "&" || Ascii.eqb c "<" || Ascii.eqb c ">"
  || Ascii.eqb c dquote || Ascii.eqb c "'".

Fixpoint has_html_meta (s : string) : bool :=
  match s with
  | EmptyString => false
  | String c s' => is_html_meta c || has_html_meta s'
  end.

(** [qq s] is [s] with every backquote turned into a double quote. The
    literals below are written with a backquote wherever the TypeScript
    source has a double quote inside a string or template. *)
Definition qq (s : string) : string :=
  replace_all "`" (String dquote EmptyString) s.

(** The capital of an ASCII letter; any other character is kept. *)
Definition upper_char (c : ascii) : ascii :=
  let n := N_of_ascii c in
  if ((97 <=? n) && (n <=? 122))%N then ascii_of_N (n - 32) else c.

(** The upper-case form of ASCII text: a-z become A-Z, character by
    character. *)
Fixpoint upper_ascii (s : string) : string :=
  match s with
  | EmptyString => EmptyString
  | String c s' => String (upper_char c) (upper_ascii s')
  end.

(** The text holds ASCII characters only: every code unit is below 128. *)
Fixpoint ascii_text (s : string) : bool :=
  match s with
  | EmptyString => true
  | String c s' => (N_of_ascii c <? 128)%N && ascii_text s'
  end.

(** [s.startsWith(p)], written [starts_with p s]. *)
Fixpoint starts_with (p s : string) : bool :=
  match p, s with
  | EmptyString, _ => true
  | String _ _, EmptyString => false
  | String a p', String b s' => Ascii.eqb a b && starts_with p' s'
  end.

(** [s.includes(m)]. *)
Fixpoint includes (s m : string) : bool :=
  starts_with m s ||
  match s with
  | EmptyString => false
  | String _ s' => includes s' m
  end.

(** White space as [trim] and [parseInt] skip it, among the code units
    below 256: tab to carriage return, space and no-break space. *)
Definition is_space (c : ascii) : bool :=
  let n := N_of_ascii c in
  ((9 <=? n) && (n <=? 13) || (n =? 32) || (n =? 160))%N.

Fixpoint trim_start (s : string) : string :=
  match s with
  | EmptyString => EmptyString
  | String c s' => if is_space c then trim_start s' else s
  end.

Fixpoint trim_end (s : string) : string :=
  match s with
  | EmptyString => EmptyString
  | String c s' =>
      match trim_end s' with
      | EmptyString => if is_space c then EmptyString else String c EmptyString
      | r => String c r
      end
  end.

(** [s.trim()]. *)
Definition trim (s : string) : string := trim_end (trim_start s).

(** [parts.join(sep)] on strings. *)
Fixpoint join (sep : string) (parts : list string) : string :=
  match parts with
  | [] => EmptyString
  | [x] => x
  | x :: rest => x +:+ sep +:+ join sep rest
  end.

Definition digit_char (d : Z) : ascii :=
  match d with
  | 0 => "0" | 1 => "1" | 2 => "2" | 3 => "3" | 4 => "4"
  | 5 => "5" | 6 => "6" | 7 => "7" | 8 => "8" | _ => "9"
  end%char.

(** The value of a decimal digit, code units 48 to 57. *)
Definition digit_value (c : ascii) : option Z :=
  let n := Z.of_N (N_of_ascii c) in
  if (48 <=? n) && (n <=? 57) then Some (n - 48) else None.

(** The value of the longest prefix of decimal digits of [s], continuing
    from [acc]; [None] when [s] does not start with a digit and [acc] is
    [None]. *)
Fixpoint leading_digits (acc : option Z) (s : string) : option Z :=
  match s with
  | EmptyString => acc
  | String c s' =>
      match digit_value c with
      | Some d => leading_digits (Some (10 * default 0 acc + d)) s'
      | None => acc
      end
  end.

(** [parseInt(s, 10)]: leading white space, an optional sign, then the
    longest run of decimal digits; [None] is NaN. The result is the exact
    integer: the worker only compares it with 102400, and rounding to a
    double preserves that comparison. *)
Definition parseInt (s : string) : option Z :=
  match trim_start s with
  | String "-" r => Z.opp <$> leading_digits None r
  | String "+" r => leading_digits None r
  | r => leading_digits None r
  end.

(** ** Exceptions *)

Inductive exn : Set := TypeError | RangeError | SyntaxError | NetworkError.

(** The result of evaluating an expression that may throw. *)
Inductive outcome (A : Type) : Type :=
| Returns (a : A)
| Throws (e : exn).
Arguments Returns {A} a.
Arguments Throws {A} e.

Definition bind {A B : Type} (m : outcome A) (k : A -> outcome B) : outcome B :=
  match m with
  | Returns a => k a
  | Throws e => Throws e
  end.

Notation "'let*' x ':=' m 'in' k" := (bind m (fun x => k))
  (at level 10, x name, m at level 200, k at level 200).

(** ** The platform

    What the worker takes from its JavaScript runtime and this development
    does not define: IEEE numbers, date parsing, the WHATWG URL parser and
    the Unicode case mapping. *)

Record URL : Type := { protocol : string; hostname : string }.

Class Platform : Type := {
  (** JavaScript numbers as [JSON.parse] produces them. *)
  number : Type;
  (** [ToBoolean]: false for zero ([JSON.parse] never yields NaN). *)
  number_truthy : number -> bool;
  (** [Number::toString] in radix 10. *)
  number_to_string : number -> string;
  (** The integral part of a finite number, truncated toward zero; [None]
      for an infinity. *)
  number_to_integer : number -> option Z;
  (** [Date.parse]: a time value, [None] for NaN. *)
  date_parse : string -> option Z;
  (** [new URL(s)]; [None] when the constructor throws. *)
  url_parse : string -> option URL;
  (** [s.toUpperCase()], the locale-independent Unicode case mapping. *)
  toUpperCase : string -> string;
  (** On ASCII text it turns a-z into A-Z and keeps every other
      character. *)
  toUpperCase_ascii :
    forall s, ascii_text s = true -> toUpperCase s = upper_ascii s;
}.

(** ** The network *)

(** An outbound [fetch] call. *)
Record FetchRequest : Type := {
  fetch_url : string;
  fetch_method : string;
  fetch_headers : list (string * string);
  fetch_body : option string;
}.

(** What the provider answers: a status, and the body text or the error
    of reading it. *)
Record FetchResponse : Type := {
  fetch_status : Z;
  fetch_text : outcome string;
}.

(** [response.ok] *)
Definition fetch_ok (r : FetchResponse) : bool :=
  (200 <=? fetch_status r) && (fetch_status r <=? 299).

(** The network as the worker sees it: each call is answered, or fails
    ([None]: the promise of [fetch] rejects). *)
Definition Network : Type := FetchRequest -> option FetchResponse.

(** An asynchronous computation: given the network, the outbound calls it
    makes, in order, and its result. Logging is left out. *)
Definition io (A : Type) : Type := Network -> list FetchRequest * outcome A.

Definition io_ret {A : Type} (a : A) : io A := fun _ => ([], Returns a).

Definition io_lift {A : Type} (m : outcome A) : io A := fun _ => ([], m).

Definition io_bind {A B : Type} (m : io A) (k : A -> io B) : io B :=
  fun net =>
    match m net with
    | (calls, Returns a) =>
        let '(calls', r) := k a net in (calls ++ calls', r)
    | (calls, Throws e) => (calls, Throws e)
    end.

Definition io_fetch (req : FetchRequest) : io FetchResponse :=
  fun net =>
    ([req], match net req with
            | Some response => Returns response
            | None => Throws NetworkError
            end).

Notation "'let!' x ':=' m 'in' k" := (io_bind m (fun x => k))
  (at level 10, x name, m at level 200, k at level 200).

(** Environment bindings: [SENDGRID_API_KEY], [FROM_EMAIL] and the
    [APP_<APPNAME>_EMAIL] entries of the app registry. *)
Abbreviation Env := (gmap string string).

Section Model.
Context {P : Platform}.

(** ** JavaScript values

    The values [JSON.parse] yields, and [undefined]. An object holds its own
    properties in enumeration order, each key once. *)
#[warnings="-register-all"]
Inductive jsval : Type :=
| JUndefined
| JNull
| JBool (b : bool)
| JNum (n : number)
| JStr (s : string)
| JArr (items : list jsval)
| JObj (props : list (string * jsval)).

(** [ToBoolean]. *)
Definition truthy (v : jsval) : bool :=
  match v with
  | JUndefined | JNull => false
  | JBool b => b
  | JNum n => number_truthy n
  | JStr s => negb (String.eqb s "")
  | JArr _ | JObj _ => true
  end.

Fixpoint lookup_prop (k : string) (props : list (string * jsval)) : jsval :=
  match props with
  | [] => JUndefined
  | (k', v) :: rest => if String.eqb k k' then v else lookup_prop k rest
  end.

Definition has_prop (k : string) (props : list (string * jsval)) : bool :=
  existsb (fun kv => String.eqb k (fst kv)) props.

(** [null] or [undefined]. *)
Definition nullish (v : jsval) : bool :=
  match v with
  | JUndefined | JNull => true
  | _ => false
  end.

(** The property [k] of a value that is neither [null] nor [undefined],
    for the property names the worker reads, none of which is inherited
    from a prototype: the own property of an object, [undefined] on any
    other value. *)
Definition field (v : jsval) (k : string) : jsval :=
  match v with
  | JObj props => lookup_prop k props
  | _ => JUndefined
  end.

(** [v[k]]: a TypeError on [null] and [undefined]. *)
Definition get_prop (v : jsval) (k : string) : outcome jsval :=
  if nullish v then Throws TypeError else Returns (field v k).

(** The receiver of a string method ([toUpperCase], [replace]): calling
    one on a value that is not a string is a TypeError. *)
Definition as_string (v : jsval) : outcome string :=
  match v with
  | JStr s => Returns s
  | _ => Throws TypeError
  end.

(** [ToString]. An array joins its elements with commas, [null] and
    [undefined] elements as the empty string; an object is
    [[object Object]] unless an own [toString] property (never callable in
    a JSON value) hides the inherited method. *)
Fixpoint to_string (v : jsval) : outcome string :=
  match v with
  | JUndefined => Returns "undefined"
  | JNull => Returns "null"
  | JBool b => Returns (if b then "true" else "false")
  | JNum n => Returns (number_to_string n)
  | JStr s => Returns s
  | JArr items =>
      let element (x : jsval) : outcome string :=
        match x with
        | JUndefined | JNull => Returns ""
        | _ => to_string x
        end in
      (fix join_items (l : list jsval) : outcome string :=
         match l with
         | [] => Returns ""
         | [x] => element x
         | x :: rest =>
             let* a := element x in
             let* b := join_items rest in
             Returns (a +:+ "," +:+ b)
         end) items
  | JObj props =>
      if has_prop "toString" props then Throws TypeError
      else Returns "[object Object]"
  end.

(** ** JSON.stringify *)

Definition hex_char (d : N) : ascii :=
  match d with
  | 10 => "a" | 11 => "b" | 12 => "c" | 13 => "d" | 14 => "e" | 15 => "f"
  | _ => digit_char (Z.of_N d)
  end%N%char.

(** One code unit inside a JSON string literal. *)
Definition json_quote_char (c : ascii) : string :=
  if Ascii.eqb c dquote then String "\" (String dquote EmptyString)
  else if Ascii.eqb c "\" then "\\"
  else if Ascii.eqb c "008" then "\b"
  else if Ascii.eqb c "009" then "\t"
  else if Ascii.eqb c "010" then "\n"
  else if Ascii.eqb c "012" then "\f"
  else if Ascii.eqb c "013" then "\r"
  else
    let n := N_of_ascii c in
    if (n <? 32)%N
    then "\u00" +:+ String (hex_char (n / 16)) (String (hex_char (n mod 16)) EmptyString)
    else String c EmptyString.

Fixpoint json_quote_body (s : string) : string :=
  match s with
  | EmptyString => EmptyString
  | String c s' => json_quote_char c +:+ json_quote_body s'
  end.

Definition json_quote (s : string) : string :=
  String dquote (json_quote_body s +:+ String dquote EmptyString).

Definition newline : string := String "010" EmptyString.

(** The text of a non-empty array or object: its [parts] between [open]
    and [close], on one line when [gap] is empty and one part per line at
    the new indentation otherwise. *)
Definition json_block (gap stepback : string) (open close : string)
    (parts : list string) : string :=
  match parts with
  | [] => open +:+ close
  | _ =>
      if String.eqb gap ""
      then open +:+ join "," parts +:+ close
      else
        let indent := stepback +:+ gap in
        open +:+ newline +:+ indent
          +:+ join ("," +:+ newline +:+ indent) parts
          +:+ newline +:+ stepback +:+ close
  end.

(** [SerializeJSONProperty]: [None] is [undefined]. A property whose value
    is [undefined] is left out of an object and printed as [null] in an
    array; a number that is not finite is printed as [null]. *)
Fixpoint json_serialize (gap indent : string) (v : jsval) : option string :=
  match v with
  | JUndefined => None
  | JNull => Some "null"
  | JBool b => Some (if b then "true" else "false")
  | JNum n =>
      Some (match number_to_integer n with
            | Some _ => number_to_string n
            | None => "null"
            end)
  | JStr s => Some (json_quote s)
  | JArr items =>
      let elements :=
        map (fun x => default "null" (json_serialize gap (indent +:+ gap) x)) items in
      Some (json_block gap indent "[" "]" elements)
  | JObj props =>
      let members :=
        (fix go (l : list (string * jsval)) : list string :=
           match l with
           | [] => []
           | (k, x) :: rest =>
               match json_serialize gap (indent +:+ gap) x with
               | Some text =>
                   (json_quote k +:+ ":"
                      +:+ (if String.eqb gap "" then "" else " ") +:+ text)
                   :: go rest
               | None => go rest
               end
           end) props in
      Some (json_block gap indent "{" "}" members)
  end.

(** [JSON.stringify(v)] and [JSON.stringify(v, null, 2)]. *)
Definition JSON_stringify (v : jsval) : option string :=
  json_serialize "" "" v.

Definition JSON_stringify_pretty (v : jsval) : option string :=
  json_serialize "  " "" v.

(** ** Dates *)

(** The civil date of a day number counted from 1970-01-01, in the
    proleptic Gregorian calendar: year, month (1-12), day (1-31). *)
Definition civil_from_days (days : Z) : Z * Z * Z :=
  let z := days + 719468 in
  let era := z / 146097 in
  let doe := z - era * 146097 in
  let yoe := (doe - doe / 1460 + doe / 36524 - doe / 146096) / 365 in
  let doy := doe - (365 * yoe + yoe / 4 - yoe / 100) in
  let mp := (5 * doy + 2) / 153 in
  let d := doy - (153 * mp + 2) / 5 + 1 in
  let m := if mp <? 10 then mp + 3 else mp - 9 in
  let y := yoe + era * 400 + (if m <=? 2 then 1 else 0) in
  (y, m, d).

(** The [width] lowest decimal digits of [n], most significant first. *)
Fixpoint pad_digits (width : nat) (n : Z) : string :=
  match width with
  | O => EmptyString
  | S w => pad_digits w (n / 10) +:+ String (digit_char (n mod 10)) EmptyString
  end.

Definition iso_year (y : Z) : string :=
  if (0 <=? y) && (y <=? 9999) then pad_digits 4 y
  else (if y <? 0 then "-" else "+") +:+ pad_digits 6 (Z.abs y).

(** The ISO-8601 text of a time value in range. *)
Definition iso_string (tv : Z) : string :=
  let day := tv / 86400000 in
  let ms := tv mod 86400000 in
  let '(y, m, d) := civil_from_days day in
  iso_year y +:+ "-" +:+ pad_digits 2 m +:+ "-" +:+ pad_digits 2 d
    +:+ "T" +:+ pad_digits 2 (ms / 3600000)
    +:+ ":" +:+ pad_digits 2 (ms / 60000 mod 60)
    +:+ ":" +:+ pad_digits 2 (ms / 1000 mod 60)
    +:+ "." +:+ pad_digits 3 (ms mod 1000) +:+ "Z".

(** [TimeClip]: a time value is an integer of at most 8.64e15 in
    magnitude; [None] is the invalid date. *)
Definition time_clip (t : option Z) : option Z :=
  match t with
  | Some tv => if Z.abs tv <=? 8640000000000000 then Some tv else None
  | None => None
  end.

(** [new Date(v)] for a value [v] that is not itself a date: a string is
    parsed, any other value is converted to a number. *)
Definition new_Date (v : jsval) : outcome (option Z) :=
  match v with
  | JUndefined => Returns None
  | JNull => Returns (Some 0)
  | JBool b => Returns (Some (if b then 1 else 0))
  | JNum n => Returns (time_clip (number_to_integer n))
  | JStr s => Returns (time_clip (date_parse s))
  | JArr _ | JObj _ =>
      let* s := to_string v in
      Returns (time_clip (date_parse s))
  end.

(** [date.toISOString()]: a RangeError on the invalid date. *)
Definition toISOString (date : option Z) : outcome string :=
  match date with
  | Some tv => Returns (iso_string tv)
  | None => Throws RangeError
  end.

(** ** [src/email.ts]: formatSecurityAlertEmail *)

(** [escapeHtml(v)] on a run-time value: [str.replace] is a TypeError when
    [v] is not a string. *)
Definition escapeHtml_value (v : jsval) : outcome string :=
  let* str := as_string v in
  Returns (escapeHtml str).

(** The template is the one of [src/email.ts], with a backquote for each
    double quote (see [qq]). The expressions of the template are evaluated
    in the order in which they stand in it, after [timestamp]. *)
Definition formatSecurityAlertEmail (alert : jsval) : outcome string :=
  let* t := get_prop alert "timestamp" in
  let* date := new_Date t in
  let* timestamp := toISOString date in
  let* type := get_prop alert "type" in
  let* type := as_string type in
  let* appName := get_prop alert "appName" in
  let* appName := escapeHtml_value appName in
  let* url := get_prop alert "url" in
  let* url := escapeHtml_value url in
  let* hostname := get_prop alert "hostname" in
  let* hostname := escapeHtml_value hostname in
  let* appVersion := get_prop alert "appVersion" in
  let* appVersion_block :=
    if truthy appVersion then
      let* text := escapeHtml_value appVersion in
      Returns (qq "
      <div class=`field`>
        <div class=`label`>App Version</div>
        <div class=`value`>" +:+ text +:+ qq "</div>
      </div>
      ")
    else Returns "" in
  let* userAgent := get_prop alert "userAgent" in
  let* userAgent_block :=
    if truthy userAgent then
      let* text := escapeHtml_value userAgent in
      Returns (qq "
      <div class=`field`>
        <div class=`label`>User Agent</div>
        <div class=`value`>" +:+ text +:+ qq "</div>
      </div>
      ")
    else Returns "" in
  let* stack := get_prop alert "stack" in
  let* stack_block :=
    if truthy stack then
      let* text := escapeHtml_value stack in
      Returns (qq "
      <div class=`field`>
        <div class=`label`>Stack Trace</div>
        <div class=`value stack`>" +:+ text +:+ qq "</div>
      </div>
      ")
    else Returns "" in
  let* metadata := get_prop alert "metadata" in
  let* metadata_block :=
    if truthy metadata then
      let* text :=
        match JSON_stringify_pretty metadata with
        | Some json => Returns (escapeHtml json)
        | None => Throws TypeError
        end in
      Returns (qq "
      <div class=`field`>
        <div class=`label`>Additional Details</div>
        <div class=`value`><pre>" +:+ text +:+ qq "</pre></div>
      </div>
      ")
    else Returns "" in
  Returns (trim (
    qq "
<!DOCTYPE html>
<html>
<head>
  <style>
    body { font-family: -apple-system, BlinkMacSystemFont, 'Segoe UI', Roboto, sans-serif; line-height: 1.6; color: #333; }
    .container { max-width: 600px; margin: 0 auto; padding: 20px; }
    .header { background: #dc2626; color: white; padding: 20px; border-radius: 8px 8px 0 0; }
    .content { background: #f9fafb; padding: 20px; border: 1px solid #e5e7eb; border-top: none; border-radius: 0 0 8px 8px; }
    .field { margin-bottom: 12px; }
    .label { font-weight: 600; color: #6b7280; font-size: 12px; text-transform: uppercase; }
    .value { font-family: monospace; background: #e5e7eb; padding: 8px 12px; border-radius: 4px; word-break: break-all; }
    .stack { font-size: 12px; white-space: pre-wrap; max-height: 200px; overflow: auto; }
  </style>
</head>
<body>
  <div class=`container`>
    <div class=`header`>
      <h2 style=`margin: 0;`>Security Alert</h2>
      <p style=`margin: 8px 0 0 0; opacity: 0.9;`>"
    +:+ toUpperCase (replace_all "_" " " type)
    +:+ qq "</p>
    </div>
    <div class=`content`>
      <div class=`field`>
        <div class=`label`>Application</div>
        <div class=`value`>"
    +:+ appName
    +:+ qq "</div>
      </div>
      <div class=`field`>
        <div class=`label`>Date & Time</div>
        <div class=`value`>"
    +:+ timestamp
    +:+ qq "</div>
      </div>
      <div class=`field`>
        <div class=`label`>Blocked URL</div>
        <div class=`value`>"
    +:+ url
    +:+ qq "</div>
      </div>
      <div class=`field`>
        <div class=`label`>Hostname</div>
        <div class=`value`>"
    +:+ hostname
    +:+ qq "</div>
      </div>
      "
    +:+ appVersion_block
    +:+ qq "
      "
    +:+ userAgent_block
    +:+ qq "
      "
    +:+ stack_block
    +:+ qq "
      "
    +:+ metadata_block
    +:+ qq "
    </div>
  </div>
</body>
</html>
  ")).

(** ** [src/index.ts]: formatSecurityAlertEmail, inline revision

    The revision of [src/index.ts] that holds the renderer itself: the
    same template without the User Agent block. *)
Definition formatSecurityAlertEmail_inline (alert : jsval) : outcome string :=
  let* t := get_prop alert "timestamp" in
  let* date := new_Date t in
  let* timestamp := toISOString date in
  let* type := get_prop alert "type" in
  let* type := as_string type in
  let* appName := get_prop alert "appName" in
  let* appName := escapeHtml_value appName in
  let* url := get_prop alert "url" in
  let* url := escapeHtml_value url in
  let* hostname := get_prop alert "hostname" in
  let* hostname := escapeHtml_value hostname in
  let* appVersion := get_prop alert "appVersion" in
  let* appVersion_block :=
    if truthy appVersion then
      let* text := escapeHtml_value appVersion in
      Returns (qq "
      <div class=`field`>
        <div class=`label`>App Version</div>
        <div class=`value`>" +:+ text +:+ qq "</div>
      </div>
      ")
    else Returns "" in
  let* stack := get_prop alert "stack" in
  let* stack_block :=
    if truthy stack then
      let* text := escapeHtml_value stack in
      Returns (qq "
      <div class=`field`>
        <div class=`label`>Stack Trace</div>
        <div class=`value stack`>" +:+ text +:+ qq "</div>
      </div>
      ")
    else Returns "" in
  let* metadata := get_prop alert "metadata" in
  let* metadata_block :=
    if truthy metadata then
      let* text :=
        match JSON_stringify_pretty metadata with
        | Some json => Returns (escapeHtml json)
        | None => Throws TypeError
        end in
      Returns (qq "
      <div class=`field`>
        <div class=`label`>Additional Details</div>
        <div class=`value`><pre>" +:+ text +:+ qq "</pre></div>
      </div>
      ")
    else Returns "" in
  Returns (trim (
    qq "
<!DOCTYPE html>
<html>
<head>
  <style>
    body { font-family: -apple-system, BlinkMacSystemFont, 'Segoe UI', Roboto, sans-serif; line-height: 1.6; color: #333; }
    .container { max-width: 600px; margin: 0 auto; padding: 20px; }
    .header { background: #dc2626; color: white; padding: 20px; border-radius: 8px 8px 0 0; }
    .content { background: #f9fafb; padding: 20px; border: 1px solid #e5e7eb; border-top: none; border-radius: 0 0 8px 8px; }
    .field { margin-bottom: 12px; }
    .label { font-weight: 600; color: #6b7280; font-size: 12px; text-transform: uppercase; }
    .value { font-family: monospace; background: #e5e7eb; padding: 8px 12px; border-radius: 4px; word-break: break-all; }
    .stack { font-size: 12px; white-space: pre-wrap; max-height: 200px; overflow: auto; }
  </style>
</head>
<body>
  <div class=`container`>
    <div class=`header`>
      <h2 style=`margin: 0;`>Security Alert</h2>
      <p style=`margin: 8px 0 0 0; opacity: 0.9;`>"
    +:+ toUpperCase (replace_all "_" " " type)
    +:+ qq "</p>
    </div>
    <div class=`content`>
      <div class=`field`>
        <div class=`label`>Application</div>
        <div class=`value`>"
    +:+ appName
    +:+ qq "</div>
      </div>
      <div class=`field`>
        <div class=`label`>Date & Time</div>
        <div class=`value`>"
    +:+ timestamp
    +:+ qq "</div>
      </div>
      <div class=`field`>
        <div class=`label`>Blocked URL</div>
        <div class=`value`>"
    +:+ url
    +:+ qq "</div>
      </div>
      <div class=`field`>
        <div class=`label`>Hostname</div>
        <div class=`value`>"
    +:+ hostname
    +:+ qq "</div>
      </div>
      "
    +:+ appVersion_block
    +:+ qq "
      "
    +:+ stack_block
    +:+ qq "
      "
    +:+ metadata_block
    +:+ qq "
    </div>
  </div>
</body>
</html>
  ")).

(** Valid alert type values for runtime validation. *)
Definition VALID_ALERT_TYPES : list string :=
  ["unauthorized_fetch"; "unauthorized_xhr"; "unauthorized_websocket";
   "csp_violation"].

(** ** [src/index.ts]: validation *)

Definition isNonEmptyString (value : jsval) : bool :=
  match value with
  | JStr s => Nat.ltb 0 (String.length s)
  | _ => false
  end.

Definition is_string (value : jsval) : bool :=
  match value with JStr _ => true | _ => false end.

Definition is_number (value : jsval) : bool :=
  match value with JNum _ => true | _ => false end.

(** [VALID_ALERT_TYPES.includes(v)]. *)
Definition valid_type (v : jsval) : bool :=
  match v with
  | JStr s => existsb (String.eqb s) VALID_ALERT_TYPES
  | _ => false
  end.

(** An error message if the payload is invalid, [None] ([null]) if valid. *)
Definition validateAlertPayload (payload : jsval) : outcome (option string) :=
  let* appName := get_prop payload "appName" in
  if negb (isNonEmptyString appName) then
    Returns (Some "appName must be a non-empty string")
  else
  let* type := get_prop payload "type" in
  if negb (isNonEmptyString type) || negb (valid_type type) then
    Returns (Some ("type must be one of: " +:+ join ", " VALID_ALERT_TYPES))
  else
  let* url := get_prop payload "url" in
  if negb (is_string url) then Returns (Some "url must be a string") else
  let* hostname := get_prop payload "hostname" in
  if negb (is_string hostname) then Returns (Some "hostname must be a string") else
  let* timestamp := get_prop payload "timestamp" in
  if negb (is_number timestamp) then Returns (Some "timestamp must be a number") else
  Returns None.

(** ** [src/index.ts]: the app registry *)

Definition getRecipientEmail (appName : string) (env : Env) : option string :=
  let normalizedName := replace_all "-" "_" (toUpperCase appName) in
  let envKey := "APP_" +:+ normalizedName +:+ "_EMAIL" in
  env !! envKey.

(** [!value] on a string or [undefined]. *)
Definition not_set (value : option string) : bool :=
  match value with
  | Some s => String.eqb s ""
  | None => true
  end.

(** ** [src/index.ts]: CSP helpers *)

(** [new URL(v)]: the argument is converted to a string first. *)
Definition new_URL (v : jsval) : outcome URL :=
  let* s := to_string v in
  match url_parse s with
  | Some url => Returns url
  | None => Throws TypeError
  end.

Definition inferAppName (documentUri : jsval) : option string :=
  match new_URL documentUri with
  | Returns url =>
      if includes (hostname url) "signic.email" then Some "mail_box"
      else if String.eqb (protocol url) "chrome-extension:" then Some "mail_box_wallet"
      else None
  | Throws _ => None
  end.

Definition extractHostname (urlString : jsval) : jsval :=
  match new_URL urlString with
  | Returns url => JStr (hostname url)
  | Throws _ => urlString
  end.

(** The alert that [handleCspReport] builds from a report. *)
Definition cspAlert (appName : string) (cspData : jsval) (now : number)
    : outcome jsval :=
  let* blocked := get_prop cspData "blocked-uri" in
  let* blocked' := get_prop cspData "blocked-uri" in
  let host := extractHostname blocked' in
  let* documentUri := get_prop cspData "document-uri" in
  let* violatedDirective := get_prop cspData "violated-directive" in
  let* originalPolicy := get_prop cspData "original-policy" in
  let* sourceFile := get_prop cspData "source-file" in
  let* lineNumber := get_prop cspData "line-number" in
  Returns (JObj [
    ("appName", JStr appName);
    ("type", JStr "csp_violation");
    ("url", blocked);
    ("hostname", host);
    ("timestamp", JNum now);
    ("metadata", JObj [
       ("documentUri", documentUri);
       ("violatedDirective", violatedDirective);
       ("originalPolicy", originalPolicy);
       ("sourceFile", sourceFile);
       ("lineNumber", lineNumber)])]).

(** ** Requests, responses and the network *)

Record Request : Type := {
  req_method : string;
  (** [new URL(request.url).pathname] *)
  req_pathname : string;
  (** [new URL(request.url).searchParams.get('appName')] *)
  req_appName : option string;
  (** [request.headers.get('Content-Length')] *)
  req_content_length : option string;
  (** [await request.json()]: the parsed body, or the SyntaxError *)
  req_json : outcome jsval;
}.

Record Response : Type := {
  res_status : Z;
  res_body : option string;
  res_headers : list (string * string);
}.

Definition corsHeaders : list (string * string) :=
  [("Access-Control-Allow-Origin", "*");
   ("Access-Control-Allow-Methods", "POST, OPTIONS");
   ("Access-Control-Allow-Headers", "Content-Type")].

(** [new Response(JSON.stringify(v), { status, headers: { ...corsHeaders,
    'Content-Type': 'application/json' } })] *)
Definition json_response (v : jsval) (status : Z) : Response :=
  {| res_status := status;
     res_body := JSON_stringify v;
     res_headers := corsHeaders ++ [("Content-Type", "application/json")] |}.

(** [new Response(null, { status: 204, headers: corsHeaders })] *)
Definition no_content : Response :=
  {| res_status := 204; res_body := None; res_headers := corsHeaders |}.

(** ** [src/index.ts]: sendEmail *)

Record EmailOptions : Type := {
  to : string;
  subject : string;
  html : string;
}.

Definition sendgrid_request (key : string) (from : option string)
    (options : EmailOptions) : FetchRequest :=
  {| fetch_url := "https://api.sendgrid.com/v3/mail/send";
     fetch_method := "POST";
     fetch_headers :=
       [("Authorization", "Bearer " +:+ key);
        ("Content-Type", "application/json")];
     fetch_body := JSON_stringify (JObj [
       ("personalizations",
        JArr [JObj [("to", JArr [JObj [("email", JStr (to options))]])]]);
       ("from", JObj [("email", from_option JStr JUndefined from);
                      ("name", JStr "Security Guard")]);
       ("subject", JStr (subject options));
       ("content", JArr [JObj [("type", JStr "text/html");
                               ("value", JStr (html options))]])]) |}.

Definition sendEmail (env : Env) (options : EmailOptions) : io bool :=
  if not_set (env !! "SENDGRID_API_KEY") then io_ret false
  else
    let! response :=
      io_fetch (sendgrid_request (default "" (env !! "SENDGRID_API_KEY"))
                  (env !! "FROM_EMAIL") options) in
    if negb (fetch_ok response) then
      let! _ := io_lift (fetch_text response) in
      io_ret false
    else io_ret true.

(** ** [src/index.ts]: the handlers *)

Definition handleSecurityAlert (request : Request) (env : Env) : io Response :=
  let! payload := io_lift (req_json request) in
  let! validationError := io_lift (validateAlertPayload payload) in
  match validationError with
  | Some message =>
      io_ret (json_response
                (JObj [("success", JBool false); ("error", JStr message)]) 400)
  | None =>
      let alert := payload in
      let! appName := io_lift (get_prop alert "appName") in
      let! name := io_lift (as_string appName) in
      let recipient := getRecipientEmail name env in
      if not_set recipient then
        io_ret (json_response
                  (JObj [("success", JBool false); ("error", JStr "Unknown app")])
                  400)
      else
        let! type := io_lift (get_prop alert "type") in
        let! appName_text := io_lift (to_string appName) in
        let! type_text := io_lift (to_string type) in
        let! body := io_lift (formatSecurityAlertEmail alert) in
        let! emailSent :=
          sendEmail env
            {| to := default "" recipient;
               subject := "[Security Alert] " +:+ appName_text +:+ ": " +:+ type_text;
               html := body |} in
        io_ret (json_response (JObj [("success", JBool emailSent)])
                  (if emailSent then 200 else 500))
  end.

(** [url.searchParams.get('appName') || inferAppName(cspData['document-uri'])] *)
Definition cspAppName (request : Request) (cspData : jsval)
    : outcome (option string) :=
  if negb (not_set (req_appName request)) then Returns (req_appName request)
  else
    let* documentUri := get_prop cspData "document-uri" in
    Returns (inferAppName documentUri).

Definition handleCspReport (request : Request) (env : Env) (now : number)
    : io Response :=
  let! report := io_lift (req_json request) in
  let! cspData := io_lift (get_prop report "csp-report") in
  let! appName := io_lift (cspAppName request cspData) in
  if not_set appName then io_ret no_content
  else
    let name := default "" appName in
    let recipient := getRecipientEmail name env in
    if not_set recipient then io_ret no_content
    else
      let! alert := io_lift (cspAlert name cspData now) in
      let! violatedDirective := io_lift (get_prop cspData "violated-directive") in
      let! directive_text := io_lift (to_string violatedDirective) in
      let! body := io_lift (formatSecurityAlertEmail alert) in
      let! _ :=
        sendEmail env
          {| to := default "" recipient;
             subject := "[CSP Violation] " +:+ name +:+ ": " +:+ directive_text;
             html := body |} in
      io_ret no_content.

(** ** [src/index.ts]: fetch *)

(** Maximum allowed request body size in bytes (100 KB). *)
Definition MAX_REQUEST_BODY_SIZE : Z := 100 * 1024.

(** [contentLength && parseInt(contentLength, 10) > MAX_REQUEST_BODY_SIZE] *)
Definition too_large (contentLength : option string) : bool :=
  negb (not_set contentLength) &&
  match parseInt (default "" contentLength) with
  | Some n => MAX_REQUEST_BODY_SIZE <? n
  | None => false
  end.

(** The worker's [fetch] entry point: the outbound calls made and the
    response returned. [now] is the reading of [Date.now()]. *)
Definition worker_fetch (request : Request) (env : Env) (now : number)
    (net : Network) : list FetchRequest * Response :=
  if String.eqb (req_method request) "OPTIONS" then
    ([], {| res_status := 200; res_body := None; res_headers := corsHeaders |})
  else if negb (String.eqb (req_method request) "POST") then
    ([], {| res_status := 405; res_body := Some "Method not allowed";
            res_headers := corsHeaders |})
  else if too_large (req_content_length request) then
    ([], json_response
           (JObj [("success", JBool false); ("error", JStr "Payload too large")])
           413)
  else
    let path := req_pathname request in
    let routed : io Response :=
      if String.eqb path "/alert" || String.eqb path "/security-alert" then
        handleSecurityAlert request env
      else if String.eqb path "/csp-report" then
        handleCspReport request env now
      else
        io_ret {| res_status := 404; res_body := Some "Not found";
                  res_headers := corsHeaders |} in
    match routed net with
    | (calls, Returns response) => (calls, response)
    | (calls, Throws _) =>
        (calls, json_response
                  (JObj [("success", JBool false); ("error", JStr "Internal error")])
                  500)
    end.

End Model.

(** ** [src/index.ts], inline revision: the handlers

    The earlier [src/index.ts] checks only that [appName] is truthy, has no
    size check, and renders with its own inline template. *)

Section InlineRevision.
Context {P : Platform}.

Definition handleSecurityAlert_inline (request : Request) (env : Env)
    : io Response :=
  let! alert := io_lift (req_json request) in
  let! appName := io_lift (get_prop alert "appName") in
  if negb (truthy appName) then
    io_ret (json_response
              (JObj [("success", JBool false); ("error", JStr "Missing appName")])
              400)
  else
    let! name := io_lift (as_string appName) in
    let recipient := getRecipientEmail name env in
    if not_set recipient then
      io_ret (json_response
                (JObj [("success", JBool false); ("error", JStr "Unknown app")])
                400)
    else
      let! type := io_lift (get_prop alert "type") in
      let! appName_text := io_lift (to_string appName) in
      let! type_text := io_lift (to_string type) in
      let! body := io_lift (formatSecurityAlertEmail_inline alert) in
      let! emailSent :=
        sendEmail env
          {| to := default "" recipient;
             subject := "[Security Alert] " +:+ appName_text +:+ ": " +:+ type_text;
             html := body |} in
      io_ret (json_response (JObj [("success", JBool emailSent)])
                (if emailSent then 200 else 500)).

Definition handleCspReport_inline (request : Request) (env : Env) (now : number)
    : io Response :=
  let! report := io_lift (req_json request) in
  let! cspData := io_lift (get_prop report "csp-report") in
  let! appName := io_lift (cspAppName request cspData) in
  if not_set appName then io_ret no_content
  else
    let name := default "" appName in
    let recipient := getRecipientEmail name env in
    if not_set recipient then io_ret no_content
    else
      let! alert := io_lift (cspAlert name cspData now) in
      let! violatedDirective := io_lift (get_prop cspData "violated-directive") in
      let! directive_text := io_lift (to_string violatedDirective) in
      let! body := io_lift (formatSecurityAlertEmail_inline alert) in
      let! _ :=
        sendEmail env
          {| to := default "" recipient;
             subject := "[CSP Violation] " +:+ name +:+ ": " +:+ directive_text;
             html := body |} in
      io_ret no_content.

Definition worker_fetch_inline (request : Request) (env : Env) (now : number)
    (net : Network) : list FetchRequest * Response :=
  if String.eqb (req_method request) "OPTIONS" then
    ([], {| res_status := 200; res_body := None; res_headers := corsHeaders |})
  else if negb (String.eqb (req_method request) "POST") then
    ([], {| res_status := 405; res_body := Some "Method not allowed";
            res_headers := corsHeaders |})
  else
    let path := req_pathname request in
    let routed : io Response :=
      if String.eqb path "/alert" || String.eqb path "/security-alert" then
        handleSecurityAlert_inline request env
      else if String.eqb path "/csp-report" then
        handleCspReport_inline request env now
      else
        io_ret {| res_status := 404; res_body := Some "Not found";
                  res_headers := corsHeaders |} in
    match routed net with
    | (calls, Returns response) => (calls, response)
    | (calls, Throws _) =>
        (calls, json_response
                  (JObj [("success", JBool false); ("error", JStr "Internal error")])
                  500)
    end.

End InlineRevision.

(** ** A platform to run the model on

    Numbers are the integers, the URL parser reads only the form
    [scheme://host] followed by the end or a path, and the case mapping is
    the one of ASCII text: enough to evaluate the worker on the requests of
    its test suite. *)

Fixpoint decimal_digits (fuel : nat) (n : Z) : string :=
  match fuel with
  | O => EmptyString
  | S f =>
      (if n <? 10 then EmptyString else decimal_digits f (n / 10))
        +:+ String (digit_char (n mod 10)) EmptyString
  end.

Definition Z_to_string (n : Z) : string :=
  (if n <? 0 then "-" else "")
    +:+ decimal_digits (S (Z.to_nat (Z.log2 (Z.abs n)))) (Z.abs n).

(** [s] up to the first occurrence of [c], and what follows it. *)
Fixpoint split_at (c : ascii) (s : string) : string * option string :=
  match s with
  | EmptyString => (EmptyString, None)
  | String a s' =>
      if Ascii.eqb a c then (EmptyString, Some s')
      else let '(l, r) := split_at c s' in (String a l, r)
  end.

Definition simple_url_parse (s : string) : option URL :=
  match split_at ":" s with
  | (scheme, Some (String "/" (String "/" rest))) =>
      let host := fst (split_at "/" rest) in
      if String.eqb scheme "" || String.eqb host "" then None
      else Some {| protocol := scheme +:+ ":"; hostname := host |}
  | _ => None
  end.

Definition test_platform : Platform :=
  {| number := Z;
     number_truthy := fun n => negb (n =? 0);
     number_to_string := Z_to_string;
     number_to_integer := Some;
     date_parse := fun _ => None;
     url_parse := simple_url_parse;
     toUpperCase := upper_ascii;
     toUpperCase_ascii := fun _ _ => eq_refl |}.

(** ** Specification-side definitions *)

(** [f] holds of every character. *)
Definition all_ascii (f : ascii -> bool) : bool :=
  forallb (fun n => f (ascii_of_nat n)) (seq 0 256).

(** The registry key of a name, character by character: a hyphen becomes
    an underscore, a lower-case letter its capital. *)
Definition normalize_char (c : ascii) : ascii :=
  if Ascii.eqb c "-" then "_"%char else upper_char c.

Fixpoint normalized_name (s : string) : string :=
  match s with
  | EmptyString => EmptyString
  | String c s' => String (normalize_char c) (normalized_name s')
  end.

Definition is_separator (c : ascii) : bool :=
  Ascii.eqb c "-" || Ascii.eqb c "_".

(** Two characters that agree up to letter case and
    hyphen-versus-underscore. *)
Definition char_agree (c d : ascii) : bool :=
  Ascii.eqb c d
  || Ascii.eqb (upper_char c) d
  || Ascii.eqb c (upper_char d)
  || (is_separator c && is_separator d).

(** Two names that agree, character by character. *)
Fixpoint names_agree (a b : string) : bool :=
  match a, b with
  | EmptyString, EmptyString => true
  | String c a', String d b' => char_agree c d && names_agree a' b'
  | _, _ => false
  end.

(** The first validation error of a payload that is not [null], following
    the order of the checks: [appName] a non-empty string, [type] one of
    the four alert types, [url] and [hostname] strings, [timestamp] a
    number. *)
Definition expected_error {P : Platform} (payload : jsval) : option string :=
  if negb (isNonEmptyString (field payload "appName")) then
    Some "appName must be a non-empty string"
  else if negb (valid_type (field payload "type")) then
    Some "type must be one of: unauthorized_fetch, unauthorized_xhr, unauthorized_websocket, csp_violation"
  else if negb (is_string (field payload "url")) then
    Some "url must be a string"
  else if negb (is_string (field payload "hostname")) then
    Some "hostname must be a string"
  else if negb (is_number (field payload "timestamp")) then
    Some "timestamp must be a number"
  else None.

(** The JSON body of an error response. *)
Definition error_body {P : Platform} (message : string) : jsval :=
  JObj [("success", JBool false); ("error", JStr message)].

Definition is_alert_path (path : string) : bool :=
  String.eqb path "/alert" || String.eqb path "/security-alert".

(** The label element of a field of the email. *)
Definition label_element (label : string) : string :=
  qq "<div class=`label`>" +:+ label +:+ "</div>".

(** [c] is one of the characters of [s]. *)
Fixpoint has_char (c : ascii) (s : string) : bool :=
  match s with
  | EmptyString => false
  | String a s' => Ascii.eqb a c || has_char c s'
  end.

(** A text produced by the escaper. *)
Definition escaped (t : string) : Prop := exists s, t = escapeHtml s.

(** [m] occurs in [s]. *)
Definition occurs (m s : string) : Prop :=
  exists p q, s = p +:+ m +:+ q.

(** No occurrence of [m] in [s +:+ rest] starts inside [s], whatever
    follows [s]. *)
Definition starts_free (m s : string) : Prop :=
  forall rest p q,
    s +:+ rest = p +:+ m +:+ q -> (String.length s <= String.length p)%nat.

(** A check of [starts_free m s] on a known text: at no position of [s]
    does [m] match up to the end of [m] or of [s]. *)
Fixpoint const_free (m s : string) : bool :=
  match s with
  | EmptyString => true
  | String _ s' =>
      negb (starts_with s m) && negb (starts_with m s) && const_free m s'
  end.

(** Every result of [m], if it returns, satisfies [Q]. *)
Definition io_post {A : Type} (Q : A -> Prop) (m : io A) : Prop :=
  forall net calls a, m net = (calls, Returns a) -> Q a.

(** ** Fixtures of the test suite ([src/index.test.ts]) *)

Definition mock_env : Env :=
  list_to_map
    [("SENDGRID_API_KEY", "test-api-key");
     ("FROM_EMAIL", "security@test.com");
     ("APP_MAIL_BOX_EMAIL", "mailbox@test.com");
     ("APP_MAIL_BOX_WALLET_EMAIL", "wallet@test.com")].

(** The provider accepts every message. *)
Definition net_accepting : Network :=
  fun _ => Some {| fetch_status := 202; fetch_text := Returns "" |}.

(** The provider answers every call with an error status. *)
Definition net_failing : Network :=
  fun _ => Some {| fetch_status := 500; fetch_text := Returns "SendGrid error" |}.

(** The provider cannot be reached: every [fetch] rejects. *)
Definition net_unreachable : Network := fun _ => None.

Definition post (path : string) (appName : option string)
    (json : outcome (@jsval test_platform)) : @Request test_platform :=
  {| req_method := "POST";
     req_pathname := path;
     req_appName := appName;
     req_content_length := None;
     req_json := json |}.

Definition alert_payload (appName : string) : @jsval test_platform :=
  JObj [("appName", JStr appName);
        ("type", JStr "unauthorized_fetch");
        ("url", JStr "https://malicious.com/api");
        ("hostname", JStr "malicious.com");
        ("timestamp", @JNum test_platform 1700000000000)].

Definition csp_report (documentUri blockedUri : string) : @jsval test_platform :=
  JObj [("csp-report",
         JObj [("document-uri", JStr documentUri);
               ("violated-directive", JStr "img-src");
               ("blocked-uri", JStr blockedUri)])].

Definition mock_options : EmailOptions :=
  {| to := "mailbox@test.com"; subject := "subject"; html := "<p>body</p>" |}.

(** The alert of the test suite without its [appName]. *)
Definition payload_without_appName : @jsval test_platform :=
  JObj [("type", JStr "unauthorized_fetch");
        ("url", JStr "https://malicious.com/api");
        ("hostname", JStr "malicious.com");
        ("timestamp", @JNum test_platform 1700000000000)].

(** The alert of the test suite with one more property. *)
Definition alert_with (key : string) (value : @jsval test_platform)
    : @jsval test_platform :=
  JObj [("appName", JStr "mail_box");
        ("type", JStr "unauthorized_fetch");
        ("url", JStr "https://malicious.com/api");
        ("hostname", JStr "malicious.com");
        ("timestamp", @JNum test_platform 1700000000000);
        (key, value)].

(** An alert without [appVersion] whose [url] is the text of a label. *)
Definition alert_about_label : @jsval test_platform :=
  JObj [("appName", JStr "mail_box");
        ("type", JStr "unauthorized_fetch");
        ("url", JStr "App Version");
        ("hostname", JStr "malicious.com");
        ("timestamp", @JNum test_platform 1700000000000)].

(** The rendered email of an alert, empty if rendering throws. *)
Definition rendered (alert : @jsval test_platform) : string :=
  match formatSecurityAlertEmail alert with
  | Returns doc => doc
  | Throws _ => EmptyString
  end.

(** The alert synthesized from a report, [null] if synthesis throws. *)
Definition synthesized (name : string) (report : @jsval test_platform)
    (now : Z) : @jsval test_platform :=
  match cspAlert name (field report "csp-report") (now : @number test_platform) with
  | Returns alert => alert
  | Throws _ => JNull
  end.

(** ** Invariants and further fixtures *)

(** What [m] does on every network: its outbound calls satisfy [C], and
    its result, when it returns, satisfies [R]. *)
Definition io_res {A : Type} (C : list FetchRequest -> Prop) (R : A -> Prop)
    (m : io A) : Prop :=
  forall net, C (fst (m net)) /\ (forall a, snd (m net) = Returns a -> R a).

(** No call, or one call to the provider with the credential of [env]. *)
Definition sendgrid_calls {P : Platform} (env : Env)
    (calls : list FetchRequest) : Prop :=
  calls = []
  \/ exists key options,
       env !! "SENDGRID_API_KEY" = Some key /\ key <> ""
       /\ calls = [sendgrid_request key (env !! "FROM_EMAIL") options].

(** The response carries the CORS headers, before any other header. *)
Definition cors_response (r : Response) : Prop :=
  exists rest, res_headers r = corsHeaders ++ rest.

(** The handler a POST that passed the size check is routed to. *)
Definition route {P : Platform} (request : Request) (env : Env) (now : number)
    : io Response :=
  if is_alert_path (req_pathname request) then handleSecurityAlert request env
  else if String.eqb (req_pathname request) "/csp-report"
       then handleCspReport request env now
       else io_ret {| res_status := 404; res_body := Some "Not found";
                      res_headers := corsHeaders |}.

(** The statuses a POST to [path] can be answered with by its handler. *)
Definition handler_statuses (path : string) : list Z :=
  if is_alert_path path then [200; 400; 500]
  else if String.eqb path "/csp-report" then [204]
  else [404].

(** The number of occurrences of the character [c] in [s]. *)
Fixpoint count_char (c : ascii) (s : string) : nat :=
  match s with
  | EmptyString => 0
  | String a s' => (if Ascii.eqb a c then 1 else 0) + count_char c s'
  end.

(** The number of [<] characters that an optional block of [tags] tags
    contributes to the email. *)
Definition block_tags {P : Platform} (tags : nat) (v : jsval) : nat :=
  if truthy v then tags else 0%nat.

(** Every result of [m], if it returns, is related by [Q] to the network
    and to the calls made. *)
Definition io_rel {A : Type} (Q : Network -> list FetchRequest -> A -> Prop)
    (m : io A) : Prop :=
  forall net calls a, m net = (calls, Returns a) -> Q net calls a.

(** The provider accepted the one call made. *)
Definition accepted_once (net : Network) (calls : list FetchRequest) : Prop :=
  exists call response,
    calls = [call] /\ net call = Some response /\ fetch_ok response = true.

(** The 500 response of the [catch] of [fetch]. *)
Definition internal_error : Response :=
  {| res_status := 500;
     res_body := Some (qq "{`success`:false,`error`:`Internal error`}");
     res_headers := corsHeaders ++ [("Content-Type", "application/json")] |}.

(** The email of an alert as the inline renderer of the earlier
    [src/index.ts] renders it, empty if rendering throws. *)
Definition rendered_inline (alert : @jsval test_platform) : string :=
  match formatSecurityAlertEmail_inline alert with
  | Returns doc => doc
  | Throws _ => EmptyString
  end.

(** A report without its [blocked-uri]. *)
Definition report_without_blocked_uri : @jsval test_platform :=
  JObj [("csp-report",
         JObj [("document-uri", JStr "https://app.signic.email/inbox");
               ("violated-directive", JStr "img-src")])].

(** ** Theorems *)

Section Properties.
Context {P : Platform}.

(** *** Strings *)

Lemma append_cons (a : ascii) (s t : string) : String a s +:+ t = String a (s +:+ t).
Proof. reflexivity. Qed.

Lemma append_nil_l (s : string) : "" +:+ s = s.
Proof. reflexivity. Qed.

Lemma append_nil_r (s : string) : s +:+ "" = s.
Proof. induction s as [|a s IH]; [reflexivity|]. now rewrite append_cons, IH. Qed.

Lemma append_assoc (a b c : string) : (a +:+ b) +:+ c = a +:+ (b +:+ c).
Proof. induction a as [|x a IH]; [reflexivity|]. now rewrite !append_cons, IH. Qed.

Lemma replace_all_app c r (a b : string) :
  replace_all c r (a +:+ b) = replace_all c r a +:+ replace_all c r b.
Proof.
  induction a as [|x a IH]; [reflexivity|].
  rewrite append_cons. simpl replace_all.
  destruct (Ascii.eqb x c).
  - now rewrite IH, append_assoc.
  - now rewrite IH.
Qed.

Lemma escapeHtml_cons (c : ascii) (s : string) :
  escapeHtml (String c s) = html_entity c +:+ escapeHtml s.
Proof.
  unfold escapeHtml, html_entity.
  simpl replace_all at 5.
  destruct (Ascii.eqb_spec c "&") as [->|H1].
  { now rewrite !replace_all_app. }
  simpl replace_all at 4.
  destruct (Ascii.eqb_spec c "<") as [->|H2].
  { now rewrite !replace_all_app. }
  simpl replace_all at 3.
  destruct (Ascii.eqb_spec c ">") as [->|H3].
  { now rewrite !replace_all_app. }
  simpl replace_all at 2.
  destruct (Ascii.eqb_spec c dquote) as [->|H4].
  { now rewrite !replace_all_app. }
  simpl replace_all at 1.
  destruct (Ascii.eqb_spec c "'") as [->|H5]; reflexivity.
Qed.

Lemma escapeHtml_escape_each (s : string) : escapeHtml s = escape_each s.
Proof.
  induction s as [|c s IH]; [reflexivity|].
  rewrite escapeHtml_cons, IH. reflexivity.
Qed.

Lemma html_entity_plain (c : ascii) :
  is_html_meta c = false -> html_entity c = String c EmptyString.
Proof.
  unfold is_html_meta, html_entity. intros H.
  repeat (apply orb_false_elim in H; destruct H as [H ?]).
  now repeat match goal with E : Ascii.eqb _ _ = false |- _ => rewrite E; clear E end.
Qed.

Lemma escape_each_plain (s : string) :
  has_html_meta s = false -> escape_each s = s.
Proof.
  induction s as [|c s IH]; [reflexivity|].
  simpl. intros H. apply orb_false_elim in H as [Hc Hs].
  now rewrite (html_entity_plain _ Hc), IH.
Qed.

(** C1. For every string [s], [escapeHtml s] is [s] with each of the five
    metacharacters replaced by its entity and every other character kept
    (the ampersands produced by the entities are not escaped again); a
    string without metacharacters is returned unchanged, and the empty
    string maps to the empty string. *)
Theorem escapeHtml_correct (s : string) :
  escapeHtml s = escape_each s
  /\ (has_html_meta s = false -> escapeHtml s = s)
  /\ escapeHtml "" = "".
Proof.
  split; [apply escapeHtml_escape_each|]. split; [|reflexivity].
  intros H. rewrite escapeHtml_escape_each. now apply escape_each_plain.
Qed.

(** *** The app registry *)

Lemma all_ascii_spec (f : ascii -> bool) :
  all_ascii f = true -> forall c, f c = true.
Proof.
  unfold all_ascii. intros H c.
  rewrite forallb_forall in H.
  rewrite <- (ascii_nat_embedding c). apply H.
  apply in_seq. pose proof (nat_ascii_bounded c). lia.
Qed.

Lemma char_agree_normalize (c d : ascii) :
  char_agree c d = true -> normalize_char c = normalize_char d.
Proof.
  assert (H : all_ascii (fun c => all_ascii (fun d =>
            implb (char_agree c d)
                  (Ascii.eqb (normalize_char c) (normalize_char d)))) = true)
    by (vm_compute; reflexivity).
  intros Hcd.
  pose proof (all_ascii_spec _ (all_ascii_spec _ H c) d) as E.
  cbv beta in E. rewrite Hcd in E. now apply Ascii.eqb_eq in E.
Qed.

Lemma normalize_upper_ascii (s : string) :
  replace_all "-" "_" (upper_ascii s) = normalized_name s.
Proof.
  induction s as [|c s IH]; [reflexivity|].
  simpl. rewrite IH. unfold normalize_char.
  assert (H : all_ascii (fun c =>
            Bool.eqb (Ascii.eqb (upper_char c) "-") (Ascii.eqb c "-")) = true)
    by (vm_compute; reflexivity).
  pose proof (all_ascii_spec _ H c) as E. cbv beta in E.
  apply eqb_prop in E. rewrite E.
  destruct (Ascii.eqb c "-"); reflexivity.
Qed.

Lemma normalize_two_passes (s : string) :
  ascii_text s = true ->
  replace_all "-" "_" (toUpperCase s) = normalized_name s.
Proof.
  intros H. rewrite (toUpperCase_ascii _ H). apply normalize_upper_ascii.
Qed.

Lemma names_agree_normalized (a b : string) :
  names_agree a b = true -> normalized_name a = normalized_name b.
Proof.
  revert b. induction a as [|c a IH]; intros [|d b]; simpl; try discriminate; auto.
  intros H. apply andb_true_iff in H as [Hc Hs].
  now rewrite (char_agree_normalize _ _ Hc), (IH _ Hs).
Qed.
Lemma getRecipientEmail_key (env : Env) (name : string) :
  ascii_text name = true ->
  getRecipientEmail name env = env !! ("APP_" +:+ normalized_name name +:+ "_EMAIL").
Proof. intros H. unfold getRecipientEmail. now rewrite normalize_two_passes. Qed.

(** C2. The resolver looks up the key [APP_<NORMALIZED>_EMAIL], where the
    normalized name is the upper-cased name with an underscore for every
    hyphen; being a total function to [option], it answers with the mapped
    address or with [None] and never throws, and two names with the same
    normalized form resolve to the same result in every registry. For a
    name of ASCII characters the normalized name has capitals for
    lower-case letters and underscores for hyphens, so two such names that
    agree up to letter case and hyphen-versus-underscore resolve to the
    same result in every registry; the four spellings of [mail_box] all
    read [APP_MAIL_BOX_EMAIL]. *)
Theorem getRecipientEmail_resolves (env : Env) (a b : string) :
  getRecipientEmail a env
    = env !! ("APP_" +:+ replace_all "-" "_" (toUpperCase a) +:+ "_EMAIL")
  /\ (replace_all "-" "_" (toUpperCase a) = replace_all "-" "_" (toUpperCase b) ->
      getRecipientEmail a env = getRecipientEmail b env)
  /\ (ascii_text a = true ->
      getRecipientEmail a env
        = env !! ("APP_" +:+ normalized_name a +:+ "_EMAIL"))
  /\ (ascii_text a = true -> ascii_text b = true -> names_agree a b = true ->
      getRecipientEmail a env = getRecipientEmail b env)
  /\ getRecipientEmail "mail-box" env = env !! "APP_MAIL_BOX_EMAIL"
  /\ getRecipientEmail "Mail_Box" env = env !! "APP_MAIL_BOX_EMAIL"
  /\ getRecipientEmail "MAIL_BOX" env = env !! "APP_MAIL_BOX_EMAIL"
  /\ getRecipientEmail "mail_box" env = env !! "APP_MAIL_BOX_EMAIL".
Proof.
  split; [reflexivity|].
  split; [intros H; unfold getRecipientEmail; now rewrite H|].
  split; [apply getRecipientEmail_key|].
  split.
  - intros Ha Hb H. rewrite !getRecipientEmail_key by assumption.
    now rewrite (names_agree_normalized _ _ H).
  - repeat split; now rewrite getRecipientEmail_key.
Qed.

(** *** CSP helpers *)

Lemma new_URL_string (s : string) :
  new_URL (JStr s) =
  match url_parse s with Some url => Returns url | None => Throws TypeError end.
Proof. reflexivity. Qed.

(** C5. On a document URI that does not parse as a URL the inference
    answers [None] and does not throw; on one that parses, [mail_box] when
    the host name contains [signic.email], otherwise [mail_box_wallet] when
    the scheme is [chrome-extension:], otherwise [None]. *)
Theorem inferAppName_cases (documentUri : string) :
  (url_parse documentUri = None -> inferAppName (JStr documentUri) = None)
  /\ (forall url, url_parse documentUri = Some url ->
      (includes (hostname url) "signic.email" = true ->
       inferAppName (JStr documentUri) = Some "mail_box")
      /\ (includes (hostname url) "signic.email" = false ->
          protocol url = "chrome-extension:" ->
          inferAppName (JStr documentUri) = Some "mail_box_wallet")
      /\ (includes (hostname url) "signic.email" = false ->
          protocol url <> "chrome-extension:" ->
          inferAppName (JStr documentUri) = None)).
Proof.
  unfold inferAppName. rewrite new_URL_string. split.
  - now intros ->.
  - intros url ->. repeat split.
    + now intros ->.
    + intros -> ->. reflexivity.
    + intros -> Hp. apply String.eqb_neq in Hp. now rewrite Hp.
Qed.

Lemma extractHostname_string (s : string) :
  extractHostname (JStr s) =
  match url_parse s with Some url => JStr (hostname url) | None => JStr s end.
Proof.
  unfold extractHostname. rewrite new_URL_string.
  now destruct (url_parse s).
Qed.

(** C10. When the [blocked-uri] of a report is a string, the alert is
    synthesized without failure; its [url] is that string, and its
    [hostname] is the host name of the parsed [blocked-uri] when it parses
    as a URL and the [blocked-uri] string itself, unchanged, when it does
    not. *)
Theorem cspAlert_hostname (appName : string) (cspData : jsval) (now : number)
    (blocked : string) :
  field cspData "blocked-uri" = JStr blocked ->
  exists alert,
    cspAlert appName cspData now = Returns alert
    /\ field alert "url" = JStr blocked
    /\ field alert "hostname" = extractHostname (JStr blocked)
    /\ (forall url, url_parse blocked = Some url ->
        field alert "hostname" = JStr (hostname url))
    /\ (url_parse blocked = None -> field alert "hostname" = JStr blocked).
Proof.
  intros H.
  destruct cspData; try discriminate H.
  unfold cspAlert, get_prop. simpl nullish. cbv iota. simpl bind.
  simpl in H. rewrite H. eexists. split; [reflexivity|].
  split; [reflexivity|]. split; [reflexivity|].
  change (field _ "hostname") with (extractHostname (JStr blocked)).
  rewrite extractHostname_string.
  split; [now intros url ->| now intros ->].
Qed.

(** *** Asynchronous computations *)

Lemma io_bind_returns {A B : Type} (a : A) (k : A -> io B) (net : Network) :
  io_bind (io_lift (Returns a)) k net = k a net.
Proof. unfold io_bind, io_lift. now destruct (k a net). Qed.

Lemma io_bind_throws {A B : Type} (e : exn) (k : A -> io B) (net : Network) :
  io_bind (io_lift (Throws e)) k net = ([], Throws e).
Proof. reflexivity. Qed.

Lemma io_bind_ret {A B : Type} (a : A) (k : A -> io B) (net : Network) :
  io_bind (io_ret a) k net = k a net.
Proof. unfold io_bind, io_ret. now destruct (k a net). Qed.

Lemma io_bind_result {A B : Type} (m : io A) (k : A -> io B) (net : Network)
    (calls : list FetchRequest) (a : A) :
  m net = (calls, Returns a) ->
  io_bind m k net = (calls ++ fst (k a net), snd (k a net)).
Proof. unfold io_bind. intros ->. now destruct (k a net). Qed.

Lemma io_post_ret {A : Type} (Q : A -> Prop) (a : A) : Q a -> io_post Q (io_ret a).
Proof. intros H net calls a' E. now inversion E; subst. Qed.

Lemma io_post_bind {A B : Type} (Q : B -> Prop) (m : io A) (k : A -> io B) :
  (forall a, io_post Q (k a)) -> io_post Q (io_bind m k).
Proof.
  intros H net calls b E. unfold io_bind in E.
  destruct (m net) as [c [a|e]]; [|discriminate].
  destruct (k a net) as [c' r] eqn:Ek. inversion E; subst.
  eapply H, Ek.
Qed.

(** *** Validation *)

Lemma get_prop_field (v : jsval) (k : string) :
  nullish v = false -> get_prop v k = Returns (field v k).
Proof. unfold get_prop. now intros ->. Qed.

Lemma valid_type_nonempty (v : jsval) :
  valid_type v = true -> isNonEmptyString v = true.
Proof.
  destruct v as [| | | |s| |]; simpl; try discriminate.
  destruct s; [discriminate | reflexivity].
Qed.

Lemma validateAlertPayload_spec (payload : jsval) :
  nullish payload = false ->
  validateAlertPayload payload = Returns (expected_error payload).
Proof.
  intros Hn. unfold validateAlertPayload, expected_error.
  rewrite !(get_prop_field _ _ Hn). simpl bind.
  destruct (isNonEmptyString (field payload "appName")); [|reflexivity].
  simpl negb. cbv iota.
  destruct (valid_type (field payload "type")) eqn:Ht.
  - rewrite (valid_type_nonempty _ Ht). simpl.
    destruct (is_string (field payload "url")); [|reflexivity].
    destruct (is_string (field payload "hostname")); [|reflexivity].
    destruct (is_number (field payload "timestamp")); reflexivity.
  - rewrite orb_true_r. reflexivity.
Qed.

Lemma validateAlertPayload_returns (payload : jsval) (r : option string) :
  validateAlertPayload payload = Returns r -> nullish payload = false.
Proof.
  unfold validateAlertPayload, get_prop.
  now destruct (nullish payload).
Qed.

(** *** The alert handler *)

Lemma worker_fetch_routed (request : Request) (env : Env) (now : number)
    (net : Network) :
  req_method request = "POST" ->
  too_large (req_content_length request) = false ->
  worker_fetch request env now net =
  let routed : io Response :=
    if is_alert_path (req_pathname request) then handleSecurityAlert request env
    else if String.eqb (req_pathname request) "/csp-report"
         then handleCspReport request env now
         else io_ret {| res_status := 404; res_body := Some "Not found";
                        res_headers := corsHeaders |} in
  match routed net with
  | (calls, Returns response) => (calls, response)
  | (calls, Throws _) => (calls, json_response (error_body "Internal error") 500)
  end.
Proof. unfold worker_fetch. intros -> ->. reflexivity. Qed.

Lemma handleSecurityAlert_invalid (request : Request) (env : Env) (net : Network)
    (payload : jsval) (message : string) :
  req_json request = Returns payload ->
  nullish payload = false ->
  expected_error payload = Some message ->
  handleSecurityAlert request env net =
  ([], Returns (json_response (error_body message) 400)).
Proof.
  intros Hj Hn He. unfold handleSecurityAlert.
  rewrite Hj, io_bind_returns, (validateAlertPayload_spec _ Hn), He.
  now rewrite io_bind_returns.
Qed.

(** Validation failures on every body but [null]: for every payload posted
    to [/alert] or [/security-alert] that parses as JSON to a value other
    than [null], if a required field fails validation, the handler makes no
    outbound call and responds 400 with the message of the first failing
    field, and so does the worker for a POST that passes the size check. *)
Theorem invalid_alert_rejected (request : Request) (env : Env) (now : number)
    (net : Network) (payload : jsval) (message : string) :
  req_json request = Returns payload ->
  nullish payload = false ->
  expected_error payload = Some message ->
  handleSecurityAlert request env net =
    ([], Returns (json_response (error_body message) 400))
  /\ (req_method request = "POST" ->
      too_large (req_content_length request) = false ->
      is_alert_path (req_pathname request) = true ->
      worker_fetch request env now net =
        ([], json_response (error_body message) 400)).
Proof.
  intros Hj Hn He.
  pose proof (handleSecurityAlert_invalid request env net _ _ Hj Hn He) as Hh.
  split; [exact Hh|].
  intros Hm Hs Hp. rewrite (worker_fetch_routed _ _ _ _ Hm Hs), Hp.
  cbv zeta. now rewrite Hh.
Qed.

Lemma handleSecurityAlert_resolved (request : Request) (env : Env) (net : Network)
    (payload : jsval) (name : string) :
  req_json request = Returns payload ->
  validateAlertPayload payload = Returns None ->
  field payload "appName" = JStr name ->
  handleSecurityAlert request env net =
  (if not_set (getRecipientEmail name env) then
     io_ret (json_response (error_body "Unknown app") 400)
   else
     let! type := io_lift (get_prop payload "type") in
     let! appName_text := io_lift (to_string (JStr name)) in
     let! type_text := io_lift (to_string type) in
     let! body := io_lift (formatSecurityAlertEmail payload) in
     let! emailSent :=
       sendEmail env
         {| to := default "" (getRecipientEmail name env);
            subject := "[Security Alert] " +:+ appName_text +:+ ": " +:+ type_text;
            html := body |} in
     io_ret (json_response (JObj [("success", JBool emailSent)])
               (if emailSent then 200 else 500))) net.
Proof.
  intros Hj Hv Ha. unfold handleSecurityAlert.
  rewrite Hj, io_bind_returns, Hv, io_bind_returns.
  rewrite (get_prop_field _ _ (validateAlertPayload_returns _ _ Hv)), Ha.
  rewrite io_bind_returns. simpl as_string. rewrite io_bind_returns.
  reflexivity.
Qed.

Lemma handleCspReport_named (request : Request) (env : Env) (now : number)
    (net : Network) (report : jsval) (name : string) :
  req_json request = Returns report ->
  nullish report = false ->
  cspAppName request (field report "csp-report") = Returns (Some name) ->
  handleCspReport request env now net =
  (if not_set (Some name) then io_ret no_content
   else if not_set (getRecipientEmail name env) then io_ret no_content
   else
     let cspData := field report "csp-report" in
     let! alert := io_lift (cspAlert name cspData now) in
     let! violatedDirective := io_lift (get_prop cspData "violated-directive") in
     let! directive_text := io_lift (to_string violatedDirective) in
     let! body := io_lift (formatSecurityAlertEmail alert) in
     let! _ :=
       sendEmail env
         {| to := default "" (getRecipientEmail name env);
            subject := "[CSP Violation] " +:+ name +:+ ": " +:+ directive_text;
            html := body |} in
     io_ret no_content) net.
Proof.
  intros Hj Hn Ha. unfold handleCspReport.
  rewrite Hj, io_bind_returns, (get_prop_field _ _ Hn), io_bind_returns.
  rewrite Ha, io_bind_returns. reflexivity.
Qed.

(** The unknown application on every body but [null]: when the application
    name does not resolve in the registry, a valid alert posted to [/alert]
    or [/security-alert] is answered 400 with the body
    [{`success`:false,`error`:`Unknown app`}], and a CSP report whose body
    is not [null] is answered 204 with no body; in both cases no outbound
    call is made. *)
Theorem unknown_app_asymmetry (request : Request) (env : Env) (now : number)
    (net : Network) (name : string) :
  req_method request = "POST" ->
  too_large (req_content_length request) = false ->
  getRecipientEmail name env = None ->
  (forall payload,
      is_alert_path (req_pathname request) = true ->
      req_json request = Returns payload ->
      validateAlertPayload payload = Returns None ->
      field payload "appName" = JStr name ->
      worker_fetch request env now net =
        ([], {| res_status := 400;
                res_body := Some (qq "{`success`:false,`error`:`Unknown app`}");
                res_headers := corsHeaders ++ [("Content-Type", "application/json")] |}))
  /\ (forall report,
      req_pathname request = "/csp-report" ->
      req_json request = Returns report ->
      nullish report = false ->
      cspAppName request (field report "csp-report") = Returns (Some name) ->
      worker_fetch request env now net =
        ([], {| res_status := 204; res_body := None; res_headers := corsHeaders |})).
Proof.
  intros Hm Hs Hr. split.
  - intros payload Hp Hj Hv Ha.
    rewrite (worker_fetch_routed _ _ _ _ Hm Hs), Hp. cbv zeta.
    rewrite (handleSecurityAlert_resolved _ _ _ _ _ Hj Hv Ha), Hr.
    reflexivity.
  - intros report Hp Hj Hn Ha.
    rewrite (worker_fetch_routed _ _ _ _ Hm Hs), Hp. cbv zeta.
    change (is_alert_path "/csp-report") with false. cbv iota.
    change (String.eqb "/csp-report" "/csp-report") with true. cbv iota.
    rewrite (handleCspReport_named _ _ _ _ _ _ Hj Hn Ha), Hr.
    destruct (not_set (Some name)); reflexivity.
Qed.

(** *** The email transport *)

Lemma sendEmail_no_key (env : Env) (options : EmailOptions) (net : Network) :
  not_set (env !! "SENDGRID_API_KEY") = true ->
  sendEmail env options net = ([], Returns false).
Proof. unfold sendEmail. now intros ->. Qed.

Lemma sendEmail_with_key (env : Env) (options : EmailOptions) (net : Network)
    (key : string) :
  env !! "SENDGRID_API_KEY" = Some key -> key <> "" ->
  let call := sendgrid_request key (env !! "FROM_EMAIL") options in
  sendEmail env options net =
  ([call],
   match net call with
   | None => Throws NetworkError
   | Some response =>
       if fetch_ok response then Returns true
       else match fetch_text response with
            | Returns _ => Returns false
            | Throws e => Throws e
            end
   end).
Proof.
  intros Hk Hne call. unfold sendEmail. rewrite Hk. unfold not_set.
  apply String.eqb_neq in Hne. rewrite Hne. simpl default. fold call.
  unfold io_bind at 1. unfold io_fetch.
  destruct (net call) as [response|]; [|reflexivity].
  destruct (fetch_ok response); simpl; [reflexivity|].
  unfold io_bind, io_lift, io_ret.
  destruct (fetch_text response); reflexivity.
Qed.

(** The transport returns [true] only on a success status. *)
Lemma sendEmail_true (env : Env) (options : EmailOptions) (net : Network)
    (calls : list FetchRequest) :
  sendEmail env options net = (calls, Returns true) ->
  exists call response,
    calls = [call] /\ net call = Some response /\ fetch_ok response = true.
Proof.
  destruct (not_set (env !! "SENDGRID_API_KEY")) eqn:Hk.
  - rewrite (sendEmail_no_key _ _ _ Hk). discriminate.
  - destruct (env !! "SENDGRID_API_KEY") as [key|] eqn:Ek; [|discriminate].
    assert (key <> "") as Hne by (now apply String.eqb_neq).
    rewrite (sendEmail_with_key _ _ _ _ Ek Hne). cbv zeta.
    intros E. inversion E as [[Hc Hr]]. clear E.
    destruct (net _) as [response|] eqn:En; [|discriminate].
    exists (sendgrid_request key (env !! "FROM_EMAIL") options), response.
    split; [reflexivity|]. split; [exact En|].
    destruct (fetch_ok response); [reflexivity|].
    destruct (fetch_text response); discriminate.
Qed.

(** *** Transport outcomes *)

Lemma cspAppName_nonempty (request : Request) (cspData : jsval) (name : string) :
  cspAppName request cspData = Returns (Some name) -> not_set (Some name) = false.
Proof.
  unfold cspAppName.
  destruct (not_set (req_appName request)) eqn:Hq; simpl.
  - destruct (get_prop cspData "document-uri") as [d|]; [|discriminate].
    simpl. unfold inferAppName.
    destruct (new_URL d) as [url|]; [|discriminate].
    destruct (includes _ _); [now intros [= <-]|].
    destruct (String.eqb _ _); [now intros [= <-]|discriminate].
  - intros [= E]. now rewrite E in Hq.
Qed.

Lemma cspAlert_returns (name : string) (cspData : jsval) (now : number)
    (alert : jsval) :
  cspAlert name cspData now = Returns alert -> nullish cspData = false.
Proof. unfold cspAlert, get_prop. now destruct (nullish cspData). Qed.

(** C6. For a request that passed validation and registry resolution and
    whose email was rendered: the alert handler answers with the status and
    the [success] field that the transport reports, 500 and [false] on a
    failure, 200 and [true] on a success; the CSP handler answers 204 with
    no body whatever the transport reports. The outbound calls are those of
    the transport. *)
Theorem transport_outcome_propagation (request : Request) (env : Env)
    (now : number) (net : Network) (name recipient body : string)
    (calls : list FetchRequest) (sent : bool) :
  getRecipientEmail name env = Some recipient ->
  recipient <> "" ->
  (forall payload type,
      req_json request = Returns payload ->
      validateAlertPayload payload = Returns None ->
      field payload "appName" = JStr name ->
      field payload "type" = JStr type ->
      formatSecurityAlertEmail payload = Returns body ->
      sendEmail env
        {| to := recipient;
           subject := "[Security Alert] " +:+ name +:+ ": " +:+ type;
           html := body |} net = (calls, Returns sent) ->
      handleSecurityAlert request env net =
        (calls,
         Returns
           {| res_status := if sent then 200 else 500;
              res_body := Some (if sent then qq "{`success`:true}"
                                else qq "{`success`:false}");
              res_headers := corsHeaders ++ [("Content-Type", "application/json")] |}))
  /\ (forall report alert directive,
      req_json request = Returns report ->
      nullish report = false ->
      cspAppName request (field report "csp-report") = Returns (Some name) ->
      cspAlert name (field report "csp-report") now = Returns alert ->
      to_string (field (field report "csp-report") "violated-directive")
        = Returns directive ->
      formatSecurityAlertEmail alert = Returns body ->
      sendEmail env
        {| to := recipient;
           subject := "[CSP Violation] " +:+ name +:+ ": " +:+ directive;
           html := body |} net = (calls, Returns sent) ->
      handleCspReport request env now net =
        (calls,
         Returns {| res_status := 204; res_body := None;
                    res_headers := corsHeaders |})).
Proof.
  intros Hr Hne.
  assert (Hset : not_set (Some recipient) = false)
    by (now apply String.eqb_neq).
  split.
  - intros payload type Hj Hv Ha Ht Hf Hs.
    rewrite (handleSecurityAlert_resolved _ _ _ _ _ Hj Hv Ha), Hr, Hset.
    rewrite (get_prop_field _ _ (validateAlertPayload_returns _ _ Hv)), Ht.
    rewrite io_bind_returns. simpl to_string. rewrite !io_bind_returns.
    rewrite Hf, io_bind_returns. simpl default.
    rewrite (io_bind_result _ _ _ _ _ Hs). simpl.
    rewrite app_nil_r. now destruct sent.
  - intros report alert directive Hj Hn Ha Hal Hd Hf Hs.
    rewrite (handleCspReport_named _ _ _ _ _ _ Hj Hn Ha).
    rewrite (cspAppName_nonempty _ _ _ Ha), Hr, Hset. cbv zeta.
    rewrite Hal, io_bind_returns.
    rewrite (get_prop_field _ _ (cspAlert_returns _ _ _ _ Hal)), io_bind_returns.
    rewrite Hd, io_bind_returns, Hf, io_bind_returns. simpl default.
    rewrite (io_bind_result _ _ _ _ _ Hs). simpl.
    now rewrite app_nil_r.
Qed.

(** *** The size check *)

Lemma handleSecurityAlert_status (request : Request) (env : Env) :
  io_post (fun r => res_status r <> 413) (handleSecurityAlert request env).
Proof.
  unfold handleSecurityAlert.
  apply io_post_bind; intros payload. apply io_post_bind; intros [message|].
  { now apply io_post_ret. }
  apply io_post_bind; intros appName. apply io_post_bind; intros name.
  destruct (not_set _); [now apply io_post_ret|].
  do 4 (apply io_post_bind; intros ?).
  apply io_post_bind; intros emailSent.
  apply io_post_ret. simpl. now destruct emailSent.
Qed.

Lemma handleCspReport_status (request : Request) (env : Env) (now : number) :
  io_post (fun r => res_status r <> 413) (handleCspReport request env now).
Proof.
  unfold handleCspReport.
  do 3 (apply io_post_bind; intros ?).
  destruct (not_set _); [now apply io_post_ret|].
  destruct (not_set _); [now apply io_post_ret|].
  do 5 (apply io_post_bind; intros ?).
  now apply io_post_ret.
Qed.

Lemma parseInt_nonempty (header : string) (n : Z) :
  parseInt header = Some n -> not_set (Some header) = false.
Proof. destruct header; [discriminate | reflexivity]. Qed.

Lemma worker_fetch_413 (request : Request) (env : Env) (now : number)
    (net : Network) :
  req_method request = "POST" ->
  res_status (snd (worker_fetch request env now net)) = 413
  <-> too_large (req_content_length request) = true.
Proof.
  intros Hm. destruct (too_large (req_content_length request)) eqn:Hs.
  - unfold worker_fetch. rewrite Hm, Hs. simpl. tauto.
  - split; [|discriminate]. intros H413. exfalso.
    rewrite (worker_fetch_routed _ _ _ _ Hm Hs) in H413. cbv zeta in H413.
    match type of H413 with context [?m net] =>
      assert (Hpost : io_post (fun r => res_status r <> 413) m)
    end.
    { destruct (is_alert_path _); [apply handleSecurityAlert_status|].
      destruct (String.eqb _ _); [apply handleCspReport_status|].
      now apply io_post_ret. }
    match type of H413 with context [?m net] =>
      destruct (m net) as [calls [r|e]] eqn:E
    end.
    + now apply (Hpost _ _ _ E).
    + discriminate H413.
Qed.

(** C9. The size check reads the Content-Length header only. A POST
    whose header parses to an integer above 102400 is answered 413 with the
    body [{`success`:false,`error`:`Payload too large`}] and nothing else
    happens: no handler runs and no outbound call is made. A POST without
    the header is never answered 413, whatever its body; a POST is answered
    413 exactly when the check on the header succeeds. *)
Theorem oversized_body_rejection (request : Request) (env : Env)
    (now : number) (net : Network) :
  req_method request = "POST" ->
  (forall header n,
      req_content_length request = Some header ->
      parseInt header = Some n ->
      102400 < n ->
      worker_fetch request env now net =
        ([], {| res_status := 413;
                res_body := Some (qq "{`success`:false,`error`:`Payload too large`}");
                res_headers := corsHeaders ++ [("Content-Type", "application/json")] |}))
  /\ (req_content_length request = None ->
      res_status (snd (worker_fetch request env now net)) <> 413)
  /\ (res_status (snd (worker_fetch request env now net)) = 413
      <-> too_large (req_content_length request) = true).
Proof.
  intros Hm. split; [|split].
  - intros header n Hh Hp Hn.
    unfold worker_fetch. rewrite Hm. simpl String.eqb. cbv iota. simpl negb.
    cbv iota. unfold too_large. rewrite Hh, (parseInt_nonempty _ _ Hp).
    simpl default. rewrite Hp.
    assert ((MAX_REQUEST_BODY_SIZE <? n) = true) as ->
      by (apply Z.ltb_lt; unfold MAX_REQUEST_BODY_SIZE; lia).
    reflexivity.
  - intros Hh H413. apply (worker_fetch_413 _ _ _ _ Hm) in H413.
    now rewrite Hh in H413.
  - apply (worker_fetch_413 _ _ _ _ Hm).
Qed.

(** *** Occurrences *)

Lemma length_append (a b : string) :
  String.length (a +:+ b) = (String.length a + String.length b)%nat.
Proof.
  induction a as [|x a IH]; [reflexivity|].
  rewrite append_cons. simpl. now rewrite IH.
Qed.

Lemma append_split (a b c d : string) :
  a +:+ b = c +:+ d ->
  (exists e, c = a +:+ e /\ b = e +:+ d) \/ (exists e, a = c +:+ e /\ d = e +:+ b).
Proof.
  revert c. induction a as [|x a IH]; intros c H.
  - left. exists c. now rewrite append_nil_l in *.
  - destruct c as [|y c].
    + right. exists (String x a). now rewrite append_nil_l in *.
    + rewrite !append_cons in H. injection H as -> H.
      destruct (IH _ H) as [[e [-> ->]]|[e [-> ->]]]; [left|right];
        exists e; now rewrite append_cons.
Qed.

Lemma starts_with_spec (p s : string) :
  starts_with p s = true <-> exists q, s = p +:+ q.
Proof.
  revert s. induction p as [|a p IH]; intros s; simpl.
  - split; [intros _; now exists s | reflexivity].
  - destruct s as [|b s].
    + split; [discriminate | intros [q H]; discriminate H].
    + rewrite andb_true_iff, Ascii.eqb_eq, IH. split.
      * intros [-> [q ->]]. now exists q.
      * intros [q H]. rewrite append_cons in H. injection H as -> ->.
        split; [reflexivity | now exists q].
Qed.

Lemma includes_spec (s m : string) : includes s m = true <-> occurs m s.
Proof.
  unfold occurs. induction s as [|a s IH].
  - simpl. rewrite orb_false_r, starts_with_spec. split.
    + intros [q H]. now exists EmptyString, q.
    + intros [p [q H]]. destruct p; [now exists q | discriminate H].
  - cbn [includes]. rewrite orb_true_iff, starts_with_spec, IH. split.
    + intros [[q H]|[p [q H]]].
      * now exists EmptyString, q.
      * exists (String a p), q. now rewrite H.
    + intros [[|b p] [q H]].
      * left. now exists q.
      * right. rewrite append_cons in H. injection H as -> ->. now exists p, q.
Qed.

Lemma includes_append_l (a b m : string) :
  includes a m = true -> includes (a +:+ b) m = true.
Proof.
  rewrite !includes_spec. intros [p [q ->]].
  exists p, (q +:+ b). now rewrite !append_assoc.
Qed.

Lemma includes_append_r (a b m : string) :
  includes b m = true -> includes (a +:+ b) m = true.
Proof.
  rewrite !includes_spec. intros [p [q ->]].
  exists (a +:+ p), q. now rewrite !append_assoc.
Qed.

Lemma includes_self (m : string) : includes m m = true.
Proof.
  apply includes_spec. exists EmptyString, EmptyString.
  now rewrite append_nil_l, append_nil_r.
Qed.

Lemma starts_free_empty (m : string) : starts_free m "".
Proof. intros rest p q _. simpl. lia. Qed.

Lemma starts_free_append (m a b : string) :
  starts_free m a -> starts_free m b -> starts_free m (a +:+ b).
Proof.
  intros Ha Hb rest p q H. rewrite append_assoc in H.
  pose proof (Ha _ _ _ H) as La. rewrite length_append.
  destruct (append_split _ _ _ _ H) as [[e [-> E]]|[e [-> E]]].
  - apply Hb in E. rewrite length_append. lia.
  - rewrite length_append in La.
    assert (e = "") as -> by (destruct e; [reflexivity | simpl in La; lia]).
    rewrite append_nil_r. symmetry in E.
    apply (Hb rest EmptyString q) in E. simpl in E. lia.
Qed.

Lemma starts_free_const (m s : string) :
  const_free m s = true -> starts_free m s.
Proof.
  induction s as [|a s IH]; [intros _; apply starts_free_empty|].
  cbn [const_free]. rewrite !andb_true_iff, !negb_true_iff.
  intros [[H1 H2] H3] rest [|b p] q H.
  - exfalso. rewrite append_nil_l in H.
    destruct (append_split _ _ _ _ H) as [[e [E _]]|[e [E _]]].
    + assert (starts_with (String a s) m = true)
        by (apply starts_with_spec; now exists e).
      congruence.
    + assert (starts_with m (String a s) = true)
        by (apply starts_with_spec; now exists e).
      congruence.
  - rewrite !append_cons in H. injection H as _ H.
    apply (IH H3) in H. simpl. lia.
Qed.

Lemma starts_free_no_char (c : ascii) (m s : string) :
  has_char c s = false -> starts_free (String c m) s.
Proof.
  induction s as [|a s IH]; [intros _; apply starts_free_empty|].
  cbn [has_char]. rewrite orb_false_iff. intros [Ha Hs] rest [|b p] q H.
  - rewrite append_nil_l, !append_cons in H. injection H as -> _.
    now rewrite Ascii.eqb_refl in Ha.
  - rewrite !append_cons in H. injection H as _ H.
    apply (IH Hs) in H. simpl. lia.
Qed.

Lemma starts_free_includes (c : ascii) (m s : string) :
  starts_free (String c m) s -> includes s (String c m) = false.
Proof.
  intros Hf. destruct (includes s (String c m)) eqn:E; [|reflexivity].
  apply includes_spec in E as [p [q E]].
  pose proof (Hf EmptyString p q) as L. rewrite append_nil_r in L.
  specialize (L E). rewrite E, !length_append in L. simpl in L. lia.
Qed.

Lemma has_char_append (c : ascii) (a b : string) :
  has_char c (a +:+ b) = has_char c a || has_char c b.
Proof.
  induction a as [|x a IH]; [reflexivity|].
  rewrite append_cons. simpl. now rewrite IH, orb_assoc.
Qed.

Lemma has_char_entity (c x : ascii) :
  is_html_meta c = true -> Ascii.eqb c "&" = false ->
  has_char c (html_entity x) = false.
Proof.
  assert (H : all_ascii (fun c => all_ascii (fun x =>
            implb (is_html_meta c && negb (Ascii.eqb c "&"))
                  (negb (has_char c (html_entity x))))) = true)
    by (vm_compute; reflexivity).
  intros Hm Ha.
  pose proof (all_ascii_spec _ (all_ascii_spec _ H c) x) as E.
  cbv beta in E. rewrite Hm, Ha in E. simpl in E.
  now apply negb_true_iff in E.
Qed.

(** The escaped text holds none of [<], [>], the double quote and the
    apostrophe. *)
Lemma escapeHtml_safe (c : ascii) (s : string) :
  is_html_meta c = true -> Ascii.eqb c "&" = false ->
  has_char c (escapeHtml s) = false.
Proof.
  intros Hm Ha. rewrite escapeHtml_escape_each.
  induction s as [|x s IH]; [reflexivity|].
  simpl. now rewrite has_char_append, IH, (has_char_entity _ _ Hm Ha).
Qed.

Lemma starts_free_head (c : ascii) (m s : string) :
  starts_with (String c EmptyString) m = true ->
  has_char c s = false -> starts_free m s.
Proof.
  destruct m as [|a m]; [discriminate|]. simpl.
  rewrite andb_true_r, Ascii.eqb_eq. intros ->. apply starts_free_no_char.
Qed.

Lemma starts_free_absent (m s : string) :
  m <> "" -> starts_free m s -> includes s m = false.
Proof.
  destruct m as [|c m]; [congruence|]. intros _. apply starts_free_includes.
Qed.

(** *** Trimming *)

Lemma trim_start_append (a b : string) :
  trim_start a <> "" -> trim_start (a +:+ b) = trim_start a +:+ b.
Proof.
  induction a as [|c a IH]; [now simpl|].
  rewrite append_cons. simpl. destruct (is_space c); [exact IH|].
  intros _. now rewrite append_cons.
Qed.

Lemma trim_end_append (a b : string) :
  trim_end b <> "" -> trim_end (a +:+ b) = a +:+ trim_end b.
Proof.
  intros Hb. induction a as [|c a IH]; [now rewrite !append_nil_l|].
  rewrite !append_cons. simpl. rewrite IH.
  destruct (a +:+ trim_end b) eqn:E; [|reflexivity].
  exfalso. apply Hb. destruct a; [now rewrite append_nil_l in E | discriminate E].
Qed.

Lemma trim_end_append_solid (a b : string) :
  trim_end b <> "" -> trim_end (a +:+ b) <> "".
Proof.
  intros Hb. rewrite (trim_end_append _ _ Hb).
  destruct a; [now rewrite append_nil_l | discriminate].
Qed.

(** *** The ISO text of a time value *)

Lemma digit_char_digit (d : Z) : Ascii.eqb (digit_char d) "<" = false.
Proof.
  unfold digit_char. destruct d as [|p|p]; try reflexivity.
  do 4 (try (destruct p as [p|p|]; try reflexivity)).
Qed.

Lemma pad_digits_safe (width : nat) (n : Z) :
  has_char "<" (pad_digits width n) = false.
Proof.
  revert n. induction width as [|w IH]; intros n; [reflexivity|].
  simpl. rewrite has_char_append, IH. simpl.
  now rewrite digit_char_digit.
Qed.

Lemma iso_string_safe (tv : Z) : has_char "<" (iso_string tv) = false.
Proof.
  unfold iso_string. destruct (civil_from_days _) as [[y m] d].
  rewrite !has_char_append, !pad_digits_safe.
  unfold iso_year. destruct (_ && _).
  - now rewrite pad_digits_safe.
  - rewrite has_char_append, pad_digits_safe. now destruct (y <? 0).
Qed.

(** *** The renderer *)

Lemma bind_returns {A B : Type} (m : outcome A) (k : A -> outcome B) (b : B) :
  bind m k = Returns b -> exists a, m = Returns a /\ k a = Returns b.
Proof. destruct m as [a|e]; [|discriminate]. intros H. now exists a. Qed.

Lemma escaped_free (m t : string) :
  starts_with "<" m = true -> escaped t -> starts_free m t.
Proof.
  intros Hm [s ->]. apply (starts_free_head "<"); [exact Hm|].
  now apply escapeHtml_safe.
Qed.

Lemma escapeHtml_value_escaped (v : jsval) (t : string) :
  escapeHtml_value v = Returns t -> exists s, v = JStr s /\ t = escapeHtml s.
Proof.
  destruct v; try discriminate. simpl. intros [= <-]. now eexists.
Qed.

(** An optional block of the template: empty when the value is falsy,
    the text between its two constant parts otherwise. *)
Lemma block_cases (v : jsval) (text : outcome string) (A B b : string) :
  (if truthy v then let* t := text in Returns (A +:+ t +:+ B) else Returns "")
    = Returns b ->
  (truthy v = false /\ b = "")
  \/ (truthy v = true /\ exists t, text = Returns t /\ b = A +:+ t +:+ B).
Proof.
  destruct (truthy v).
  - intros H. apply bind_returns in H as [t [Ht [= <-]]]. right. eauto.
  - intros [= <-]. now left.
Qed.

Lemma block_free (m : string) (v : jsval) (text : outcome string)
    (A B b : string) :
  (if truthy v then let* t := text in Returns (A +:+ t +:+ B) else Returns "")
    = Returns b ->
  starts_free m A -> starts_free m B ->
  (forall t, text = Returns t -> starts_free m t) ->
  starts_free m b.
Proof.
  intros H HA HB Ht.
  destruct (block_cases _ _ _ _ _ H) as [[_ ->]|[_ [t [E ->]]]].
  - apply starts_free_empty.
  - repeat apply starts_free_append; auto.
Qed.

Lemma block_includes (m : string) (v : jsval) (text : outcome string)
    (A B b : string) :
  (if truthy v then let* t := text in Returns (A +:+ t +:+ B) else Returns "")
    = Returns b ->
  truthy v = true -> includes A m = true -> includes b m = true.
Proof.
  intros H Hv HA.
  destruct (block_cases _ _ _ _ _ H) as [[E _]|[_ [t [_ ->]]]]; [congruence|].
  now apply includes_append_l.
Qed.

Lemma block_absent (v : jsval) (text : outcome string) (A B b : string) :
  (if truthy v then let* t := text in Returns (A +:+ t +:+ B) else Returns "")
    = Returns b ->
  truthy v = false -> b = "".
Proof.
  intros H Hv.
  destruct (block_cases _ _ _ _ _ H) as [[_ E]|[E _]]; congruence.
Qed.

(** What validation establishes about a payload. *)
Lemma validateAlertPayload_valid (payload : jsval) :
  validateAlertPayload payload = Returns None ->
  nullish payload = false
  /\ (exists name, field payload "appName" = JStr name)
  /\ (exists type, field payload "type" = JStr type /\ In type VALID_ALERT_TYPES)
  /\ (exists url, field payload "url" = JStr url)
  /\ (exists host, field payload "hostname" = JStr host)
  /\ (exists n, field payload "timestamp" = JNum n).
Proof.
  intros H. pose proof (validateAlertPayload_returns _ _ H) as Hn.
  rewrite (validateAlertPayload_spec _ Hn) in H. injection H as H.
  unfold expected_error in H. split; [exact Hn|].
  destruct (isNonEmptyString (field payload "appName")) eqn:E1; [|discriminate].
  destruct (valid_type (field payload "type")) eqn:E2; [|discriminate].
  destruct (is_string (field payload "url")) eqn:E3; [|discriminate].
  destruct (is_string (field payload "hostname")) eqn:E4; [|discriminate].
  destruct (is_number (field payload "timestamp")) eqn:E5; [|discriminate].
  repeat split.
  - destruct (field payload "appName"); try discriminate. eauto.
  - destruct (field payload "type") as [| | | |s| |]; try discriminate.
    exists s. split; [reflexivity|]. unfold valid_type in E2.
    apply existsb_exists in E2 as [x [Hin Hx]].
    apply String.eqb_eq in Hx. now subst.
  - destruct (field payload "url"); try discriminate. eauto.
  - destruct (field payload "hostname"); try discriminate. eauto.
  - destruct (field payload "timestamp"); try discriminate. eauto.
Qed.

Lemma header_safe (type : string) :
  In type VALID_ALERT_TYPES ->
  has_char "<" (toUpperCase (replace_all "_" " " type)) = false.
Proof.
  intros H. simpl in H.
  destruct H as [<-|[<-|[<-|[<-|[]]]]];
    now rewrite toUpperCase_ascii by reflexivity.
Qed.

Lemma text_escaped (m : string) (v : jsval) (t : string) :
  starts_with "<" m = true ->
  escapeHtml_value v = Returns t -> starts_free m t.
Proof.
  intros Hm H. apply escaped_free; [exact Hm|].
  apply escapeHtml_value_escaped in H as [s [_ ->]]. now exists s.
Qed.

Lemma json_escaped (m : string) (json : option string) (t : string) :
  starts_with "<" m = true ->
  match json with
  | Some text => Returns (escapeHtml text)
  | None => Throws TypeError
  end = Returns t ->
  starts_free m t.
Proof.
  intros Hm H. apply escaped_free; [exact Hm|].
  destruct json as [text|]; [|discriminate]. injection H as <-. now exists text.
Qed.

Lemma bool_cases (b : bool) : b = true \/ b = false.
Proof. destruct b; auto. Qed.

Ltac free_leaf :=
  first
    [ apply starts_free_empty
    | match goal with
      | Hb : (if truthy ?v then _ else _) = Returns ?b, T : truthy ?v = false
        |- starts_free _ ?b =>
          rewrite (block_absent _ _ _ _ _ Hb T); apply starts_free_empty
      end
    | solve [ eapply escaped_free; [reflexivity | eassumption] ]
    | solve [ apply (starts_free_head "<"); [reflexivity | assumption] ]
    | solve [ eapply block_free;
              [ eassumption
              | apply starts_free_const; vm_compute; reflexivity
              | apply starts_free_const; vm_compute; reflexivity
              | intros ? ?;
                first [ eapply text_escaped; [reflexivity | eassumption]
                      | eapply json_escaped; [reflexivity | eassumption] ] ] ]
    | solve [ apply starts_free_const; vm_compute; reflexivity ] ].

Ltac free :=
  lazymatch goal with
  | |- starts_free _ (_ +:+ _) => apply starts_free_append; [free_leaf | free]
  | |- _ => free_leaf
  end.

Ltac find_block :=
  first
    [ apply includes_append_l;
      solve [ eapply block_includes;
              [ eassumption | eassumption | vm_compute; reflexivity ] ]
    | apply includes_append_r; find_block ].

Ltac label_case :=
  match goal with
  | |- includes _ _ = truthy ?v =>
      let T := fresh "T" in
      destruct (bool_cases (truthy v)) as [T|T]; rewrite T;
      [ find_block
      | apply starts_free_absent; [vm_compute; discriminate | free] ]
  end.

Ltac rendered_fields alert Hv Hf :=
  let Hn := fresh "Hn" in
  let name := fresh "name" in let Hname := fresh "Hname" in
  let ty := fresh "ty" in let Hty := fresh "Hty" in let Hin := fresh "Hin" in
  let u := fresh "u" in let Hu := fresh "Hu" in
  let h := fresh "h" in let Hh := fresh "Hh" in
  let n := fresh "n" in let Hts := fresh "Hts" in
  let tv := fresh "tv" in
  destruct (validateAlertPayload_valid _ Hv)
    as (Hn & [name Hname] & [ty [Hty Hin]] & [u Hu] & [h Hh] & [n Hts]);
  rewrite !(get_prop_field _ _ Hn) in Hf;
  rewrite Hts, Hty, Hname, Hu, Hh in Hf;
  cbn [bind new_Date as_string escapeHtml_value] in Hf;
  destruct (time_clip (number_to_integer n)) as [tv|]; [|discriminate Hf];
  cbn [bind toISOString] in Hf;
  pose proof (header_safe _ Hin);
  pose proof (iso_string_safe tv);
  assert (escaped (escapeHtml name)) by (now exists name);
  assert (escaped (escapeHtml u)) by (now exists u);
  assert (escaped (escapeHtml h)) by (now exists h).

Ltac rendered_trimmed Hf :=
  injection Hf as <-;
  unfold trim;
  rewrite trim_start_append by (vm_compute; discriminate);
  rewrite !trim_end_append
    by (repeat apply trim_end_append_solid; vm_compute; discriminate).

Ltac escaped_version alert :=
  let version := fresh "version" in
  let Hversion := fresh "Hversion" in
  let Hne := fresh "Hne" in
  let Ht := fresh "Ht" in
  intros version Hversion Hne;
  assert (truthy (JStr version) = true) as Ht
    by (simpl; now apply negb_true_iff, String.eqb_neq);
  match goal with
  | Hb : (if truthy (field alert "appVersion") then _ else _) = Returns _ |- _ =>
      rewrite Hversion, Ht in Hb;
      cbn [bind escapeHtml_value as_string] in Hb;
      injection Hb as <-
  end;
  do 11 apply includes_append_r; apply includes_append_l;
  apply includes_append_r; apply includes_append_l; apply includes_self.

(** C8 (amended). For every validated alert whose email is rendered, by
    the renderer of [src/email.ts] or by the inline one of [src/index.ts],
    the document contains the label element of the App Version block, of
    the Stack Trace block and of the Additional Details block if and only
    if the corresponding optional field ([appVersion], [stack],
    [metadata]) is truthy; with an [appVersion] that is a non-empty string
    the document also contains its escaped value. *)
Theorem optional_blocks_rendered (alert : jsval) (doc : string) :
  validateAlertPayload alert = Returns None ->
  formatSecurityAlertEmail alert = Returns doc
  \/ formatSecurityAlertEmail_inline alert = Returns doc ->
  includes doc (label_element "App Version") = truthy (field alert "appVersion")
  /\ includes doc (label_element "Stack Trace") = truthy (field alert "stack")
  /\ includes doc (label_element "Additional Details")
     = truthy (field alert "metadata")
  /\ (forall version,
      field alert "appVersion" = JStr version -> version <> "" ->
      includes doc (escapeHtml version) = true).
Proof.
  intros Hv [Hf|Hf].
  - unfold formatSecurityAlertEmail in Hf.
    rendered_fields alert Hv Hf.
    do 4 (apply bind_returns in Hf as [? [? Hf]]).
    rendered_trimmed Hf.
    split; [label_case|]. split; [label_case|]. split; [label_case|].
    escaped_version alert.
  - unfold formatSecurityAlertEmail_inline in Hf.
    rendered_fields alert Hv Hf.
    do 3 (apply bind_returns in Hf as [? [? Hf]]).
    rendered_trimmed Hf.
    split; [label_case|]. split; [label_case|]. split; [label_case|].
    escaped_version alert.
Qed.

Lemma json_serialize_defined (gap indent : string) (v : jsval) :
  v <> JUndefined -> exists text, json_serialize gap indent v = Some text.
Proof. destruct v; simpl; intros H; try congruence; eauto. Qed.

Lemma optional_text (v : jsval) :
  (truthy v = true -> is_string v = true) ->
  exists block,
    forall A B,
      (if truthy v then
         let* text := escapeHtml_value v in Returns (A +:+ text +:+ B)
       else Returns "") = Returns (block A B).
Proof.
  intros H. destruct (truthy v).
  - destruct v; try (now discriminate H).
    exists (fun A B => A +:+ escapeHtml s +:+ B). reflexivity.
  - exists (fun _ _ => EmptyString). reflexivity.
Qed.

(** Rendering returns a document for every validated alert whose
    [timestamp] is a time value in range and whose optional text fields,
    when truthy, are strings. *)
Lemma formatSecurityAlertEmail_returns (alert : jsval) :
  validateAlertPayload alert = Returns None ->
  (forall n, field alert "timestamp" = JNum n ->
             time_clip (number_to_integer n) <> None) ->
  (forall k, In k ["appVersion"; "userAgent"; "stack"] ->
             truthy (field alert k) = true -> is_string (field alert k) = true) ->
  exists doc, formatSecurityAlertEmail alert = Returns doc.
Proof.
  intros Hv Htime Htext.
  destruct (validateAlertPayload_valid _ Hv)
    as (Hn & [name Hname] & [ty [Hty Hin]] & [u Hu] & [h Hh] & [n Hts]).
  unfold formatSecurityAlertEmail.
  rewrite !(get_prop_field _ _ Hn).
  rewrite Hts, Hty, Hname, Hu, Hh.
  cbn [bind new_Date as_string escapeHtml_value].
  specialize (Htime _ Hts).
  destruct (time_clip (number_to_integer n)) as [tv|]; [|congruence].
  cbn [bind toISOString].
  destruct (optional_text (field alert "appVersion")) as [b1 ->];
    [apply Htext; simpl; auto|].
  cbn [bind].
  destruct (optional_text (field alert "userAgent")) as [b2 ->];
    [apply Htext; simpl; auto|].
  cbn [bind].
  destruct (optional_text (field alert "stack")) as [b3 ->];
    [apply Htext; simpl; auto|].
  cbn [bind].
  destruct (truthy (field alert "metadata")) eqn:Hm.
  - destruct (json_serialize_defined "  " "" (field alert "metadata"))
      as [text Ht].
    { intros E. now rewrite E in Hm. }
    unfold JSON_stringify_pretty. rewrite Ht. cbn [bind]. eauto.
  - cbn [bind]. eauto.
Qed.

(** *** More on the escaper *)

Lemma escape_each_append (a b : string) :
  escape_each (a +:+ b) = escape_each a +:+ escape_each b.
Proof.
  induction a as [|c a IH]; [reflexivity|].
  rewrite append_cons. simpl. now rewrite IH, append_assoc.
Qed.

Lemma html_entity_cases (c : ascii) :
  (c = "&"%char /\ html_entity c = "&amp;")
  \/ (c = "<"%char /\ html_entity c = "&lt;")
  \/ (c = ">"%char /\ html_entity c = "&gt;")
  \/ (c = dquote /\ html_entity c = "&quot;")
  \/ (c = "'"%char /\ html_entity c = "&#039;")
  \/ (is_html_meta c = false /\ html_entity c = String c EmptyString).
Proof.
  destruct (Ascii.eqb_spec c "&") as [->|N1]; [now left|].
  destruct (Ascii.eqb_spec c "<") as [->|N2]; [now right; left|].
  destruct (Ascii.eqb_spec c ">") as [->|N3]; [now right; right; left|].
  destruct (Ascii.eqb_spec c dquote) as [->|N4]; [now right; right; right; left|].
  destruct (Ascii.eqb_spec c "'") as [->|N5];
    [now right; right; right; right; left|].
  do 5 right.
  assert (is_html_meta c = false) as Hm.
  { unfold is_html_meta.
    apply Ascii.eqb_neq in N1, N2, N3, N4, N5.
    now rewrite N1, N2, N3, N4, N5. }
  split; [exact Hm | now apply html_entity_plain].
Qed.

Lemma html_entity_length (c : ascii) :
  (1 <= String.length (html_entity c))%nat
  /\ (String.length (html_entity c) = 1%nat <-> is_html_meta c = false).
Proof.
  destruct (html_entity_cases c)
    as [[-> ->]|[[-> ->]|[[-> ->]|[[-> ->]|[[-> ->]|[Hm ->]]]]]];
    simpl; (split; [lia|]); split; try discriminate; try lia; auto.
Qed.

Lemma escape_each_length (s : string) :
  (String.length s <= String.length (escape_each s))%nat
  /\ (String.length (escape_each s) = String.length s <-> has_html_meta s = false).
Proof.
  induction s as [|c s [IH1 IH2]]; [now simpl|].
  simpl. rewrite length_append.
  destruct (html_entity_length c) as [L1 L2].
  split; [lia|]. rewrite orb_false_iff, <- L2, <- IH2. lia.
Qed.

Lemma has_html_meta_append (a b : string) :
  has_html_meta (a +:+ b) = has_html_meta a || has_html_meta b.
Proof.
  induction a as [|c a IH]; [reflexivity|].
  rewrite append_cons. simpl. now rewrite IH, orb_assoc.
Qed.

Lemma has_html_meta_escaped (s : string) :
  has_html_meta (escape_each s) = has_html_meta s.
Proof.
  induction s as [|c s IH]; [reflexivity|].
  simpl. rewrite has_html_meta_append, IH. f_equal.
  destruct (html_entity_cases c)
    as [[-> ->]|[[-> ->]|[[-> ->]|[[-> ->]|[[-> ->]|[Hm ->]]]]]];
    try reflexivity.
  simpl. now rewrite orb_false_r.
Qed.

Lemma html_entity_prefix (c d : ascii) (x y : string) :
  html_entity c +:+ x = html_entity d +:+ y -> c = d /\ x = y.
Proof.
  destruct (html_entity_cases c)
    as [[-> ->]|[[-> ->]|[[-> ->]|[[-> ->]|[[-> ->]|[Hc ->]]]]]];
  destruct (html_entity_cases d)
    as [[-> ->]|[[-> ->]|[[-> ->]|[[-> ->]|[[-> ->]|[Hd ->]]]]]];
  rewrite ?append_cons, ?append_nil_l; intros H;
  try (inversion H; subst; try discriminate; now auto).
Qed.

(** X1. The escaped text holds none of the characters [<], [>], the double
    quote and the apostrophe, whatever the input. *)
Theorem escapeHtml_output_safe (s : string) :
  has_char "<" (escapeHtml s) = false
  /\ has_char ">" (escapeHtml s) = false
  /\ has_char dquote (escapeHtml s) = false
  /\ has_char "'" (escapeHtml s) = false.
Proof. repeat split; now apply escapeHtml_safe. Qed.

(** X2. Escaping a concatenation is concatenating the escaped parts: no
    entity is formed or broken across the boundary of two texts. *)
Theorem escapeHtml_append (a b : string) :
  escapeHtml (a +:+ b) = escapeHtml a +:+ escapeHtml b.
Proof. rewrite !escapeHtml_escape_each. apply escape_each_append. Qed.

(** X3. Escaping never shortens a text, and escaping twice changes the
    result exactly when the text holds a metacharacter: the escaper is
    idempotent on the texts it leaves unchanged and on no other. *)
Theorem escapeHtml_twice (s : string) :
  (String.length s <= String.length (escapeHtml s))%nat
  /\ (escapeHtml (escapeHtml s) = escapeHtml s <-> has_html_meta s = false)
  /\ (escapeHtml s = s <-> has_html_meta s = false).
Proof.
  rewrite !escapeHtml_escape_each.
  destruct (escape_each_length s) as [L1 L2].
  destruct (escape_each_length (escape_each s)) as [_ L3].
  split; [exact L1|]. split; split.
  - intros E. rewrite <- has_html_meta_escaped. apply L3. now rewrite E.
  - intros H. apply escape_each_plain. now rewrite has_html_meta_escaped.
  - intros E. apply L2. now rewrite E.
  - apply escape_each_plain.
Qed.

(** X4. The escaper loses no information: two texts with the same escaped
    form are the same text. *)
Theorem escapeHtml_injective (a b : string) :
  escapeHtml a = escapeHtml b -> a = b.
Proof.
  rewrite !escapeHtml_escape_each. revert b.
  induction a as [|c a IH]; intros [|d b]; simpl; intros H.
  - reflexivity.
  - exfalso. destruct (html_entity_length d) as [L _].
    apply (f_equal String.length) in H. rewrite length_append in H.
    simpl in H. lia.
  - exfalso. destruct (html_entity_length c) as [L _].
    apply (f_equal String.length) in H. rewrite length_append in H.
    simpl in H. lia.
  - apply html_entity_prefix in H as [-> H]. f_equal. now apply IH.
Qed.

(** *** More on the registry *)

Lemma append_cancel_r (a b c : string) : a +:+ c = b +:+ c -> a = b.
Proof.
  intros H.
  assert (L : String.length a = String.length b).
  { apply (f_equal String.length) in H. rewrite !length_append in H. lia. }
  destruct (append_split _ _ _ _ H) as [[e [-> _]]|[e [-> _]]];
    rewrite length_append in L;
    (assert (e = "") as -> by (destruct e; [reflexivity | simpl in L; lia]));
    now rewrite append_nil_r.
Qed.

Lemma registry_key_injective (a b : string) :
  "APP_" +:+ a +:+ "_EMAIL" = "APP_" +:+ b +:+ "_EMAIL" -> a = b.
Proof.
  rewrite !append_cons, !append_nil_l. intros H. injection H as H.
  now apply append_cancel_r in H.
Qed.

Lemma registry_key_not_credential (name : string) :
  "APP_" +:+ name +:+ "_EMAIL" <> "SENDGRID_API_KEY"
  /\ "APP_" +:+ name +:+ "_EMAIL" <> "FROM_EMAIL".
Proof. rewrite !append_cons. split; discriminate. Qed.

(** X5. The resolver reads only [APP_..._EMAIL] entries: setting or
    removing the credential [SENDGRID_API_KEY] or the sender [FROM_EMAIL]
    never changes what a name resolves to. *)
Theorem registry_ignores_credentials (name value : string) (env : Env) :
  getRecipientEmail name (<["SENDGRID_API_KEY" := value]> env)
    = getRecipientEmail name env
  /\ getRecipientEmail name (<["FROM_EMAIL" := value]> env)
     = getRecipientEmail name env
  /\ getRecipientEmail name (delete "SENDGRID_API_KEY" env)
     = getRecipientEmail name env
  /\ getRecipientEmail name (delete "FROM_EMAIL" env)
     = getRecipientEmail name env.
Proof.
  unfold getRecipientEmail.
  destruct (registry_key_not_credential
              (replace_all "-" "_" (toUpperCase name))) as [N1 N2].
  repeat split.
  - now apply lookup_insert_ne.
  - now apply lookup_insert_ne.
  - now apply lookup_delete_ne.
  - now apply lookup_delete_ne.
Qed.

(** X6. For names of ASCII characters: registering an address under the
    key of a name makes every name with the same normalized form resolve
    to it and leaves all other names as they were; removing the key of a
    name makes it unknown. *)
Theorem registry_insert_lookup (a b addr : string) (env : Env) :
  ascii_text a = true -> ascii_text b = true ->
  (normalized_name a = normalized_name b ->
   getRecipientEmail a (<["APP_" +:+ normalized_name b +:+ "_EMAIL" := addr]> env)
     = Some addr)
  /\ (normalized_name a <> normalized_name b ->
      getRecipientEmail a (<["APP_" +:+ normalized_name b +:+ "_EMAIL" := addr]> env)
        = getRecipientEmail a env)
  /\ getRecipientEmail a (delete ("APP_" +:+ normalized_name a +:+ "_EMAIL") env)
     = None.
Proof.
  intros Ha Hb. rewrite !getRecipientEmail_key by assumption. repeat split.
  - intros ->. apply lookup_insert_eq.
  - intros N. apply lookup_insert_ne. intros E.
    apply registry_key_injective in E. congruence.
  - apply lookup_delete_eq.
Qed.

(** *** More on validation *)

(** X7. A payload is accepted exactly when it is an object whose [appName]
    is a non-empty string, whose [type] is one of the four alert types,
    whose [url] and [hostname] are strings and whose [timestamp] is a
    number; nothing else about the payload is looked at. *)
Theorem validation_accepts_iff (payload : jsval) :
  validateAlertPayload payload = Returns None
  <-> exists props name type url host n,
        payload = JObj props
        /\ lookup_prop "appName" props = JStr name /\ name <> ""
        /\ lookup_prop "type" props = JStr type /\ In type VALID_ALERT_TYPES
        /\ lookup_prop "url" props = JStr url
        /\ lookup_prop "hostname" props = JStr host
        /\ lookup_prop "timestamp" props = JNum n.
Proof.
  split.
  - intros H.
    destruct (validateAlertPayload_valid _ H)
      as (Hn & [name Hname] & [ty [Hty Hin]] & [u Hu] & [h Hh] & [n Hts]).
    destruct payload as [| | | | | |props]; try discriminate Hname.
    exists props, name, ty, u, h, n. simpl field in Hname, Hty, Hu, Hh, Hts.
    repeat split; auto.
    intros ->. rewrite (validateAlertPayload_spec _ Hn) in H.
    unfold expected_error in H. simpl field in H. rewrite Hname in H.
    discriminate H.
  - intros (props & name & ty & u & h & n & -> & Hname & Hne & Hty & Hin & Hu & Hh & Hts).
    rewrite validateAlertPayload_spec by reflexivity.
    unfold expected_error. simpl field.
    rewrite Hname, Hty, Hu, Hh, Hts.
    assert (isNonEmptyString (JStr name) = true) as ->
      by (destruct name; [congruence | reflexivity]).
    assert (valid_type (JStr ty) = true) as ->.
    { unfold valid_type. apply existsb_exists. exists ty.
      split; [exact Hin | apply String.eqb_refl]. }
    reflexivity.
Qed.

(** *** More on the transport *)

(** X8. The transport returns [true] exactly when the credential is set and
    the provider answers its one call with a success status; without the
    credential it makes no call at all, and with it exactly one, to the
    SendGrid endpoint. *)
Theorem sendEmail_true_iff (env : Env) (options : EmailOptions) (net : Network) :
  (snd (sendEmail env options net) = Returns true
   <-> exists key response,
         env !! "SENDGRID_API_KEY" = Some key /\ key <> ""
         /\ net (sendgrid_request key (env !! "FROM_EMAIL") options) = Some response
         /\ fetch_ok response = true)
  /\ (not_set (env !! "SENDGRID_API_KEY") = true ->
      sendEmail env options net = ([], Returns false))
  /\ (forall key, env !! "SENDGRID_API_KEY" = Some key -> key <> "" ->
      fst (sendEmail env options net)
        = [sendgrid_request key (env !! "FROM_EMAIL") options]).
Proof.
  split; [|split].
  - split.
    + intros H.
      destruct (not_set (env !! "SENDGRID_API_KEY")) eqn:Hk.
      { rewrite (sendEmail_no_key _ _ _ Hk) in H. discriminate H. }
      destruct (env !! "SENDGRID_API_KEY") as [key|] eqn:Ek; [|discriminate].
      assert (key <> "") as Hne by (now apply String.eqb_neq).
      rewrite (sendEmail_with_key _ _ _ _ Ek Hne) in H. cbv zeta in H.
      simpl snd in H. exists key.
      destruct (net _) as [response|]; [|discriminate].
      exists response. repeat split; auto.
      destruct (fetch_ok response); [reflexivity|].
      destruct (fetch_text response); discriminate.
    + intros (key & response & Ek & Hne & Hn & Hok).
      rewrite (sendEmail_with_key _ _ _ _ Ek Hne). cbv zeta. simpl snd.
      now rewrite Hn, Hok.
  - apply sendEmail_no_key.
  - intros key Ek Hne. now rewrite (sendEmail_with_key _ _ _ _ Ek Hne).
Qed.

(** *** Invariants of the worker *)

Lemma io_res_ret {A : Type} (C : list FetchRequest -> Prop) (R : A -> Prop)
    (a : A) :
  C [] -> R a -> io_res C R (io_ret a).
Proof. intros HC HR net. split; [exact HC|]. simpl. now intros ? [= <-]. Qed.

Lemma io_res_lift_bind {A B : Type} (C : list FetchRequest -> Prop)
    (R : B -> Prop) (m : outcome A) (k : A -> io B) :
  C [] -> (forall a, io_res C R (k a)) -> io_res C R (io_bind (io_lift m) k).
Proof.
  intros HC Hk net. destruct m as [a|e].
  - rewrite io_bind_returns. apply Hk.
  - rewrite io_bind_throws. split; [exact HC | discriminate].
Qed.

Lemma io_res_bind_ret {A B : Type} (C : list FetchRequest -> Prop)
    (R : B -> Prop) (m : io A) (f : A -> B) :
  io_res C (fun _ => True) m -> (forall a, R (f a)) ->
  io_res C R (io_bind m (fun a => io_ret (f a))).
Proof.
  intros Hm Hf net. destruct (Hm net) as [HC _].
  unfold io_bind, io_ret. destruct (m net) as [calls [a|e]]; cbn in *.
  - rewrite app_nil_r. split; [exact HC|]. now intros ? [= <-].
  - split; [exact HC | discriminate].
Qed.

Lemma sendEmail_calls (env : Env) (options : EmailOptions) :
  io_res (sendgrid_calls env) (fun _ => True) (sendEmail env options).
Proof.
  intros net. split; [|auto].
  destruct (not_set (env !! "SENDGRID_API_KEY")) eqn:Hk.
  - rewrite (sendEmail_no_key _ _ _ Hk). now left.
  - destruct (env !! "SENDGRID_API_KEY") as [key|] eqn:Ek; [|discriminate].
    assert (key <> "") as Hne by (now apply String.eqb_neq).
    rewrite (sendEmail_with_key _ _ _ _ Ek Hne). right. now exists key, options.
Qed.

Lemma cors_json_response (v : jsval) (status : Z) :
  cors_response (json_response v status).
Proof. now eexists. Qed.

Lemma cors_plain_response (status : Z) (body : option string) :
  cors_response
    {| res_status := status; res_body := body; res_headers := corsHeaders |}.
Proof. now exists []. Qed.

Ltac io_steps :=
  repeat first
    [ apply io_res_lift_bind; [now left | intros ?]
    | apply io_res_ret; [now left | ]
    | apply io_res_bind_ret; [apply sendEmail_calls | intros ?]
    | match goal with
      | |- io_res _ _ (match ?x with _ => _ end) => destruct x
      end ].

Lemma handleSecurityAlert_res (request : Request) (env : Env) :
  io_res (sendgrid_calls env)
    (fun r => cors_response r /\ In (res_status r) [200; 400; 500])
    (handleSecurityAlert request env).
Proof.
  unfold handleSecurityAlert. io_steps;
    (split; [apply cors_json_response|]);
    try match goal with |- context [if ?b then _ else _] => destruct b end;
    simpl; auto.
Qed.

Lemma handleCspReport_res (request : Request) (env : Env) (now : number) :
  io_res (sendgrid_calls env)
    (fun r => cors_response r /\ In (res_status r) [204])
    (handleCspReport request env now).
Proof.
  unfold handleCspReport. io_steps;
    (split; [apply cors_plain_response|]); simpl; auto.
Qed.

Lemma route_res (request : Request) (env : Env) (now : number) :
  io_res (sendgrid_calls env)
    (fun r => cors_response r
              /\ In (res_status r) (handler_statuses (req_pathname request)))
    (route request env now).
Proof.
  unfold route, handler_statuses.
  destruct (is_alert_path _); [apply handleSecurityAlert_res|].
  destruct (String.eqb _ _); [apply handleCspReport_res|].
  apply io_res_ret; [now left|]. split; [apply cors_plain_response|].
  simpl. auto.
Qed.

Lemma worker_fetch_post (request : Request) (env : Env) (now : number)
    (net : Network) :
  req_method request = "POST" ->
  too_large (req_content_length request) = false ->
  worker_fetch request env now net =
  (fst (route request env now net),
   match snd (route request env now net) with
   | Returns response => response
   | Throws _ => json_response (error_body "Internal error") 500
   end).
Proof.
  intros Hm Hs. rewrite (worker_fetch_routed _ _ _ _ Hm Hs). cbv zeta.
  fold (route request env now).
  now destruct (route request env now net) as [calls [r|e]].
Qed.

Lemma worker_fetch_res (request : Request) (env : Env) (now : number)
    (net : Network) :
  let w := worker_fetch request env now net in
  sendgrid_calls env (fst w)
  /\ cors_response (snd w)
  /\ (req_method request <> "POST" -> fst w = [])
  /\ (req_method request = "POST" ->
      In (res_status (snd w))
         (413 :: 500 :: handler_statuses (req_pathname request))).
Proof.
  intros w. subst w.
  destruct (String.eqb_spec (req_method request) "OPTIONS") as [Ho|Ho].
  { unfold worker_fetch. rewrite Ho. simpl.
    split; [now left|]. split; [apply cors_plain_response|].
    split; [reflexivity|]. intros H. discriminate H. }
  destruct (String.eqb_spec (req_method request) "POST") as [Hp|Hp].
  2: { unfold worker_fetch.
       apply String.eqb_neq in Ho. rewrite Ho.
       pose proof Hp as Hp'. apply String.eqb_neq in Hp'. rewrite Hp'. simpl.
       split; [now left|]. split; [apply cors_plain_response|].
       split; [reflexivity|]. intros H. congruence. }
  destruct (too_large (req_content_length request)) eqn:Hs.
  { unfold worker_fetch. rewrite Hp, Hs. simpl.
    split; [now left|]. split; [apply cors_json_response|].
    split; [reflexivity|]. intros _. now left. }
  rewrite (worker_fetch_post _ _ _ _ Hp Hs). simpl fst. simpl snd.
  destruct (route_res request env now net) as [HC HR].
  split; [exact HC|].
  destruct (snd (route request env now net)) as [r|e].
  - destruct (HR r eq_refl) as [Hc Hst].
    split; [exact Hc|]. split; [congruence|]. intros _. now do 2 right.
  - split; [apply cors_json_response|]. split; [congruence|].
    intros _. right. now left.
Qed.

(** X9. Every response of the worker, error responses included, carries
    the three CORS headers. *)
Theorem every_response_has_cors_headers (request : Request) (env : Env)
    (now : number) (net : Network) :
  exists rest,
    res_headers (snd (worker_fetch request env now net)) =
    [("Access-Control-Allow-Origin", "*");
     ("Access-Control-Allow-Methods", "POST, OPTIONS");
     ("Access-Control-Allow-Headers", "Content-Type")] ++ rest.
Proof. apply (worker_fetch_res request env now net). Qed.

(** X10. A request makes at most one outbound call, and only to the
    SendGrid endpoint with the configured credential: none when the
    credential is missing or empty, and none for a method other than
    POST. *)
Theorem outbound_calls_bounded (request : Request) (env : Env)
    (now : number) (net : Network) :
  let calls := fst (worker_fetch request env now net) in
  (calls = []
   \/ exists key options,
        env !! "SENDGRID_API_KEY" = Some key /\ key <> ""
        /\ calls = [sendgrid_request key (env !! "FROM_EMAIL") options])
  /\ (not_set (env !! "SENDGRID_API_KEY") = true -> calls = [])
  /\ (req_method request <> "POST" -> calls = []).
Proof.
  intros calls. subst calls.
  destruct (worker_fetch_res request env now net) as (HC & _ & Hm & _).
  split; [exact HC|]. split; [|exact Hm].
  intros Hk. destruct HC as [E|(key & options & Ek & Hne & _)]; [exact E|].
  rewrite Ek in Hk. simpl in Hk. apply String.eqb_eq in Hk. congruence.
Qed.

(** X11. A POST to an alert path is answered 200, 400, 413 or 500; a POST to
    [/csp-report] 204, 413 or 500 and never 400; a POST to any other path
    404, 413 or 500. *)
Theorem post_statuses (request : Request) (env : Env) (now : number)
    (net : Network) :
  req_method request = "POST" ->
  let status := res_status (snd (worker_fetch request env now net)) in
  (is_alert_path (req_pathname request) = true -> In status [200; 400; 413; 500])
  /\ (req_pathname request = "/csp-report" -> In status [204; 413; 500])
  /\ (is_alert_path (req_pathname request) = false ->
      req_pathname request <> "/csp-report" -> In status [404; 413; 500]).
Proof.
  intros Hm status. subst status.
  destruct (worker_fetch_res request env now net) as (_ & _ & _ & Hst).
  specialize (Hst Hm). unfold handler_statuses in Hst.
  repeat split.
  - intros Hp. rewrite Hp in Hst. simpl in *. tauto.
  - intros Hp. rewrite Hp in Hst. simpl in *. tauto.
  - intros Hp Hn. rewrite Hp in Hst.
    apply String.eqb_neq in Hn. rewrite Hn in Hst. simpl in *. tauto.
Qed.

(** X12. What happens outside the handlers: an OPTIONS request is answered
    200 with no body, any method other than OPTIONS and POST is answered
    405, and a POST to a path that is none of the three endpoints is
    answered 404; in each case whatever the body is, and no outbound call
    is made. *)
Theorem routing_outside_handlers (request : Request) (env : Env)
    (now : number) (net : Network) :
  (req_method request = "OPTIONS" ->
   worker_fetch request env now net =
     ([], {| res_status := 200; res_body := None; res_headers := corsHeaders |}))
  /\ (req_method request <> "OPTIONS" -> req_method request <> "POST" ->
      worker_fetch request env now net =
        ([], {| res_status := 405; res_body := Some "Method not allowed";
                res_headers := corsHeaders |}))
  /\ (req_method request = "POST" ->
      too_large (req_content_length request) = false ->
      is_alert_path (req_pathname request) = false ->
      req_pathname request <> "/csp-report" ->
      worker_fetch request env now net =
        ([], {| res_status := 404; res_body := Some "Not found";
                res_headers := corsHeaders |})).
Proof.
  repeat split.
  - intros Hm. unfold worker_fetch. now rewrite Hm.
  - intros Ho Hp. unfold worker_fetch.
    apply String.eqb_neq in Ho, Hp. now rewrite Ho, Hp.
  - intros Hm Hs Hp Hc. rewrite (worker_fetch_post _ _ _ _ Hm Hs).
    unfold route. rewrite Hp. apply String.eqb_neq in Hc. now rewrite Hc.
Qed.

(** X13. A body that does not parse as JSON, posted to an alert path or to
    [/csp-report], is answered 500 with the body
    [{`success`:false,`error`:`Internal error`}], and no outbound call is
    made. *)
Theorem unparseable_body_is_500 (request : Request) (env : Env)
    (now : number) (net : Network) (e : exn) :
  req_method request = "POST" ->
  too_large (req_content_length request) = false ->
  is_alert_path (req_pathname request) = true
  \/ req_pathname request = "/csp-report" ->
  req_json request = Throws e ->
  worker_fetch request env now net =
    ([], {| res_status := 500;
            res_body := Some (qq "{`success`:false,`error`:`Internal error`}");
            res_headers := corsHeaders ++ [("Content-Type", "application/json")] |}).
Proof.
  intros Hm Hs Hp Hj. rewrite (worker_fetch_post _ _ _ _ Hm Hs). unfold route.
  destruct Hp as [Hp|Hp].
  - rewrite Hp. unfold handleSecurityAlert. now rewrite Hj, io_bind_throws.
  - rewrite Hp. simpl. unfold handleCspReport. now rewrite Hj, io_bind_throws.
Qed.

(** *** More on the renderer *)

Lemma starts_with_append (m a b : string) :
  starts_with m a = true -> starts_with m (a +:+ b) = true.
Proof.
  rewrite !starts_with_spec. intros [q ->]. exists (q +:+ b).
  now rewrite append_assoc.
Qed.

Lemma suffix_append (m a b : string) :
  (exists p, b = p +:+ m) -> exists p, a +:+ b = p +:+ m.
Proof. intros [p ->]. exists (a +:+ p). now rewrite append_assoc. Qed.

Lemma text_block_string (v : jsval) (A B b : string) :
  (if truthy v then
     let* text := escapeHtml_value v in Returns (A +:+ text +:+ B)
   else Returns "") = Returns b ->
  truthy v = true -> is_string v = true.
Proof.
  intros H Hv.
  destruct (block_cases _ _ _ _ _ H) as [[E _]|[_ [t [Ht _]]]]; [congruence|].
  apply escapeHtml_value_escaped in Ht as [s [-> _]]. reflexivity.
Qed.

(** What a successful rendering establishes about a validated alert. *)
Lemma format_returns_conditions (alert : jsval) (doc : string) :
  validateAlertPayload alert = Returns None ->
  formatSecurityAlertEmail alert = Returns doc ->
  (forall n, field alert "timestamp" = JNum n ->
             time_clip (number_to_integer n) <> None)
  /\ (forall k, In k ["appVersion"; "userAgent"; "stack"] ->
                truthy (field alert k) = true -> is_string (field alert k) = true).
Proof.
  intros Hv Hf.
  destruct (validateAlertPayload_valid _ Hv)
    as (Hn & [name Hname] & [ty [Hty Hin]] & [u Hu] & [h Hh] & [n Hts]).
  unfold formatSecurityAlertEmail in Hf.
  rewrite !(get_prop_field _ _ Hn) in Hf.
  rewrite Hts, Hty, Hname, Hu, Hh in Hf.
  cbn [bind new_Date as_string escapeHtml_value] in Hf.
  destruct (time_clip (number_to_integer n)) as [tv|] eqn:Htv; [|discriminate Hf].
  cbn [bind toISOString] in Hf.
  apply bind_returns in Hf as [b1 [Hb1 Hf]].
  apply bind_returns in Hf as [b2 [Hb2 Hf]].
  apply bind_returns in Hf as [b3 [Hb3 Hf]].
  split.
  - intros n' Hn'. rewrite Hts in Hn'. injection Hn' as <-. now rewrite Htv.
  - intros k [<-|[<-|[<-|[]]]] Ht.
    + exact (text_block_string _ _ _ _ Hb1 Ht).
    + exact (text_block_string _ _ _ _ Hb2 Ht).
    + exact (text_block_string _ _ _ _ Hb3 Ht).
Qed.

(** X14. For a validated alert, the renderer of [src/email.ts] returns a
    document exactly when the [timestamp] is a time value in range (at
    most 8.64e15 ms from the epoch) and each of [appVersion], [userAgent]
    and [stack] is falsy or a string; otherwise it throws. *)
Theorem render_returns_iff (alert : jsval) :
  validateAlertPayload alert = Returns None ->
  (exists doc, formatSecurityAlertEmail alert = Returns doc)
  <-> (forall n, field alert "timestamp" = JNum n ->
                 time_clip (number_to_integer n) <> None)
      /\ (forall k, In k ["appVersion"; "userAgent"; "stack"] ->
                    truthy (field alert k) = true ->
                    is_string (field alert k) = true).
Proof.
  intros Hv. split.
  - intros [doc Hf]. exact (format_returns_conditions _ _ Hv Hf).
  - intros [Ht Hk]. now apply formatSecurityAlertEmail_returns.
Qed.

(** X15. A validated alert of a registered application that cannot be
    rendered, because its [timestamp] is out of range or because one of
    its optional text fields is truthy and not a string, is answered 500
    [Internal error]; no email is sent. *)
Theorem unrenderable_alert_is_500 (request : Request) (env : Env)
    (now : number) (net : Network) (payload : jsval) (name : string) :
  req_method request = "POST" ->
  too_large (req_content_length request) = false ->
  is_alert_path (req_pathname request) = true ->
  req_json request = Returns payload ->
  validateAlertPayload payload = Returns None ->
  field payload "appName" = JStr name ->
  not_set (getRecipientEmail name env) = false ->
  (exists n, field payload "timestamp" = JNum n
             /\ time_clip (number_to_integer n) = None)
  \/ (exists k, In k ["appVersion"; "userAgent"; "stack"]
                /\ truthy (field payload k) = true
                /\ is_string (field payload k) = false) ->
  worker_fetch request env now net =
    ([], {| res_status := 500;
            res_body := Some (qq "{`success`:false,`error`:`Internal error`}");
            res_headers := corsHeaders ++ [("Content-Type", "application/json")] |}).
Proof.
  intros Hm Hs Hp Hj Hv Ha Hr Hbad.
  assert (exists e, formatSecurityAlertEmail payload = Throws e) as [e He].
  { destruct (formatSecurityAlertEmail payload) as [doc|e] eqn:Hf; [|eauto].
    exfalso. destruct (format_returns_conditions _ _ Hv Hf) as [Ht Hk].
    destruct Hbad as [(n & Hn & Hc)|(k & Hin & Hty & Hns)].
    - now apply (Ht n).
    - rewrite (Hk k Hin Hty) in Hns. discriminate Hns. }
  rewrite (worker_fetch_post _ _ _ _ Hm Hs). unfold route. rewrite Hp.
  rewrite (handleSecurityAlert_resolved _ _ _ _ _ Hj Hv Ha), Hr.
  destruct (validateAlertPayload_valid _ Hv) as (Hn & _ & [ty [Hty _]] & _).
  rewrite (get_prop_field _ _ Hn), Hty, io_bind_returns.
  simpl to_string. rewrite !io_bind_returns, He, io_bind_throws.
  reflexivity.
Qed.

Lemma count_char_append (c : ascii) (a b : string) :
  count_char c (a +:+ b) = (count_char c a + count_char c b)%nat.
Proof.
  induction a as [|x a IH]; [reflexivity|].
  rewrite append_cons. simpl. rewrite IH. lia.
Qed.

Lemma count_char_absent (c : ascii) (s : string) :
  has_char c s = false -> count_char c s = 0%nat.
Proof.
  induction s as [|x s IH]; [reflexivity|].
  simpl. intros H. apply orb_false_iff in H as [-> H]. now rewrite IH.
Qed.

Lemma escaped_count (t : string) : escaped t -> count_char "<" t = 0%nat.
Proof.
  intros [s ->]. apply count_char_absent. now apply escapeHtml_safe.
Qed.

(** The [<] characters of an optional block are those of its two
    constant parts. *)
Lemma block_count (v : jsval) (text : outcome string) (A B b : string) :
  (if truthy v then let* t := text in Returns (A +:+ t +:+ B) else Returns "")
    = Returns b ->
  (forall t, text = Returns t -> escaped t) ->
  count_char "<" b
  = block_tags (count_char "<" A + count_char "<" B) v.
Proof.
  intros H Ht. unfold block_tags.
  destruct (block_cases _ _ _ _ _ H) as [[-> ->]|[-> [t [E ->]]]];
    [reflexivity|].
  rewrite !count_char_append, (escaped_count t (Ht _ E)). lia.
Qed.

Lemma text_is_escaped (v : jsval) (t : string) :
  escapeHtml_value v = Returns t -> escaped t.
Proof. intros H. apply escapeHtml_value_escaped in H as [s [_ ->]]. now exists s. Qed.

Lemma json_is_escaped (json : option string) (t : string) :
  match json with
  | Some text => Returns (escapeHtml text)
  | None => Throws TypeError
  end = Returns t -> escaped t.
Proof. destruct json; [intros [= <-]; now eexists | discriminate]. Qed.

Ltac count_block Hb :=
  rewrite (block_count _ _ _ _ _ Hb)
    by (intros ? ?;
        first [ eapply text_is_escaped; eassumption
              | eapply json_is_escaped; eassumption ]).

(** X16. No field of an alert can open a tag in the email rendered by
    [src/email.ts]: the document has the 43 [<] characters of the fixed
    template, 6 more for each of the App Version, User Agent and Stack
    Trace blocks that is present and 8 more for the Additional Details
    block, whatever the texts of the fields. *)
Theorem rendered_tags_fixed (alert : jsval) (doc : string) :
  validateAlertPayload alert = Returns None ->
  formatSecurityAlertEmail alert = Returns doc ->
  count_char "<" doc
  = (43 + block_tags 6 (field alert "appVersion")
        + block_tags 6 (field alert "userAgent")
        + block_tags 6 (field alert "stack")
        + block_tags 8 (field alert "metadata"))%nat.
Proof.
  intros Hv Hf.
  unfold formatSecurityAlertEmail in Hf.
  rendered_fields alert Hv Hf.
  apply bind_returns in Hf as [b1 [Hb1 Hf]].
  apply bind_returns in Hf as [b2 [Hb2 Hf]].
  apply bind_returns in Hf as [b3 [Hb3 Hf]].
  apply bind_returns in Hf as [b4 [Hb4 Hf]].
  rendered_trimmed Hf.
  rewrite !count_char_append.
  count_block Hb1. count_block Hb2. count_block Hb3. count_block Hb4.
  repeat match goal with
         | H : escaped ?t |- _ => rewrite (escaped_count t H); clear H
         | H : has_char _ ?t = false |- _ =>
             rewrite (count_char_absent _ t H); clear H
         end.
  unfold block_tags.
  destruct (truthy (field alert "appVersion")),
           (truthy (field alert "userAgent")),
           (truthy (field alert "stack")),
           (truthy (field alert "metadata")); vm_compute; reflexivity.
Qed.

(** X17. A rendered email, of either renderer, is a trimmed HTML document:
    it starts with the doctype and ends with the closing [html] tag. *)
Theorem document_frame (alert : jsval) (doc : string) :
  validateAlertPayload alert = Returns None ->
  formatSecurityAlertEmail alert = Returns doc
  \/ formatSecurityAlertEmail_inline alert = Returns doc ->
  starts_with "<!DOCTYPE html>" doc = true
  /\ exists front, doc = front +:+ "</html>".
Proof.
  intros Hv [Hf|Hf].
  - unfold formatSecurityAlertEmail in Hf.
    rendered_fields alert Hv Hf.
    do 4 (apply bind_returns in Hf as [? [? Hf]]).
    rendered_trimmed Hf.
    split; [apply starts_with_append; vm_compute; reflexivity|].
    repeat apply suffix_append.
    exists (String "010" "    </div>" +:+ String "010" "  </div>"
            +:+ String "010" "</body>" +:+ String "010" "").
    vm_compute. reflexivity.
  - unfold formatSecurityAlertEmail_inline in Hf.
    rendered_fields alert Hv Hf.
    do 3 (apply bind_returns in Hf as [? [? Hf]]).
    rendered_trimmed Hf.
    split; [apply starts_with_append; vm_compute; reflexivity|].
    repeat apply suffix_append.
    exists (String "010" "    </div>" +:+ String "010" "  </div>"
            +:+ String "010" "</body>" +:+ String "010" "").
    vm_compute. reflexivity.
Qed.

(** X18. No field of an alert can bring a [script] or an [img] element into
    a rendered email, of either renderer: the document contains neither
    [<script] nor [<img]. *)
Theorem no_script_element (alert : jsval) (doc : string) :
  validateAlertPayload alert = Returns None ->
  formatSecurityAlertEmail alert = Returns doc
  \/ formatSecurityAlertEmail_inline alert = Returns doc ->
  includes doc "<script" = false /\ includes doc "<img" = false.
Proof.
  intros Hv [Hf|Hf].
  - unfold formatSecurityAlertEmail in Hf.
    rendered_fields alert Hv Hf.
    do 4 (apply bind_returns in Hf as [? [? Hf]]).
    rendered_trimmed Hf.
    split; (apply starts_free_absent; [vm_compute; discriminate | free]).
  - unfold formatSecurityAlertEmail_inline in Hf.
    rendered_fields alert Hv Hf.
    do 3 (apply bind_returns in Hf as [? [? Hf]]).
    rendered_trimmed Hf.
    split; (apply starts_free_absent; [vm_compute; discriminate | free]).
Qed.

Tactic Notation "nth_part" integer(n) :=
  do n apply includes_append_r; apply includes_append_l; apply includes_self.

(** X19. A rendered email, of either renderer, shows the required fields of
    the alert: the [type] in capitals with a space for each underscore,
    the escaped [appName], [url] and [hostname], and the [timestamp] as an
    ISO-8601 date. *)
Theorem required_fields_rendered (alert : jsval) (doc : string) :
  validateAlertPayload alert = Returns None ->
  formatSecurityAlertEmail alert = Returns doc
  \/ formatSecurityAlertEmail_inline alert = Returns doc ->
  exists name type url host n tv,
    field alert "appName" = JStr name /\ field alert "type" = JStr type
    /\ field alert "url" = JStr url /\ field alert "hostname" = JStr host
    /\ field alert "timestamp" = JNum n /\ number_to_integer n = Some tv
    /\ includes doc (toUpperCase (replace_all "_" " " type)) = true
    /\ includes doc (escapeHtml name) = true
    /\ includes doc (iso_string tv) = true
    /\ includes doc (escapeHtml url) = true
    /\ includes doc (escapeHtml host) = true.
Proof.
  intros Hv Hf.
  destruct (validateAlertPayload_valid _ Hv)
    as (Hn & [name Hname] & [ty [Hty Hin]] & [u Hu] & [h Hh] & [n Hts]).
  exists name, ty, u, h, n.
  destruct Hf as [Hf|Hf].
  - unfold formatSecurityAlertEmail in Hf.
    rewrite !(get_prop_field _ _ Hn) in Hf.
    rewrite Hts, Hty, Hname, Hu, Hh in Hf.
    cbn [bind new_Date as_string escapeHtml_value] in Hf.
    destruct (number_to_integer n) as [tv|] eqn:Htv; [|discriminate Hf].
    simpl time_clip in Hf.
    destruct (Z.abs tv <=? 8640000000000000); [|discriminate Hf].
    cbn [bind toISOString] in Hf.
    do 4 (apply bind_returns in Hf as [? [? Hf]]).
    rendered_trimmed Hf.
    exists tv. repeat (split; [reflexivity || assumption|]).
    split; [nth_part 1|]. split; [nth_part 3|]. split; [nth_part 5|].
    split; [nth_part 7|nth_part 9].
  - unfold formatSecurityAlertEmail_inline in Hf.
    rewrite !(get_prop_field _ _ Hn) in Hf.
    rewrite Hts, Hty, Hname, Hu, Hh in Hf.
    cbn [bind new_Date as_string escapeHtml_value] in Hf.
    destruct (number_to_integer n) as [tv|] eqn:Htv; [|discriminate Hf].
    simpl time_clip in Hf.
    destruct (Z.abs tv <=? 8640000000000000); [|discriminate Hf].
    cbn [bind toISOString] in Hf.
    do 3 (apply bind_returns in Hf as [? [? Hf]]).
    rendered_trimmed Hf.
    exists tv. repeat (split; [reflexivity || assumption|]).
    split; [nth_part 1|]. split; [nth_part 3|]. split; [nth_part 5|].
    split; [nth_part 7|nth_part 9].
Qed.

Tactic Notation "block_value" hyp(Hb) hyp(Hfield) hyp(Ht) integer(k) :=
  rewrite Hfield, Ht in Hb;
  cbn [bind escapeHtml_value as_string] in Hb;
  injection Hb as <-;
  do k apply includes_append_r; apply includes_append_l;
  apply includes_append_r; apply includes_append_l; apply includes_self.

Lemma nonempty_truthy (s : string) : s <> "" -> truthy (JStr s) = true.
Proof. intros H. simpl. now apply negb_true_iff, String.eqb_neq. Qed.

(** X20. The renderer of [src/email.ts] shows the User Agent block exactly
    when [userAgent] is truthy, and then with the escaped user agent; a
    non-empty [stack] is shown escaped as well. *)
Theorem user_agent_block (alert : jsval) (doc : string) :
  validateAlertPayload alert = Returns None ->
  formatSecurityAlertEmail alert = Returns doc ->
  includes doc (label_element "User Agent") = truthy (field alert "userAgent")
  /\ (forall agent,
      field alert "userAgent" = JStr agent -> agent <> "" ->
      includes doc (escapeHtml agent) = true)
  /\ (forall stack,
      field alert "stack" = JStr stack -> stack <> "" ->
      includes doc (escapeHtml stack) = true).
Proof.
  intros Hv Hf.
  unfold formatSecurityAlertEmail in Hf.
  rendered_fields alert Hv Hf.
  apply bind_returns in Hf as [b1 [Hb1 Hf]].
  apply bind_returns in Hf as [b2 [Hb2 Hf]].
  apply bind_returns in Hf as [b3 [Hb3 Hf]].
  apply bind_returns in Hf as [b4 [Hb4 Hf]].
  rendered_trimmed Hf.
  split; [label_case|]. split.
  - intros agent Hfield Hne. pose proof (nonempty_truthy _ Hne) as Ht.
    block_value Hb2 Hfield Ht 13.
  - intros stack Hfield Hne. pose proof (nonempty_truthy _ Hne) as Ht.
    block_value Hb3 Hfield Ht 15.
Qed.

(** X21. The inline renderer of the earlier [src/index.ts] has no User
    Agent block: its document never contains that label, whatever the
    [userAgent] of the alert. *)
Theorem inline_omits_user_agent (alert : jsval) (doc : string) :
  validateAlertPayload alert = Returns None ->
  formatSecurityAlertEmail_inline alert = Returns doc ->
  includes doc (label_element "User Agent") = false.
Proof.
  intros Hv Hf.
  unfold formatSecurityAlertEmail_inline in Hf.
  rendered_fields alert Hv Hf.
  do 3 (apply bind_returns in Hf as [? [? Hf]]).
  rendered_trimmed Hf.
  apply starts_free_absent; [vm_compute; discriminate | free].
Qed.

(** *** More on CSP reports *)

Lemma cspAlert_object (name : string) (cspData : jsval) (now : number)
    (alert : jsval) :
  cspAlert name cspData now = Returns alert ->
  alert = JObj [
    ("appName", JStr name);
    ("type", JStr "csp_violation");
    ("url", field cspData "blocked-uri");
    ("hostname", extractHostname (field cspData "blocked-uri"));
    ("timestamp", JNum now);
    ("metadata", JObj [
       ("documentUri", field cspData "document-uri");
       ("violatedDirective", field cspData "violated-directive");
       ("originalPolicy", field cspData "original-policy");
       ("sourceFile", field cspData "source-file");
       ("lineNumber", field cspData "line-number")])].
Proof.
  intros H. pose proof (cspAlert_returns _ _ _ _ H) as Hn.
  unfold cspAlert in H. rewrite !(get_prop_field _ _ Hn) in H.
  cbn [bind] in H. now injection H as <-.
Qed.

Lemma cspAlert_defined (name : string) (cspData : jsval) (now : number) :
  nullish cspData = false ->
  exists alert, cspAlert name cspData now = Returns alert.
Proof.
  intros Hn. unfold cspAlert. rewrite !(get_prop_field _ _ Hn).
  cbn [bind]. eauto.
Qed.

Lemma extractHostname_is_string (v : jsval) :
  is_string v = true -> is_string (extractHostname v) = true.
Proof.
  destruct v; try discriminate. intros _.
  rewrite extractHostname_string. now destruct (url_parse s).
Qed.

Lemma isNonEmptyString_iff (s : string) :
  isNonEmptyString (JStr s) = true <-> s <> "".
Proof.
  destruct s as [|c s]; simpl; split.
  - discriminate.
  - intros H. exfalso. now apply H.
  - intros _ E. discriminate E.
  - reflexivity.
Qed.

Lemma cspAlert_expected_error (name : string) (cspData : jsval) (now : number)
    (alert : jsval) :
  cspAlert name cspData now = Returns alert ->
  validateAlertPayload alert
  = Returns (if negb (isNonEmptyString (JStr name)) then
               Some "appName must be a non-empty string"
             else if negb (is_string (field cspData "blocked-uri")) then
               Some "url must be a string"
             else None).
Proof.
  intros H. rewrite (cspAlert_object _ _ _ _ H).
  rewrite validateAlertPayload_spec by reflexivity.
  unfold expected_error.
  change (field (JObj ?l) ?k) with (lookup_prop k l).
  cbn [lookup_prop String.eqb Ascii.eqb Bool.eqb].
  destruct (isNonEmptyString (JStr name)); [|reflexivity].
  change (valid_type (JStr "csp_violation")) with true.
  cbn [negb is_number].
  destruct (is_string (field cspData "blocked-uri")) eqn:Hs; [|reflexivity].
  now rewrite (extractHostname_is_string _ Hs).
Qed.

(** X22. The alert that the CSP handler builds from a report would pass the
    validation of the alert handler exactly when the application name is
    not empty and the [blocked-uri] of the report is a string; the handler
    itself does not validate it. *)
Theorem cspAlert_valid_iff (name : string) (cspData : jsval) (now : number)
    (alert : jsval) :
  cspAlert name cspData now = Returns alert ->
  validateAlertPayload alert = Returns None
  <-> name <> "" /\ is_string (field cspData "blocked-uri") = true.
Proof.
  intros H. rewrite (cspAlert_expected_error _ _ _ _ H).
  rewrite <- isNonEmptyString_iff.
  destruct (isNonEmptyString (JStr name)); simpl.
  - destruct (is_string (field cspData "blocked-uri")); simpl.
    + split; auto.
    + split; [discriminate | intros [_ ?]; discriminate].
  - split; [discriminate | intros [? _]; discriminate].
Qed.

(** X23. The email of a CSP report, as rendered by either renderer for a
    named application, is headed [CSP VIOLATION] and has the Additional
    Details block, the handler's metadata object being truthy, and none of
    the App Version, User Agent and Stack Trace blocks. *)
Theorem csp_email_blocks (name : string) (cspData : jsval) (now : number)
    (alert : jsval) (doc : string) :
  name <> "" ->
  is_string (field cspData "blocked-uri") = true ->
  cspAlert name cspData now = Returns alert ->
  formatSecurityAlertEmail alert = Returns doc
  \/ formatSecurityAlertEmail_inline alert = Returns doc ->
  includes doc "CSP VIOLATION" = true
  /\ includes doc (label_element "Additional Details") = true
  /\ includes doc (label_element "App Version") = false
  /\ includes doc (label_element "User Agent") = false
  /\ includes doc (label_element "Stack Trace") = false.
Proof.
  intros Hne Hs Ha Hf.
  assert (Hv : validateAlertPayload alert = Returns None).
  { rewrite (cspAlert_expected_error _ _ _ _ Ha), Hs.
    apply isNonEmptyString_iff in Hne. now rewrite Hne. }
  pose proof (cspAlert_object _ _ _ _ Ha) as Ho.
  assert (Hm : truthy (field alert "metadata") = true) by now rewrite Ho.
  assert (H1 : truthy (field alert "appVersion") = false) by now rewrite Ho.
  assert (H2 : truthy (field alert "userAgent") = false) by now rewrite Ho.
  assert (H3 : truthy (field alert "stack") = false) by now rewrite Ho.
  assert (Ht : field alert "type" = JStr "csp_violation") by now rewrite Ho.
  clear Ho Ha.
  destruct Hf as [Hf|Hf].
  - unfold formatSecurityAlertEmail in Hf.
    rendered_fields alert Hv Hf.
    do 4 (apply bind_returns in Hf as [? [? Hf]]).
    rendered_trimmed Hf.
    split.
    { match goal with
      | H : field alert "type" = JStr ?t |- _ =>
          rewrite Ht in H; injection H as <-
      end.
      apply includes_append_r, includes_append_l.
      rewrite toUpperCase_ascii by reflexivity.
      vm_compute. reflexivity. }
    split; [etransitivity; [|exact Hm]; label_case|].
    split; [etransitivity; [|exact H1]; label_case|].
    split; [etransitivity; [|exact H2]; label_case|].
    etransitivity; [|exact H3]; label_case.
  - unfold formatSecurityAlertEmail_inline in Hf.
    rendered_fields alert Hv Hf.
    do 3 (apply bind_returns in Hf as [? [? Hf]]).
    rendered_trimmed Hf.
    split.
    { match goal with
      | H : field alert "type" = JStr ?t |- _ =>
          rewrite Ht in H; injection H as <-
      end.
      apply includes_append_r, includes_append_l.
      rewrite toUpperCase_ascii by reflexivity.
      vm_compute. reflexivity. }
    split; [etransitivity; [|exact Hm]; label_case|].
    split; [etransitivity; [|exact H1]; label_case|].
    split; [apply starts_free_absent; [vm_compute; discriminate | free]|].
    etransitivity; [|exact H3]; label_case.
Qed.

Lemma worker_fetch_csp (request : Request) (env : Env) (now : number)
    (net : Network) :
  req_method request = "POST" ->
  too_large (req_content_length request) = false ->
  req_pathname request = "/csp-report" ->
  worker_fetch request env now net =
  (fst (handleCspReport request env now net),
   match snd (handleCspReport request env now net) with
   | Returns response => response
   | Throws _ => internal_error
   end).
Proof.
  intros Hm Hs Hp. rewrite (worker_fetch_post _ _ _ _ Hm Hs).
  unfold route. now rewrite Hp.
Qed.

Lemma handleCspReport_data (request : Request) (env : Env) (now : number)
    (net : Network) (report : jsval) :
  req_json request = Returns report ->
  nullish report = false ->
  handleCspReport request env now net =
  (let cspData := field report "csp-report" in
   let! appName := io_lift (cspAppName request cspData) in
   if not_set appName then io_ret no_content
   else
     let name := default "" appName in
     let recipient := getRecipientEmail name env in
     if not_set recipient then io_ret no_content
     else
       let! alert := io_lift (cspAlert name cspData now) in
       let! violatedDirective := io_lift (get_prop cspData "violated-directive") in
       let! directive_text := io_lift (to_string violatedDirective) in
       let! body := io_lift (formatSecurityAlertEmail alert) in
       let! _ :=
         sendEmail env
           {| to := default "" recipient;
              subject := "[CSP Violation] " +:+ name +:+ ": " +:+ directive_text;
              html := body |} in
       io_ret no_content) net.
Proof.
  intros Hj Hn. unfold handleCspReport.
  now rewrite Hj, io_bind_returns, (get_prop_field _ _ Hn), io_bind_returns.
Qed.

(** X24. A CSP report for which no application is found, the request having
    no non-empty [appName] query parameter and the [document-uri] giving
    no inference, is answered 204 with no body, and no outbound call is
    made. *)
Theorem csp_unidentified_app (request : Request) (env : Env) (now : number)
    (net : Network) (report : jsval) :
  req_method request = "POST" ->
  too_large (req_content_length request) = false ->
  req_pathname request = "/csp-report" ->
  req_json request = Returns report ->
  nullish report = false ->
  nullish (field report "csp-report") = false ->
  not_set (req_appName request) = true ->
  inferAppName (field (field report "csp-report") "document-uri") = None ->
  worker_fetch request env now net =
    ([], {| res_status := 204; res_body := None; res_headers := corsHeaders |}).
Proof.
  intros Hm Hs Hp Hj Hn Hd Hq Hi.
  rewrite (worker_fetch_csp _ _ _ _ Hm Hs Hp).
  rewrite (handleCspReport_data _ _ _ _ _ Hj Hn). cbv zeta.
  unfold cspAppName. rewrite Hq. simpl negb. cbv iota.
  rewrite (get_prop_field _ _ Hd). cbn [bind].
  now rewrite io_bind_returns, Hi.
Qed.


Lemma formatSecurityAlertEmail_url (alert : jsval) (doc : string) :
  formatSecurityAlertEmail alert = Returns doc ->
  is_string (field alert "url") = true.
Proof.
  intros Hf. unfold formatSecurityAlertEmail in Hf.
  apply bind_returns in Hf as [t [Ht Hf]].
  assert (Hn : nullish alert = false).
  { unfold get_prop in Ht. now destruct (nullish alert). }
  rewrite !(get_prop_field _ _ Hn) in Hf.
  do 5 (apply bind_returns in Hf as [? [_ Hf]]).
  cbn [bind] in Hf.
  apply bind_returns in Hf as [? [_ Hf]].
  apply bind_returns in Hf as [u [Hu Hf]].
  apply escapeHtml_value_escaped in Hu as [s [-> _]]. reflexivity.
Qed.

(** X26. A CSP report of a registered application whose [blocked-uri] is
    not a string (missing, for one) is answered 500 [Internal error], not
    204: the alert built from it cannot be rendered. No outbound call is
    made. *)
Theorem csp_without_blocked_uri (request : Request) (env : Env)
    (now : number) (net : Network) (report : jsval) (name : string) :
  req_method request = "POST" ->
  too_large (req_content_length request) = false ->
  req_pathname request = "/csp-report" ->
  req_json request = Returns report ->
  nullish report = false ->
  nullish (field report "csp-report") = false ->
  cspAppName request (field report "csp-report") = Returns (Some name) ->
  not_set (getRecipientEmail name env) = false ->
  is_string (field (field report "csp-report") "blocked-uri") = false ->
  worker_fetch request env now net = ([], internal_error).
Proof.
  intros Hm Hs Hp Hj Hn Hd Ha Hr Hb.
  rewrite (worker_fetch_csp _ _ _ _ Hm Hs Hp).
  rewrite (handleCspReport_named _ _ _ _ _ _ Hj Hn Ha).
  rewrite (cspAppName_nonempty _ _ _ Ha), Hr. cbv zeta.
  destruct (cspAlert_defined name _ now Hd) as [alert Hal].
  rewrite Hal, io_bind_returns, (get_prop_field _ _ Hd), io_bind_returns.
  destruct (to_string _) as [directive|e]; [|now rewrite io_bind_throws].
  rewrite io_bind_returns.
  destruct (formatSecurityAlertEmail alert) as [doc|e] eqn:Hf;
    [|now rewrite io_bind_throws].
  apply formatSecurityAlertEmail_url in Hf.
  rewrite (cspAlert_object _ _ _ _ Hal) in Hf. simpl in Hf. congruence.
Qed.

Lemma io_bind_calls {A B : Type} (m : io A) (b : B) (net : Network) :
  fst (io_bind m (fun _ => io_ret b) net) = fst (m net).
Proof.
  unfold io_bind, io_ret. destruct (m net) as [calls [a|e]]; simpl;
    [apply app_nil_r | reflexivity].
Qed.

(** X27. A CSP report without an [appName] query parameter whose
    [document-uri] is on [signic.email] is mailed to the address registered
    as [APP_MAIL_BOX_EMAIL], and one from a [chrome-extension:] page to the
    one registered as [APP_MAIL_BOX_WALLET_EMAIL]: the worker makes the one
    call that sends the rendered email to that address, under the subject
    of the violated directive. *)
Theorem csp_inferred_recipient (request : Request) (env : Env) (now : number)
    (net : Network) (report alert : jsval) (d : string) (url : URL)
    (recipient key directive body : string) :
  let cspData := field report "csp-report" in
  let signic := includes (hostname url) "signic.email" in
  let name := if signic then "mail_box" else "mail_box_wallet" in
  let entry :=
    if signic then "APP_MAIL_BOX_EMAIL" else "APP_MAIL_BOX_WALLET_EMAIL" in
  req_method request = "POST" ->
  too_large (req_content_length request) = false ->
  req_pathname request = "/csp-report" ->
  req_json request = Returns report ->
  nullish report = false ->
  not_set (req_appName request) = true ->
  field cspData "document-uri" = JStr d ->
  url_parse d = Some url ->
  signic = true \/ protocol url = "chrome-extension:" ->
  env !! entry = Some recipient -> recipient <> "" ->
  env !! "SENDGRID_API_KEY" = Some key -> key <> "" ->
  cspAlert name cspData now = Returns alert ->
  to_string (field cspData "violated-directive") = Returns directive ->
  formatSecurityAlertEmail alert = Returns body ->
  fst (worker_fetch request env now net)
  = [sendgrid_request key (env !! "FROM_EMAIL")
       {| to := recipient;
          subject := "[CSP Violation] " +:+ name +:+ ": " +:+ directive;
          html := body |}].
Proof.
  intros cspData signic name entry Hm Hs Hp Hj Hn Hq Hd Hu Hcase Hr Hne
    Hk Hkne Hal Hdir Hf.
  pose proof (cspAlert_returns _ _ _ _ Hal) as Hc.
  assert (Ha : cspAppName request cspData = Returns (Some name)).
  { unfold cspAppName. rewrite Hq. simpl negb. cbv iota.
    rewrite (get_prop_field _ _ Hc), Hd. cbn [bind].
    unfold inferAppName. rewrite new_URL_string, Hu.
    subst name. fold signic. destruct signic; [reflexivity|].
    destruct Hcase as [Hcase| ->]; [discriminate Hcase | reflexivity]. }
  assert (Hg : getRecipientEmail name env = Some recipient).
  { rewrite <- Hr. subst name entry.
    destruct signic; now rewrite getRecipientEmail_key. }
  assert (Hset : not_set (Some recipient) = false) by now apply String.eqb_neq.
  rewrite (worker_fetch_csp _ _ _ _ Hm Hs Hp). cbn [fst].
  rewrite (handleCspReport_named _ _ _ _ _ _ Hj Hn Ha).
  rewrite (cspAppName_nonempty _ _ _ Ha), Hg, Hset. cbv zeta.
  fold cspData.
  rewrite Hal, io_bind_returns, (get_prop_field _ _ Hc), io_bind_returns.
  rewrite Hdir, io_bind_returns, Hf, io_bind_returns.
  rewrite io_bind_calls.
  now rewrite (sendEmail_with_key _ _ _ _ Hk Hkne).
Qed.

(** *** What a success status means *)

Lemma io_rel_ret {A : Type} (Q : Network -> list FetchRequest -> A -> Prop)
    (a : A) :
  (forall net, Q net [] a) -> io_rel Q (io_ret a).
Proof. intros H net calls a' E. inversion E; subst. apply H. Qed.

Lemma io_rel_lift_bind {A B : Type}
    (Q : Network -> list FetchRequest -> B -> Prop)
    (m : outcome A) (k : A -> io B) :
  (forall a, io_rel Q (k a)) -> io_rel Q (io_bind (io_lift m) k).
Proof.
  intros H net calls b E. destruct m as [a|e].
  - rewrite io_bind_returns in E. exact (H a net calls b E).
  - discriminate E.
Qed.

Lemma sent_response_rel (env : Env) (options : EmailOptions) :
  io_rel (fun net calls r => res_status r = 200 ->
            accepted_once net calls
            /\ res_body r = Some (qq "{`success`:true}"))
    (let! emailSent := sendEmail env options in
     io_ret (json_response (JObj [("success", JBool emailSent)])
               (if emailSent then 200 else 500))).
Proof.
  intros net calls r E. unfold io_bind in E.
  destruct (sendEmail env options net) as [c [sent|e]] eqn:Hs;
    [|discriminate E].
  unfold io_ret in E. inversion E; subst. clear E.
  destruct sent; [|discriminate].
  intros _. rewrite app_nil_r. split; [|reflexivity].
  exact (sendEmail_true _ _ _ _ Hs).
Qed.

Lemma handleSecurityAlert_rel (request : Request) (env : Env) :
  io_rel (fun net calls r => res_status r = 200 ->
            accepted_once net calls
            /\ res_body r = Some (qq "{`success`:true}"))
    (handleSecurityAlert request env).
Proof.
  unfold handleSecurityAlert.
  apply io_rel_lift_bind; intros payload.
  apply io_rel_lift_bind; intros [message|].
  { apply io_rel_ret. discriminate. }
  apply io_rel_lift_bind; intros appName.
  apply io_rel_lift_bind; intros name.
  destruct (not_set _); [apply io_rel_ret; discriminate|].
  do 4 (apply io_rel_lift_bind; intros ?).
  apply sent_response_rel.
Qed.

(** X28. A POST is answered 200 only on an alert path and only after the
    provider accepted the email: then the worker made exactly one outbound
    call, the provider answered it with a success status, and the body is
    [{`success`:true}]. *)
Theorem ok_means_accepted (request : Request) (env : Env) (now : number)
    (net : Network) :
  req_method request = "POST" ->
  res_status (snd (worker_fetch request env now net)) = 200 ->
  is_alert_path (req_pathname request) = true
  /\ accepted_once net (fst (worker_fetch request env now net))
  /\ res_body (snd (worker_fetch request env now net))
     = Some (qq "{`success`:true}").
Proof.
  intros Hm. unfold worker_fetch.
  rewrite Hm. simpl String.eqb. cbv iota. simpl negb. cbv iota.
  destruct (too_large _); [discriminate|]. cbv zeta.
  fold (is_alert_path (req_pathname request)).
  destruct (is_alert_path (req_pathname request)).
  - destruct (handleSecurityAlert request env net) as [calls [r|e]] eqn:Hh;
      [|discriminate].
    intros Hst. split; [reflexivity|].
    exact (handleSecurityAlert_rel _ _ _ _ _ Hh Hst).
  - destruct (String.eqb _ "/csp-report").
    + destruct (handleCspReport request env now net) as [calls [r|e]] eqn:Hh;
        [|discriminate].
      intros Hst. exfalso.
      destruct (handleCspReport_res request env now net) as [_ Hr].
      rewrite Hh in Hr. specialize (Hr r eq_refl).
      simpl in Hst. destruct Hr as [_ Hr]. simpl in Hr. lia.
    + discriminate.
Qed.

(** *** The inline revision *)

Lemma worker_fetch_inline_alert (request : Request) (env : Env) (now : number)
    (net : Network) :
  req_method request = "POST" ->
  is_alert_path (req_pathname request) = true ->
  worker_fetch_inline request env now net =
  (fst (handleSecurityAlert_inline request env net),
   match snd (handleSecurityAlert_inline request env net) with
   | Returns response => response
   | Throws _ => internal_error
   end).
Proof.
  intros Hm Hp. unfold worker_fetch_inline. rewrite Hm.
  simpl String.eqb. cbv iota. simpl negb. cbv iota zeta.
  unfold is_alert_path in Hp. rewrite Hp.
  now destruct (handleSecurityAlert_inline request env net) as [calls [r|e]].
Qed.

(** X29. The alert handler of the earlier [src/index.ts] only checks that
    [appName] is truthy: a payload whose [appName] is falsy is answered 400
    [Missing appName]; one whose [appName] is truthy and not a string, and
    the body [null], are answered 500 [Internal error]. No outbound call is
    made. *)
Theorem inline_appName_check (request : Request) (env : Env) (now : number)
    (net : Network) (payload : jsval) :
  req_method request = "POST" ->
  is_alert_path (req_pathname request) = true ->
  req_json request = Returns payload ->
  (nullish payload = true ->
   worker_fetch_inline request env now net = ([], internal_error))
  /\ (nullish payload = false ->
      truthy (field payload "appName") = false ->
      worker_fetch_inline request env now net =
        ([], {| res_status := 400;
                res_body := Some (qq "{`success`:false,`error`:`Missing appName`}");
                res_headers := corsHeaders ++ [("Content-Type", "application/json")] |}))
  /\ (nullish payload = false ->
      truthy (field payload "appName") = true ->
      is_string (field payload "appName") = false ->
      worker_fetch_inline request env now net = ([], internal_error)).
Proof.
  intros Hm Hp Hj. rewrite (worker_fetch_inline_alert _ _ _ _ Hm Hp).
  unfold handleSecurityAlert_inline. rewrite Hj, io_bind_returns.
  split; [|split].
  - intros Hn. unfold get_prop. rewrite Hn. now rewrite io_bind_throws.
  - intros Hn Ht. now rewrite (get_prop_field _ _ Hn), io_bind_returns, Ht.
  - intros Hn Ht Hs. rewrite (get_prop_field _ _ Hn), io_bind_returns, Ht.
    cbn [negb].
    destruct (field payload "appName"); try discriminate Hs;
      cbn [as_string]; now rewrite io_bind_throws.
Qed.

Lemma handleSecurityAlert_inline_status (request : Request) (env : Env) :
  io_post (fun r => res_status r <> 413) (handleSecurityAlert_inline request env).
Proof.
  unfold handleSecurityAlert_inline.
  apply io_post_bind; intros alert. apply io_post_bind; intros appName.
  destruct (negb _); [now apply io_post_ret|].
  apply io_post_bind; intros name.
  destruct (not_set _); [now apply io_post_ret|].
  do 4 (apply io_post_bind; intros ?).
  apply io_post_bind; intros emailSent.
  apply io_post_ret. simpl. now destruct emailSent.
Qed.

Lemma handleCspReport_inline_status (request : Request) (env : Env)
    (now : number) :
  io_post (fun r => res_status r <> 413) (handleCspReport_inline request env now).
Proof.
  unfold handleCspReport_inline.
  do 3 (apply io_post_bind; intros ?).
  destruct (not_set _); [now apply io_post_ret|].
  destruct (not_set _); [now apply io_post_ret|].
  do 5 (apply io_post_bind; intros ?).
  now apply io_post_ret.
Qed.

(** X30. The earlier [src/index.ts] has no size check: it never answers
    413, whatever the Content-Length of the request. *)
Theorem inline_never_413 (request : Request) (env : Env) (now : number)
    (net : Network) :
  res_status (snd (worker_fetch_inline request env now net)) <> 413.
Proof.
  unfold worker_fetch_inline.
  destruct (String.eqb (req_method request) "OPTIONS"); [discriminate|].
  destruct (negb _); [discriminate|]. cbv zeta.
  destruct (_ || _).
  - destruct (handleSecurityAlert_inline request env net) as [calls [r|e]] eqn:Hh;
      [|discriminate].
    exact (handleSecurityAlert_inline_status _ _ _ _ _ Hh).
  - destruct (String.eqb _ _).
    + destruct (handleCspReport_inline request env now net) as [calls [r|e]] eqn:Hh;
        [|discriminate].
      exact (handleCspReport_inline_status _ _ _ _ _ _ Hh).
    + discriminate.
Qed.

End Properties.

(** ** The theorems on the requests of the test suite *)

#[local] Existing Instance test_platform.

Lemma escapeHtml_correct_witness :
  has_html_meta "hello world" = false /\ escapeHtml "hello world" = "hello world".
Proof.
  split; [reflexivity|].
  apply (proj1 (proj2 (escapeHtml_correct "hello world"))). reflexivity.
Defined.

Lemma escapeHtml_script :
  escapeHtml (qq "<script>alert(`xss`)</script>")
  = "&lt;script&gt;alert(&quot;xss&quot;)&lt;/script&gt;".
Proof. reflexivity. Qed.

Lemma getRecipientEmail_resolves_witness :
  (ascii_text "mail-box" = true /\ ascii_text "Mail_Box" = true
   /\ names_agree "mail-box" "Mail_Box" = true)
  /\ getRecipientEmail "mail-box" mock_env = getRecipientEmail "Mail_Box" mock_env.
Proof.
  split; [repeat split|].
  apply (proj1 (proj2 (proj2 (proj2
           (getRecipientEmail_resolves mock_env "mail-box" "Mail_Box")))));
    reflexivity.
Defined.

Lemma inferAppName_cases_witness :
  (url_parse "not a url" = None /\ inferAppName (JStr "not a url") = None)
  /\ inferAppName (JStr "https://app.signic.email/inbox") = Some "mail_box"
  /\ inferAppName (JStr "chrome-extension://abcd1234/popup.html")
     = Some "mail_box_wallet"
  /\ inferAppName (JStr "https://unknown.com/page") = None.
Proof.
  split; [split; [reflexivity|]|split; [|split]].
  - apply (proj1 (inferAppName_cases "not a url")). reflexivity.
  - apply (proj2 (inferAppName_cases "https://app.signic.email/inbox")
             {| protocol := "https:"; hostname := "app.signic.email" |});
      reflexivity.
  - apply (proj2 (inferAppName_cases "chrome-extension://abcd1234/popup.html")
             {| protocol := "chrome-extension:"; hostname := "abcd1234" |});
      reflexivity.
  - apply (proj2 (inferAppName_cases "https://unknown.com/page")
             {| protocol := "https:"; hostname := "unknown.com" |});
      [reflexivity | reflexivity | discriminate].
Defined.

Lemma cspAlert_hostname_witness :
  let unparsed :=
    field (csp_report "https://app.signic.email/inbox" "not a url") "csp-report" in
  let parsed :=
    field (csp_report "https://app.signic.email/inbox"
             "https://tracker.com/pixel.gif") "csp-report" in
  (field unparsed "blocked-uri" = JStr "not a url"
   /\ exists alert,
        cspAlert "mail_box" unparsed (1700000000000 : number) = Returns alert
        /\ field alert "hostname" = JStr "not a url")
  /\ (field parsed "blocked-uri" = JStr "https://tracker.com/pixel.gif"
      /\ exists alert,
           cspAlert "mail_box" parsed (1700000000000 : number) = Returns alert
           /\ field alert "hostname" = JStr "tracker.com").
Proof.
  intros unparsed parsed. split; (split; [reflexivity|]).
  - destruct (cspAlert_hostname "mail_box" unparsed 1700000000000 "not a url"
                eq_refl)
      as [alert (Ha & _ & _ & _ & Hn)].
    exists alert. split; [exact Ha|]. apply Hn. reflexivity.
  - destruct (cspAlert_hostname "mail_box" parsed 1700000000000
                "https://tracker.com/pixel.gif" eq_refl)
      as [alert (Ha & _ & _ & Hp & _)].
    exists alert. split; [exact Ha|].
    apply (Hp {| protocol := "https:"; hostname := "tracker.com" |}).
    reflexivity.
Defined.

Lemma invalid_alert_rejected_witness :
  let request := post "/alert" None (Returns payload_without_appName) in
  expected_error payload_without_appName
    = Some "appName must be a non-empty string"
  /\ worker_fetch request mock_env (0 : @number test_platform) net_accepting
     = ([], json_response (error_body "appName must be a non-empty string") 400).
Proof.
  intros request. split; [reflexivity|].
  apply (proj2 (invalid_alert_rejected (P := test_platform) request mock_env 0
                  net_accepting payload_without_appName
                  "appName must be a non-empty string"
                  eq_refl eq_refl eq_refl)); reflexivity.
Defined.

(** C3: validation of the body [null]. The body [null] parses as JSON and
    has no [appName], so the alert handler is to answer 400 with the
    message [appName must be a non-empty string], as it does for every
    other body that is not an object; but [validateAlertPayload] reads
    [payload.appName] on [null] and throws, and the worker answers 500
    [Internal error]. No outbound call is made. *)
Theorem null_alert_body_is_answered_500 :
  let request := post "/alert" None (Returns JNull) in
  expected_error (P := test_platform) JNull
    = Some "appName must be a non-empty string"
  /\ handleSecurityAlert request mock_env net_accepting = ([], Throws TypeError)
  /\ worker_fetch request mock_env (0 : @number test_platform) net_accepting
     = ([], {| res_status := 500;
               res_body := Some (qq "{`success`:false,`error`:`Internal error`}");
               res_headers := corsHeaders ++ [("Content-Type", "application/json")] |}).
Proof. repeat split. Qed.

(** The bodies that are not objects and not [null] are answered 400. *)
Lemma non_object_bodies_are_answered_400 :
  let rejected :=
    ([] : list FetchRequest,
     json_response (error_body "appName must be a non-empty string") 400) in
  worker_fetch (post "/alert" None (Returns (JStr "abc"))) mock_env (0 : number)
    net_accepting = rejected
  /\ worker_fetch (post "/alert" None (Returns (@JNum test_platform 5))) mock_env
       (0 : number) net_accepting = rejected
  /\ worker_fetch (post "/alert" None (Returns (JArr []))) mock_env (0 : number)
       net_accepting = rejected.
Proof. repeat split. Qed.

Lemma unknown_app_asymmetry_witness :
  getRecipientEmail "ghost_app" mock_env = None
  /\ worker_fetch (post "/alert" None (Returns (alert_payload "ghost_app")))
       mock_env (0 : number) net_accepting
     = ([], {| res_status := 400;
               res_body := Some (qq "{`success`:false,`error`:`Unknown app`}");
               res_headers := corsHeaders ++ [("Content-Type", "application/json")] |})
  /\ worker_fetch
       (post "/csp-report" (Some "ghost_app")
          (Returns (csp_report "https://unknown.com/page" "https://cdn.com/lib.js")))
       mock_env (0 : number) net_accepting
     = ([], {| res_status := 204; res_body := None; res_headers := corsHeaders |}).
Proof.
  split; [reflexivity|]. split.
  - apply (proj1 (unknown_app_asymmetry
                    (post "/alert" None (Returns (alert_payload "ghost_app")))
                    mock_env 0 net_accepting "ghost_app"
                    eq_refl eq_refl eq_refl)
             (alert_payload "ghost_app")); reflexivity.
  - apply (proj2 (unknown_app_asymmetry
                    (post "/csp-report" (Some "ghost_app")
                       (Returns (csp_report "https://unknown.com/page"
                                   "https://cdn.com/lib.js")))
                    mock_env 0 net_accepting "ghost_app"
                    eq_refl eq_refl eq_refl)
             (csp_report "https://unknown.com/page" "https://cdn.com/lib.js"));
      reflexivity.
Defined.

(** C4: the unknown application of a CSP report whose body is [null]. The
    name [ghost_app] of the query does not resolve in the registry, so the
    worker is to answer 204 with no body; but the CSP handler reads the
    [csp-report] member of the body before it looks at the name, which
    throws on [null], and the worker answers 500 [Internal error]. No
    outbound call is made. *)
Theorem unknown_app_null_report_is_500 :
  let request := post "/csp-report" (Some "ghost_app") (Returns JNull) in
  getRecipientEmail "ghost_app" mock_env = None
  /\ req_appName request = Some "ghost_app"
  /\ handleCspReport request mock_env (0 : number) net_accepting
     = ([], Throws TypeError)
  /\ worker_fetch request mock_env (0 : number) net_accepting
     = ([], {| res_status := 500;
               res_body := Some (qq "{`success`:false,`error`:`Internal error`}");
               res_headers := corsHeaders ++ [("Content-Type", "application/json")] |}).
Proof. repeat split. Qed.

Lemma transport_outcome_propagation_witness :
  let payload := alert_payload "mail_box" in
  let options :=
    {| to := "mailbox@test.com";
       subject := "[Security Alert] mail_box: unauthorized_fetch";
       html := rendered payload |} in
  let report :=
    csp_report "https://app.signic.email/inbox" "https://tracker.com/pixel.gif" in
  let csp_options :=
    {| to := "mailbox@test.com";
       subject := "[CSP Violation] mail_box: img-src";
       html := rendered (synthesized "mail_box" report 1700000000000) |} in
  sendEmail mock_env options net_failing
    = ([sendgrid_request "test-api-key" (Some "security@test.com") options],
       Returns false)
  /\ handleSecurityAlert (post "/alert" None (Returns payload)) mock_env net_failing
     = ([sendgrid_request "test-api-key" (Some "security@test.com") options],
        Returns {| res_status := 500;
                   res_body := Some (qq "{`success`:false}");
                   res_headers :=
                     corsHeaders ++ [("Content-Type", "application/json")] |})
  /\ handleCspReport (post "/csp-report" None (Returns report)) mock_env
       (1700000000000 : number) net_failing
     = ([sendgrid_request "test-api-key" (Some "security@test.com") csp_options],
        Returns {| res_status := 204; res_body := None;
                   res_headers := corsHeaders |}).
Proof.
  intros payload options report csp_options.
  assert (Hs : sendEmail mock_env options net_failing
               = ([sendgrid_request "test-api-key" (Some "security@test.com") options],
                  Returns false)) by (vm_compute; reflexivity).
  assert (Hc : sendEmail mock_env csp_options net_failing
               = ([sendgrid_request "test-api-key" (Some "security@test.com")
                     csp_options],
                  Returns false)) by (vm_compute; reflexivity).
  split; [exact Hs|]. split.
  - apply (proj1 (transport_outcome_propagation
                    (post "/alert" None (Returns payload)) mock_env 0 net_failing
                    "mail_box" "mailbox@test.com" (rendered payload)
                    [sendgrid_request "test-api-key" (Some "security@test.com")
                       options]
                    false eq_refl ltac:(discriminate))
             payload "unauthorized_fetch");
      first [exact Hs | vm_compute; reflexivity].
  - apply (proj2 (transport_outcome_propagation
                    (post "/csp-report" None (Returns report)) mock_env
                    1700000000000 net_failing
                    "mail_box" "mailbox@test.com"
                    (rendered (synthesized "mail_box" report 1700000000000))
                    [sendgrid_request "test-api-key" (Some "security@test.com")
                       csp_options]
                    false eq_refl ltac:(discriminate))
             report (synthesized "mail_box" report 1700000000000) "img-src");
      first [exact Hc | vm_compute; reflexivity].
Defined.

Lemma csp_report_transport_failure :
  let report :=
    csp_report "https://app.signic.email/inbox" "https://tracker.com/pixel.gif" in
  snd (worker_fetch (post "/csp-report" None (Returns report)) mock_env
         (1700000000000 : number) net_failing)
  = {| res_status := 204; res_body := None; res_headers := corsHeaders |}
  /\ length (fst (worker_fetch (post "/csp-report" None (Returns report)) mock_env
                    (1700000000000 : number) net_failing)) = 1%nat.
Proof. vm_compute. split; reflexivity. Qed.

Lemma optional_blocks_rendered_witness :
  let alert := alert_with "appVersion" (JStr "1.2.3") in
  validateAlertPayload alert = Returns None
  /\ formatSecurityAlertEmail alert = Returns (rendered alert)
  /\ includes (rendered alert) (label_element "App Version") = true
  /\ includes (rendered alert) (label_element "Stack Trace") = false
  /\ includes (rendered alert) "1.2.3" = true.
Proof.
  intros alert.
  assert (Hv : validateAlertPayload alert = Returns None) by reflexivity.
  assert (Hf : formatSecurityAlertEmail alert = Returns (rendered alert))
    by (vm_compute; reflexivity).
  destruct (optional_blocks_rendered alert (rendered alert) Hv (or_introl Hf))
    as (H1 & H2 & _ & H4).
  split; [exact Hv|]. split; [exact Hf|]. split; [exact H1|].
  split; [exact H2|].
  apply (H4 "1.2.3"); [reflexivity | discriminate].
Defined.

(** C8, as stated, fails on an alert without [appVersion] whose [url] is the
    text [App Version]: the document holds that text, although no App
    Version block is rendered. *)
Lemma label_text_without_appVersion :
  validateAlertPayload alert_about_label = Returns None
  /\ field alert_about_label "appVersion" = JUndefined
  /\ formatSecurityAlertEmail alert_about_label
     = Returns (rendered alert_about_label)
  /\ includes (rendered alert_about_label) "App Version" = true
  /\ includes (rendered alert_about_label) (label_element "App Version") = false.
Proof. vm_compute. repeat split. Qed.

Lemma oversized_body_rejection_witness :
  let request :=
    {| req_method := "POST"; req_pathname := "/alert"; req_appName := None;
       req_content_length := Some "102401";
       req_json := Returns (alert_payload "mail_box") |} in
  let unsized := post "/alert" None (Returns (alert_payload "mail_box")) in
  parseInt "102401" = Some 102401
  /\ worker_fetch request mock_env (0 : number) net_accepting
     = ([], {| res_status := 413;
               res_body := Some (qq "{`success`:false,`error`:`Payload too large`}");
               res_headers := corsHeaders ++ [("Content-Type", "application/json")] |})
  /\ res_status (snd (worker_fetch unsized mock_env (0 : number) net_accepting))
     <> 413.
Proof.
  intros request unsized. split; [reflexivity|]. split.
  - apply (proj1 (oversized_body_rejection request mock_env 0 net_accepting eq_refl)
             "102401" 102401); [reflexivity | reflexivity | lia].
  - apply (proj1 (proj2 (oversized_body_rejection unsized mock_env 0 net_accepting
                           eq_refl))).
    reflexivity.
Defined.

Lemma body_at_the_limit_is_accepted :
  res_status
    (snd (worker_fetch
            {| req_method := "POST"; req_pathname := "/alert"; req_appName := None;
               req_content_length := Some "102400";
               req_json := Returns (alert_payload "mail_box") |}
            mock_env (0 : number) net_accepting)) = 200.
Proof. vm_compute. reflexivity. Qed.

(** C7: the transport on a network failure. With the credential set and
    the provider unreachable, [sendEmail] makes its call and throws; it
    does not return [false]. The alert endpoint then answers 500
    [Internal error], and the CSP endpoint 500 as well. *)
Theorem sendEmail_network_failure_throws :
  sendEmail mock_env mock_options net_unreachable
    = ([sendgrid_request "test-api-key" (Some "security@test.com") mock_options],
       Throws NetworkError)
  /\ snd (worker_fetch (post "/alert" None (Returns (alert_payload "mail_box")))
            mock_env (0 : number) net_unreachable)
     = {| res_status := 500;
          res_body := Some (qq "{`success`:false,`error`:`Internal error`}");
          res_headers := corsHeaders ++ [("Content-Type", "application/json")] |}
  /\ res_status
       (snd (worker_fetch
               (post "/csp-report" None
                  (Returns (csp_report "https://app.signic.email/inbox"
                              "https://tracker.com/pixel.gif")))
               mock_env (1700000000000 : number) net_unreachable)) = 500.
Proof. vm_compute. repeat split. Qed.

(** The other cases of C7 hold: without the credential the transport
    returns [false] and makes no call; on an error status whose body can be
    read it returns [false]; on a success status it returns [true]. *)
Lemma sendEmail_reported_outcomes :
  sendEmail (delete "SENDGRID_API_KEY" mock_env) mock_options net_accepting
    = ([], Returns false)
  /\ sendEmail (<["SENDGRID_API_KEY" := ""]> mock_env) mock_options net_accepting
     = ([], Returns false)
  /\ snd (sendEmail mock_env mock_options net_failing) = Returns false
  /\ snd (sendEmail mock_env mock_options net_accepting) = Returns true.
Proof. vm_compute. repeat split. Qed.


(** *** Further properties on the requests of the test suite *)

Lemma escapeHtml_twice_witness :
  has_html_meta "hello world" = false
  /\ escapeHtml (escapeHtml "hello world") = escapeHtml "hello world".
Proof.
  split; [reflexivity|].
  apply (proj2 (proj1 (proj2 (escapeHtml_twice "hello world")))). reflexivity.
Defined.

Lemma escapeHtml_injective_witness :
  "&lt;" <> "<" /\ escapeHtml "&lt;" <> escapeHtml "<".
Proof.
  split; [discriminate|]. intros E.
  apply (escapeHtml_injective "&lt;" "<") in E. discriminate E.
Defined.

Lemma registry_insert_lookup_witness :
  (ascii_text "mail-box" = true /\ ascii_text "Mail_Box" = true
   /\ normalized_name "mail-box" = normalized_name "Mail_Box")
  /\ getRecipientEmail "mail-box"
       (<["APP_" +:+ normalized_name "Mail_Box" +:+ "_EMAIL" := "team@test.com"]>
          mock_env)
     = Some "team@test.com".
Proof.
  split; [repeat split|].
  apply (proj1 (registry_insert_lookup "mail-box" "Mail_Box" "team@test.com"
                  mock_env eq_refl eq_refl)).
  reflexivity.
Defined.

Lemma validation_accepts_iff_witness :
  validateAlertPayload (alert_payload "mail_box") = Returns None
  /\ exists props name type url host n,
       alert_payload "mail_box" = JObj props
       /\ lookup_prop "appName" props = JStr name /\ name <> ""
       /\ lookup_prop "type" props = JStr type /\ In type VALID_ALERT_TYPES
       /\ lookup_prop "url" props = JStr url
       /\ lookup_prop "hostname" props = JStr host
       /\ lookup_prop "timestamp" props = JNum n.
Proof.
  split; [reflexivity|].
  apply (proj1 (validation_accepts_iff (alert_payload "mail_box"))).
  reflexivity.
Defined.

Lemma sendEmail_true_iff_witness :
  mock_env !! "SENDGRID_API_KEY" = Some "test-api-key"
  /\ snd (sendEmail mock_env mock_options net_accepting) = Returns true.
Proof.
  split; [reflexivity|].
  apply (proj2 (proj1 (sendEmail_true_iff mock_env mock_options net_accepting))).
  exists "test-api-key", {| fetch_status := 202; fetch_text := Returns "" |}.
  split; [reflexivity|]. split; [discriminate|]. split; reflexivity.
Defined.

Lemma outbound_calls_bounded_witness :
  let env := delete "SENDGRID_API_KEY" mock_env in
  not_set (env !! "SENDGRID_API_KEY") = true
  /\ fst (worker_fetch (post "/alert" None (Returns (alert_payload "mail_box")))
            env (0 : number) net_accepting) = [].
Proof.
  intros env. split; [reflexivity|].
  apply (proj1 (proj2 (outbound_calls_bounded
                         (post "/alert" None (Returns (alert_payload "mail_box")))
                         env 0 net_accepting))).
  reflexivity.
Defined.

Lemma post_statuses_witness :
  In (res_status
        (snd (worker_fetch
                (post "/csp-report" None
                   (Returns (csp_report "https://app.signic.email/inbox"
                               "https://tracker.com/pixel.gif")))
                mock_env (1700000000000 : number) net_failing)))
     [204; 413; 500].
Proof.
  apply (proj1 (proj2 (post_statuses
                         (post "/csp-report" None
                            (Returns (csp_report "https://app.signic.email/inbox"
                                        "https://tracker.com/pixel.gif")))
                         mock_env 1700000000000 net_failing eq_refl))).
  reflexivity.
Defined.

Lemma routing_outside_handlers_witness :
  worker_fetch (post "/unknown" None (Throws SyntaxError)) mock_env (0 : number)
    net_accepting
  = ([], {| res_status := 404; res_body := Some "Not found";
            res_headers := corsHeaders |}).
Proof.
  apply (proj2 (proj2 (routing_outside_handlers
                         (post "/unknown" None (Throws SyntaxError))
                         mock_env 0 net_accepting)));
    [reflexivity | reflexivity | reflexivity | discriminate].
Defined.

Lemma unparseable_body_is_500_witness :
  worker_fetch (post "/alert" None (Throws SyntaxError)) mock_env (0 : number)
    net_accepting
  = ([], {| res_status := 500;
            res_body := Some (qq "{`success`:false,`error`:`Internal error`}");
            res_headers := corsHeaders ++ [("Content-Type", "application/json")] |}).
Proof.
  apply (unparseable_body_is_500 (post "/alert" None (Throws SyntaxError))
           mock_env 0 net_accepting SyntaxError);
    [reflexivity | reflexivity | left; reflexivity | reflexivity].
Defined.

Lemma render_returns_iff_witness :
  validateAlertPayload (alert_payload "mail_box") = Returns None
  /\ exists doc, formatSecurityAlertEmail (alert_payload "mail_box") = Returns doc.
Proof.
  split; [reflexivity|].
  apply (proj2 (render_returns_iff (alert_payload "mail_box") eq_refl)).
  split.
  - intros n [= <-]. discriminate.
  - intros k [<-|[<-|[<-|[]]]] H; discriminate H.
Defined.

Lemma unrenderable_alert_is_500_witness :
  let payload := alert_with "appVersion" (@JNum test_platform 5) in
  validateAlertPayload payload = Returns None
  /\ truthy (field payload "appVersion") = true
  /\ worker_fetch (post "/alert" None (Returns payload)) mock_env (0 : number)
       net_accepting
     = ([], {| res_status := 500;
               res_body := Some (qq "{`success`:false,`error`:`Internal error`}");
               res_headers :=
                 corsHeaders ++ [("Content-Type", "application/json")] |}).
Proof.
  intros payload. split; [reflexivity|]. split; [reflexivity|].
  apply (unrenderable_alert_is_500 (post "/alert" None (Returns payload))
           mock_env 0 net_accepting payload "mail_box"
           eq_refl eq_refl eq_refl eq_refl eq_refl eq_refl eq_refl).
  right. exists "appVersion".
  split; [simpl; auto|]. split; reflexivity.
Defined.

Lemma rendered_tags_fixed_witness :
  let alert := alert_with "userAgent" (JStr "<script>evil()</script>") in
  validateAlertPayload alert = Returns None
  /\ formatSecurityAlertEmail alert = Returns (rendered alert)
  /\ count_char "<" (rendered alert) = 49%nat.
Proof.
  intros alert.
  assert (Hv : validateAlertPayload alert = Returns None) by reflexivity.
  assert (Hf : formatSecurityAlertEmail alert = Returns (rendered alert))
    by (vm_compute; reflexivity).
  split; [exact Hv|]. split; [exact Hf|].
  exact (rendered_tags_fixed alert (rendered alert) Hv Hf).
Defined.

Lemma document_frame_witness :
  let alert := alert_payload "mail_box" in
  validateAlertPayload alert = Returns None
  /\ formatSecurityAlertEmail alert = Returns (rendered alert)
  /\ starts_with "<!DOCTYPE html>" (rendered alert) = true.
Proof.
  intros alert.
  assert (Hv : validateAlertPayload alert = Returns None) by reflexivity.
  assert (Hf : formatSecurityAlertEmail alert = Returns (rendered alert))
    by (vm_compute; reflexivity).
  split; [exact Hv|]. split; [exact Hf|].
  exact (proj1 (document_frame alert (rendered alert) Hv (or_introl Hf))).
Defined.

Lemma no_script_element_witness :
  let alert := alert_payload "<script>xss</script>" in
  validateAlertPayload alert = Returns None
  /\ formatSecurityAlertEmail alert = Returns (rendered alert)
  /\ includes (rendered alert) "<script" = false.
Proof.
  intros alert.
  assert (Hv : validateAlertPayload alert = Returns None) by reflexivity.
  assert (Hf : formatSecurityAlertEmail alert = Returns (rendered alert))
    by (vm_compute; reflexivity).
  split; [exact Hv|]. split; [exact Hf|].
  exact (proj1 (no_script_element alert (rendered alert) Hv (or_introl Hf))).
Defined.

Lemma required_fields_rendered_witness :
  let alert := alert_payload "mail_box" in
  validateAlertPayload alert = Returns None
  /\ formatSecurityAlertEmail alert = Returns (rendered alert)
  /\ exists name type url host n tv,
       field alert "appName" = JStr name /\ field alert "type" = JStr type
       /\ field alert "url" = JStr url /\ field alert "hostname" = JStr host
       /\ field alert "timestamp" = JNum n /\ number_to_integer n = Some tv
       /\ includes (rendered alert) (toUpperCase (replace_all "_" " " type)) = true
       /\ includes (rendered alert) (escapeHtml name) = true
       /\ includes (rendered alert) (iso_string tv) = true
       /\ includes (rendered alert) (escapeHtml url) = true
       /\ includes (rendered alert) (escapeHtml host) = true.
Proof.
  intros alert.
  assert (Hv : validateAlertPayload alert = Returns None) by reflexivity.
  assert (Hf : formatSecurityAlertEmail alert = Returns (rendered alert))
    by (vm_compute; reflexivity).
  split; [exact Hv|]. split; [exact Hf|].
  exact (required_fields_rendered alert (rendered alert) Hv (or_introl Hf)).
Defined.

Lemma user_agent_block_witness :
  let alert := alert_with "userAgent" (JStr "Mozilla/5.0") in
  validateAlertPayload alert = Returns None
  /\ formatSecurityAlertEmail alert = Returns (rendered alert)
  /\ includes (rendered alert) (label_element "User Agent") = true
  /\ includes (rendered alert) "Mozilla/5.0" = true.
Proof.
  intros alert.
  assert (Hv : validateAlertPayload alert = Returns None) by reflexivity.
  assert (Hf : formatSecurityAlertEmail alert = Returns (rendered alert))
    by (vm_compute; reflexivity).
  destruct (user_agent_block alert (rendered alert) Hv Hf) as (H1 & H2 & _).
  split; [exact Hv|]. split; [exact Hf|]. split; [exact H1|].
  apply (H2 "Mozilla/5.0"); [reflexivity | discriminate].
Defined.

Lemma inline_omits_user_agent_witness :
  let alert := alert_with "userAgent" (JStr "Mozilla/5.0") in
  validateAlertPayload alert = Returns None
  /\ formatSecurityAlertEmail_inline alert = Returns (rendered_inline alert)
  /\ includes (rendered_inline alert) (label_element "User Agent") = false.
Proof.
  intros alert.
  assert (Hv : validateAlertPayload alert = Returns None) by reflexivity.
  assert (Hf : formatSecurityAlertEmail_inline alert
               = Returns (rendered_inline alert))
    by (vm_compute; reflexivity).
  split; [exact Hv|]. split; [exact Hf|].
  exact (inline_omits_user_agent alert (rendered_inline alert) Hv Hf).
Defined.

Lemma cspAlert_valid_iff_witness :
  let report :=
    csp_report "https://app.signic.email/inbox" "https://tracker.com/pixel.gif" in
  cspAlert "mail_box" (field report "csp-report") (1700000000000 : number)
    = Returns (synthesized "mail_box" report 1700000000000)
  /\ validateAlertPayload (synthesized "mail_box" report 1700000000000)
     = Returns None.
Proof.
  intros report. split; [reflexivity|].
  apply (proj2 (cspAlert_valid_iff "mail_box" (field report "csp-report")
                  1700000000000 (synthesized "mail_box" report 1700000000000)
                  eq_refl)).
  split; [discriminate | reflexivity].
Defined.

Lemma csp_email_blocks_witness :
  let report :=
    csp_report "https://app.signic.email/inbox" "https://tracker.com/pixel.gif" in
  let alert := synthesized "mail_box" report 1700000000000 in
  cspAlert "mail_box" (field report "csp-report") (1700000000000 : number)
    = Returns alert
  /\ formatSecurityAlertEmail alert = Returns (rendered alert)
  /\ includes (rendered alert) "CSP VIOLATION" = true
  /\ includes (rendered alert) (label_element "Additional Details") = true
  /\ includes (rendered alert) (label_element "Stack Trace") = false.
Proof.
  intros report alert.
  assert (Hf : formatSecurityAlertEmail alert = Returns (rendered alert))
    by (vm_compute; reflexivity).
  destruct (csp_email_blocks "mail_box" (field report "csp-report")
              1700000000000 alert (rendered alert)
              ltac:(discriminate) eq_refl eq_refl (or_introl Hf))
    as (H1 & H2 & _ & _ & H5).
  split; [reflexivity|]. split; [exact Hf|]. split; [exact H1|].
  split; [exact H2 | exact H5].
Defined.

Lemma csp_unidentified_app_witness :
  let report := csp_report "https://unknown.com/page" "https://cdn.com/lib.js" in
  inferAppName (field (field report "csp-report") "document-uri") = None
  /\ worker_fetch (post "/csp-report" None (Returns report)) mock_env
       (0 : number) net_accepting
     = ([], {| res_status := 204; res_body := None; res_headers := corsHeaders |}).
Proof.
  intros report. split; [reflexivity|].
  apply (csp_unidentified_app (post "/csp-report" None (Returns report))
           mock_env 0 net_accepting report); reflexivity.
Defined.


Lemma csp_without_blocked_uri_witness :
  is_string (field (field report_without_blocked_uri "csp-report") "blocked-uri")
    = false
  /\ worker_fetch (post "/csp-report" None (Returns report_without_blocked_uri))
       mock_env (1700000000000 : number) net_accepting
     = ([], internal_error).
Proof.
  split; [reflexivity|].
  apply (csp_without_blocked_uri
           (post "/csp-report" None (Returns report_without_blocked_uri))
           mock_env 1700000000000 net_accepting report_without_blocked_uri
           "mail_box"); reflexivity.
Defined.

Lemma csp_inferred_recipient_witness :
  let report :=
    csp_report "https://app.signic.email/inbox" "https://tracker.com/pixel.gif" in
  let alert := synthesized "mail_box" report 1700000000000 in
  url_parse "https://app.signic.email/inbox"
    = Some {| protocol := "https:"; hostname := "app.signic.email" |}
  /\ fst (worker_fetch (post "/csp-report" None (Returns report)) mock_env
            (1700000000000 : number) net_accepting)
     = [sendgrid_request "test-api-key" (mock_env !! "FROM_EMAIL")
          {| to := "mailbox@test.com";
             subject := "[CSP Violation] mail_box: img-src";
             html := rendered alert |}].
Proof.
  intros report alert. split; [reflexivity|].
  apply (csp_inferred_recipient
           (post "/csp-report" None (Returns report)) mock_env 1700000000000
           net_accepting report alert "https://app.signic.email/inbox"
           {| protocol := "https:"; hostname := "app.signic.email" |}
           "mailbox@test.com" "test-api-key" "img-src" (rendered alert));
    first [ reflexivity | discriminate | left; reflexivity
          | vm_compute; reflexivity ].
Defined.

Lemma ok_means_accepted_witness :
  let request := post "/alert" None (Returns (alert_payload "mail_box")) in
  res_status (snd (worker_fetch request mock_env (0 : number) net_accepting)) = 200
  /\ accepted_once net_accepting
       (fst (worker_fetch request mock_env (0 : number) net_accepting)).
Proof.
  intros request.
  assert (H : res_status
                (snd (worker_fetch request mock_env (0 : number) net_accepting))
              = 200) by (vm_compute; reflexivity).
  split; [exact H|].
  exact (proj1 (proj2 (ok_means_accepted request mock_env 0 net_accepting
                         eq_refl H))).
Defined.

Lemma inline_appName_check_witness :
  truthy (field payload_without_appName "appName") = false
  /\ worker_fetch_inline (post "/alert" None (Returns payload_without_appName))
       mock_env (0 : number) net_accepting
     = ([], {| res_status := 400;
               res_body := Some (qq "{`success`:false,`error`:`Missing appName`}");
               res_headers :=
                 corsHeaders ++ [("Content-Type", "application/json")] |}).
Proof.
  split; [reflexivity|].
  apply (proj1 (proj2 (inline_appName_check
                         (post "/alert" None (Returns payload_without_appName))
                         mock_env 0 net_accepting payload_without_appName
                         eq_refl eq_refl eq_refl))); reflexivity.
Defined.
